(** * Track Splitter (KiCad action plugin): a model of [track_splitter_plugin.py]

    The plugin replaces every track of one net by a bus of [num_splits]
    parallel tracks.  This file embeds the source: the core,
    [TrackSplitterPlugin.split_tracks] (lines 122-192), with the Python
    numbers it computes with and the part of the [pcbnew] board it reads and
    mutates; the settings dialog, [SettingsDialog.__init__] and
    [get_settings] (lines 21-79), without its layout; and
    [TrackSplitterPlugin.Run] (lines 92-120), which opens the dialog and
    calls the core.  Then it proves properties of the result.

    Conventions.
    - A Python [int] is a [Z].  A Python [float] is an IEEE 754 binary64
      number, a [spec_float] at precision 53 and exponent bound 1024, with
      the operations of the Standard Library's [SpecFloat]: they are the
      specification of the processor's operations, and they compute.
    - A Python exception that nothing catches ends [split_tracks]; the board
      keeps every mutation made before it.  Computations that can raise
      return a [result]; computations on the board are state passing and
      return the board together with a [result].
    - The message boxes of [wx] are the [Outcome] of the run;
      [pcbnew.Refresh] has no part in the model.
    - [pcbnew] objects have identity: a [handle].  The board lists its tracks
      and groups with their handles, in the order of the [Add] calls (the
      order [pcbnew] itself keeps is not in the source).  A new object gets
      an identity that no object of the board has.
    - Coordinates and lengths are integers of the internal unit, the
      nanometre.  [pcbnew] keeps them in 32 bits and refuses what does not
      fit; the model keeps them as [Z] and has no such refusal, and the
      theorems on the geometry take the coordinates of the track and the
      group width in the range of [pcbnew].
    - [pcbnew.FromMM] is not part of the source file; it is a parameter.  So
      are Python's [float] and [int] on a [str], and the operator in front
      of the dialog.  What the dialog reads of the board beyond its tracks,
      the net codes and which tracks are selected, is given with the board.
    - A Python [str] is a [string], the bytes of its text in UTF-8. *)

From Stdlib Require Import ZArith List Lia Bool String QArith Qabs.
From Stdlib Require Import Floats.SpecFloat.
From Stdlib Require Import Sorting.Sorted Sorting.Permutation RelationClasses.
From Stdlib Require OrdersEx.
Import ListNotations.
Open Scope Z_scope.

(** ** Python exceptions and results *)

Inductive PyExc : Type :=
| ZeroDivisionError
| OverflowError
| ValueError.

Inductive result (A : Type) : Type :=
| Ok (a : A)
| Raise (e : PyExc).
Arguments Ok {A} a.
Arguments Raise {A} e.

Definition rbind {A B : Type} (r : result A) (k : A -> result B) : result B :=
  match r with
  | Ok a => k a
  | Raise e => Raise e
  end.

Declare Scope py_scope.
Delimit Scope py_scope with py.
Notation "'let?' x ':=' r 'in' k" := (rbind r (fun x => k))
  (at level 10, x name, r at level 100, k at level 200) : py_scope.

(** ** Python numbers *)

Module Py.

(** binary64: 53 bits of precision, exponents below 1024. *)
Definition prec : Z := 53.
Definition emax : Z := 1024.

Definition fadd : spec_float -> spec_float -> spec_float := SFadd prec emax.
Definition fmul : spec_float -> spec_float -> spec_float := SFmul prec emax.
Definition fneg : spec_float -> spec_float := SFopp.

(** An operation whose IEEE result is an infinity although its arguments
    are not raises [OverflowError] where Python converts or divides
    integers. *)
Definition no_overflow (f : spec_float) : result spec_float :=
  match f with
  | S754_infinity _ => Raise OverflowError
  | _ => Ok f
  end.

(** [float(z)], the conversion applied to an [int] operand of a mixed
    operation: the nearest binary64 number, ties to even. *)
Definition float_of_int (z : Z) : result spec_float :=
  no_overflow (binary_normalize prec emax z 0 false).

(** [a / b] on two [int]s: the correctly rounded quotient. *)
Definition int_truediv (a b : Z) : result spec_float :=
  if b =? 0 then Raise ZeroDivisionError
  else if a =? 0 then Ok (S754_zero (b <? 0))
  else
    let '(q, e, l) :=
      SFdiv_core_binary prec emax (Z.abs a) 0 (Z.abs b) 0 in
    no_overflow (binary_round_aux prec emax (xorb (a <? 0) (b <? 0)) q e l).

Definition is_zero (f : spec_float) : bool :=
  match f with
  | S754_zero _ => true
  | _ => false
  end.

(** [x / y] on two [float]s. *)
Definition float_truediv (x y : spec_float) : result spec_float :=
  if is_zero y then Raise ZeroDivisionError else Ok (SFdiv prec emax x y).

(** [a / y], an [int] by a [float]. *)
Definition int_truediv_float (a : Z) (y : spec_float) : result spec_float :=
  (let? x := float_of_int a in float_truediv x y)%py.

(** [x + b], a [float] plus an [int]. *)
Definition float_add_int (x : spec_float) (b : Z) : result spec_float :=
  (let? y := float_of_int b in Ok (fadd x y))%py.

(** [a ** 0.5] on a non-negative [int]: the operand is converted and the
    platform's [pow] is called; [pow(x, 0.5)] is taken to be the IEEE
    square root. *)
Definition int_pow_half (a : Z) : result spec_float :=
  (let? x := float_of_int a in Ok (SFsqrt prec emax x))%py.

(** The integer nearest to [m / 2^k], ties to the even one ([0 < k]). *)
Definition round_half_even (m k : Z) : Z :=
  let q := m / 2 ^ k in
  let r := m mod 2 ^ k in
  let h := 2 ^ (k - 1) in
  if r <? h then q
  else if h <? r then q + 1
  else if Z.even q then q else q + 1.

(** [round(x)] with one argument: an [int], ties to even; it raises on an
    infinity or a NaN. *)
Definition round (x : spec_float) : result Z :=
  match x with
  | S754_zero _ => Ok 0
  | S754_infinity _ => Raise OverflowError
  | S754_nan => Raise ValueError
  | S754_finite s m e =>
      Ok (cond_Zopp s (if 0 <=? e then Zpos m * 2 ^ e
                       else round_half_even (Zpos m) (- e)))
  end.

(** [range(n)]. *)
Definition range (n : Z) : list Z := map Z.of_nat (seq 0 (Z.to_nat n)).

(** The rational number a finite [float] stands for. *)
Definition value (x : spec_float) : Q :=
  match x with
  | S754_finite s m e =>
      if 0 <=? e then inject_Z (cond_Zopp s (Zpos m) * 2 ^ e)
      else Qmake (cond_Zopp s (Zpos m)) (Z.to_pos (2 ^ (- e)))
  | _ => 0%Q
  end.

Definition is_finite (x : spec_float) : bool :=
  match x with
  | S754_zero _ | S754_finite _ _ _ => true
  | _ => false
  end.

End Py.

(** ** The part of [pcbnew] the plugin uses *)

(** The identity of an object. *)
Abbreviation handle := nat.

Record VECTOR2I : Type := { x : Z; y : Z }.

(** [a + b] on two [VECTOR2I]. *)
Definition vadd (a b : VECTOR2I) : VECTOR2I :=
  {| x := x a + x b; y := y a + y b |}.

(** [a - b], componentwise. *)
Definition vsub (a b : VECTOR2I) : VECTOR2I :=
  {| x := x a - x b; y := y a - y b |}.

Record TRACK : Type := {
  GetStart : VECTOR2I;
  GetEnd : VECTOR2I;
  GetWidth : Z;
  GetNetCode : Z;
  GetLayer : Z
}.

(** [pcbnew.TRACK(board)]: every field the model keeps is set by the plugin
    before the track is added, so the initial values never show. *)
Definition new_TRACK : TRACK :=
  {| GetStart := {| x := 0; y := 0 |}; GetEnd := {| x := 0; y := 0 |};
     GetWidth := 0; GetNetCode := 0; GetLayer := 0 |}.

Definition SetStart (v : VECTOR2I) (t : TRACK) : TRACK :=
  {| GetStart := v; GetEnd := GetEnd t; GetWidth := GetWidth t;
     GetNetCode := GetNetCode t; GetLayer := GetLayer t |}.
Definition SetEnd (v : VECTOR2I) (t : TRACK) : TRACK :=
  {| GetStart := GetStart t; GetEnd := v; GetWidth := GetWidth t;
     GetNetCode := GetNetCode t; GetLayer := GetLayer t |}.
Definition SetWidth (w : Z) (t : TRACK) : TRACK :=
  {| GetStart := GetStart t; GetEnd := GetEnd t; GetWidth := w;
     GetNetCode := GetNetCode t; GetLayer := GetLayer t |}.
Definition SetNetCode (c : Z) (t : TRACK) : TRACK :=
  {| GetStart := GetStart t; GetEnd := GetEnd t; GetWidth := GetWidth t;
     GetNetCode := c; GetLayer := GetLayer t |}.
Definition SetLayer (l : Z) (t : TRACK) : TRACK :=
  {| GetStart := GetStart t; GetEnd := GetEnd t; GetWidth := GetWidth t;
     GetNetCode := GetNetCode t; GetLayer := l |}.

(** The board: its tracks and its groups, each object with its identity (a
    group with the identities of its members), and the name of every net
    code. *)
Record BOARD : Type := {
  GetTracks : list (handle * TRACK);
  Groups : list (handle * list handle);
  netnames : Z -> string
}.

(** [track.GetNetname()]: the name of the track's net on its board. *)
Definition GetNetname (board : BOARD) (t : TRACK) : string :=
  netnames board (GetNetCode t).

(** Every identity the board mentions. *)
Definition handles (b : BOARD) : list handle :=
  map fst (GetTracks b) ++ flat_map (fun g => fst g :: snd g) (Groups b).

(** State passing over the board; an exception keeps the board as it is at
    the raise. *)
Definition M (A : Type) : Type := BOARD -> BOARD * result A.

Definition ret {A : Type} (a : A) : M A := fun b => (b, Ok a).

Definition bind {A B : Type} (m : M A) (k : A -> M B) : M B :=
  fun b =>
    match m b with
    | (b', Ok a) => k a b'
    | (b', Raise e) => (b', Raise e)
    end.

Definition lift {A : Type} (r : result A) : M A := fun b => (b, r).

Declare Scope board_scope.
Delimit Scope board_scope with board.
Notation "x <- m ;; k" := (bind m (fun x => k))
  (at level 61, m at next level, right associativity) : board_scope.
Notation "m ;; k" := (bind m (fun _ => k))
  (at level 61, right associativity) : board_scope.

(** A constructor call, [pcbnew.GROUP(board)] or [pcbnew.TRACK(board)]: an
    object that is none of the board's.  The plugin adds every object to the
    board before it makes the next one. *)
Definition new_object : M handle :=
  fun b => (b, Ok (S (list_max (handles b)))).

(** [board.Add(new_group)], the group still empty. *)
Definition Add_group (g : handle) : M unit :=
  fun b =>
    ({| GetTracks := GetTracks b; Groups := Groups b ++ [(g, [])];
        netnames := netnames b |}, Ok tt).

(** [board.Add(t)]. *)
Definition Add_track (h : handle) (t : TRACK) : M unit :=
  fun b =>
    ({| GetTracks := GetTracks b ++ [(h, t)]; Groups := Groups b;
        netnames := netnames b |}, Ok tt).

(** [new_group.AddItem(t)]: the group is the object the board holds, so the
    board sees the new member. *)
Definition AddItem (g h : handle) : M unit :=
  fun b =>
    ({| GetTracks := GetTracks b;
        Groups := map (fun gi => if Nat.eqb (fst gi) g
                                 then (fst gi, snd gi ++ [h]) else gi)
                      (Groups b);
        netnames := netnames b |}, Ok tt).

(** [board.Remove(track)]: the track leaves the list of tracks. *)
Definition Remove (h : handle) : M unit :=
  fun b =>
    ({| GetTracks := filter (fun ht => negb (Nat.eqb (fst ht) h)) (GetTracks b);
        Groups := Groups b;
        netnames := netnames b |}, Ok tt).

(** A [for] loop over a list, with the local variables it updates. *)
Fixpoint for_each {A S : Type} (l : list A) (body : A -> S -> M S) (s : S)
  : M S :=
  match l with
  | [] => ret s
  | a :: l' => (s' <- body a s ;; for_each l' body s')%board
  end.

(** ** The plugin *)

(** The dictionary [SettingsDialog.get_settings] returns. *)
Record Settings : Type := {
  net_name : string;
  split_width : spec_float;
  internal_sep : spec_float;
  num_splits : Z
}.

(** What the operator sees when [split_tracks] ends: one of its three message
    boxes, or an exception that nothing caught. *)
Inductive Outcome : Type :=
| ErrorBox_splits_below_1
| InfoBox_no_tracks (name : string)
| FinishedBox (processed : nat) (created : Z)
| Uncaught (e : PyExc).

Section Plugin.

(** [pcbnew.FromMM]: millimetres to internal units (nanometres). *)
Variable FromMM : spec_float -> Z.

Definition split_width_iu (settings : Settings) : Z :=
  FromMM (split_width settings).

Definition internal_sep_iu (settings : Settings) : Z :=
  FromMM (internal_sep settings).

(** Line 135. *)
Definition group_width_iu (settings : Settings) : Z :=
  split_width_iu settings * num_splits settings
  + internal_sep_iu settings * (num_splits settings - 1).

(** Stage 1 (lines 138-141): the tracks of the chosen net. *)
Definition tracks_to_process (board : BOARD) (original_net_name : string)
  : list (handle * TRACK) :=
  fold_left
    (fun acc track =>
       if String.eqb (GetNetname board (snd track)) original_net_name
       then acc ++ [track] else acc)
    (GetTracks board) [].

(** Line 158. *)
Definition direction (track : TRACK) : VECTOR2I :=
  {| x := x (GetEnd track) - x (GetStart track);
     y := y (GetEnd track) - y (GetStart track) |}.

(** Lines 159-161: [(unit_dx, unit_dy)]. *)
Definition unit_vec (track : TRACK) : result (spec_float * spec_float) :=
  (let d := direction track in
   let? length := Py.int_pow_half (x d ^ 2 + y d ^ 2) in
   let? unit_dx := Py.int_truediv_float (x d) length in
   let? unit_dy := Py.int_truediv_float (y d) length in
   Ok (unit_dx, unit_dy))%py.

(** Lines 162-163: the perpendicular [(shift_vec_x, shift_vec_y)]. *)
Definition shift_vec (track : TRACK) : result (spec_float * spec_float) :=
  (let? u := unit_vec track in Ok (Py.fneg (snd u), fst u))%py.

(** Line 166. *)
Definition offset_iu (settings : Settings) (i : Z) : result spec_float :=
  (let? a := Py.int_truediv (- group_width_iu settings) 2 in
   let? b := Py.float_add_int a
               (i * (split_width_iu settings + internal_sep_iu settings)) in
   let? c := Py.int_truediv (split_width_iu settings) 2 in
   Ok (Py.fadd b c))%py.

(** Lines 166-169. *)
Definition shift (settings : Settings) (sv : spec_float * spec_float)
  (i : Z) : result VECTOR2I :=
  (let? offset := offset_iu settings i in
   let? shift_x := Py.round (Py.fmul (fst sv) offset) in
   let? shift_y := Py.round (Py.fmul (snd sv) offset) in
   Ok {| x := shift_x; y := shift_y |})%py.

(** Lines 171-176: the track the loop builds from a shift. *)
Definition shifted_track (settings : Settings) (track : TRACK)
  (sh : VECTOR2I) : TRACK :=
  SetLayer (GetLayer track)
    (SetNetCode (GetNetCode track)
       (SetWidth (split_width_iu settings)
          (SetEnd (vadd (GetEnd track) sh)
             (SetStart (vadd (GetStart track) sh) new_TRACK)))).

(** Lines 165-180: one turn of the inner loop. *)
Definition add_split (settings : Settings) (track : TRACK)
  (new_group : handle) (sv : spec_float * spec_float)
  (i : Z) (new_tracks_count : Z) : M Z :=
  (sh <- lift (shift settings sv i) ;;
   t <- new_object ;;
   Add_track t (shifted_track settings track sh) ;;
   AddItem new_group t ;;
   ret (new_tracks_count + 1))%board.

(** Lines 150-182: one turn of the outer loop. *)
Definition process_track (settings : Settings) (track : handle * TRACK)
  (new_tracks_count : Z) : M Z :=
  (new_group <- new_object ;;
   Add_group new_group ;;
   sv <- lift (shift_vec (snd track)) ;;
   count <- for_each (Py.range (num_splits settings))
              (add_split settings (snd track) new_group sv)
              new_tracks_count ;;
   Remove (fst track) ;;
   ret count)%board.

(** Lines 122-192. *)
Definition split_tracks (board : BOARD) (settings : Settings)
  : BOARD * Outcome :=
  let original_net_name := net_name settings in
  if num_splits settings <? 1 then (board, ErrorBox_splits_below_1)
  else
    let selected := tracks_to_process board original_net_name in
    match selected with
    | [] => (board, InfoBox_no_tracks original_net_name)
    | _ =>
        match for_each selected (process_track settings) 0 board with
        | (board', Ok new_tracks_count) =>
            (board', FinishedBox (List.length selected) new_tracks_count)
        | (board', Raise e) => (board', Uncaught e)
        end
    end.

End Plugin.

(** ** Definitions for the statements *)

(** *** Binary64 numbers *)

(** The binary64 number [k * 2^e], for [k] of at most 53 binary digits. *)
Definition dyad (k e : Z) : spec_float :=
  match k with
  | 0 => S754_zero false
  | _ => S754_finite (k <? 0)
           (Z.to_pos (Z.abs k * 2 ^ (53 - Zdigits2 k)))
           (e + Zdigits2 k - 53)
  end.

(** The binary64 number [k / 2]. *)
Definition half (k : Z) : spec_float := dyad k (-1).

(** Normal numbers: a mantissa of 53 digits, the exponent between two
    bounds. *)
Definition normal (lo hi : Z) (f : spec_float) : Prop :=
  match f with
  | S754_finite _ m e => Zdigits2 (Zpos m) = 53 /\ lo <= e <= hi
  | _ => False
  end.

Definition zero_or_normal (lo hi : Z) (f : spec_float) : Prop :=
  match f with
  | S754_zero _ => True
  | _ => normal lo hi f
  end.

Definition Zsum (l : list Z) : Z := fold_right Z.add 0 l.

Definition Qsum (l : list Q) : Q := fold_right Qplus 0%Q l.

(** *** Boards *)

(** The board after [board.Add(new_group)] alone. *)
Definition with_empty_group (b : BOARD) : BOARD :=
  {| GetTracks := GetTracks b;
     Groups := Groups b ++ [(S (list_max (handles b)), [])];
     netnames := netnames b |}.

(** The board with one more group [g] and its members [new], all added. *)
Definition with_cluster (b : BOARD) (g : handle) (new : list (handle * TRACK))
  : BOARD :=
  {| GetTracks := GetTracks b ++ new;
     Groups := Groups b ++ [(g, map fst new)];
     netnames := netnames b |}.

(** The board without the track [h]. *)
Definition without (b : BOARD) (h : handle) : BOARD :=
  {| GetTracks := filter (fun ht => negb (Nat.eqb (fst ht) h)) (GetTracks b);
     Groups := Groups b;
     netnames := netnames b |}.

(** The board with the track [h] replaced by the cluster [new], grouped as
    [g]. *)
Definition replaced (b : BOARD) (h g : handle) (new : list (handle * TRACK))
  : BOARD :=
  {| GetTracks :=
       filter (fun ht => negb (Nat.eqb (fst ht) h)) (GetTracks b) ++ new;
     Groups := Groups b ++ [(g, map fst new)];
     netnames := netnames b |}.

(** The identities of [k] objects made one after the other, after [g]. *)
Definition handles_after (g : handle) (k : nat) : list handle := seq (S g) k.

(** *** Ranges *)

(** [pcbnew] keeps a coordinate or a length as a signed integer of 32 bits,
    in nanometres. *)
Definition int32 (z : Z) : Prop := - 2 ^ 31 <= z < 2 ^ 31.

(** The ends of the track are coordinates of [pcbnew]. *)
Definition pcbnew_track (track : TRACK) : Prop :=
  int32 (x (GetStart track)) /\ int32 (y (GetStart track))
  /\ int32 (x (GetEnd track)) /\ int32 (y (GetEnd track)).

Section Statements.

Variable FromMM : spec_float -> Z.

(** The configurations the specification calls valid. *)
Definition valid_config (settings : Settings) : Prop :=
  1 <= num_splits settings
  /\ 0 < split_width_iu FromMM settings
  /\ 0 <= internal_sep_iu FromMM settings.

(** The bus fits the coordinate space of [pcbnew]: the group width of line
    135 is a length of 32 bits, and with it every width, separation and
    offset of a valid configuration. *)
Definition pcbnew_config (settings : Settings) : Prop :=
  int32 (group_width_iu FromMM settings).

(** The group width is below [2^52] internal units: line 166 then computes
    with integers and half-integers that binary64 holds exactly. *)
Definition exact_offsets (settings : Settings) : Prop :=
  group_width_iu FromMM settings < 2 ^ 52.

(** The offset of split [i], counted in halves of the internal unit. *)
Definition offset_halves (settings : Settings) (i : Z) : Z :=
  - group_width_iu FromMM settings
  + 2 * (i * (split_width_iu FromMM settings + internal_sep_iu FromMM settings))
  + split_width_iu FromMM settings.



(** The tracks of a cluster, from their shifts. *)
Definition new_tracks (settings : Settings) (track : TRACK) (g : handle)
  (shs : list VECTOR2I) : list (handle * TRACK) :=
  combine (handles_after g (List.length shs))
          (map (shifted_track FromMM settings track) shs).

(** The shifts of the splits [l], up to the first that raises. *)
Fixpoint shifts (settings : Settings) (sv : spec_float * spec_float)
  (l : list Z) : list VECTOR2I * option PyExc :=
  match l with
  | [] => ([], None)
  | i :: l' =>
      match shift FromMM settings sv i with
      | Ok sh =>
          let (shs, r) := shifts settings sv l' in (sh :: shs, r)
      | Raise e => ([], Some e)
      end
  end.

End Statements.

(** *** The whole run *)

(** The track is not of the net [name]. *)
Definition on_other_net (board : BOARD) (name : string)
  (ht : handle * TRACK) : bool :=
  negb (String.eqb (GetNetname board (snd ht)) name).

(** The track is none of the objects [done]. *)
Definition not_among (done : list handle) (ht : handle * TRACK) : bool :=
  negb (existsb (Nat.eqb (fst ht)) done).

(** A cluster: the identity of its group and its tracks.  The group as the
    board holds it: *)
Definition group_of (c : handle * list (handle * TRACK))
  : handle * list handle :=
  (fst c, map fst (snd c)).

(** The board with the tracks [done] replaced by [clusters], one turn of the
    outer loop after the other. *)
Definition with_clusters (b : BOARD) (done : list handle)
  (clusters : list (handle * list (handle * TRACK))) : BOARD :=
  {| GetTracks := filter (not_among done) (GetTracks b) ++ flat_map snd clusters;
     Groups := Groups b ++ map group_of clusters;
     netnames := netnames b |}.

(** Every identity of the cluster is above [m]: the cluster is made of
    objects that a board with identities up to [m] does not have. *)
Definition made_after (m : handle) (c : handle * list (handle * TRACK))
  : Prop :=
  (m < fst c)%nat /\ Forall (fun ht => (m < fst ht)%nat) (snd c).

(** The tracks of the other nets are the tracks [board] had, with the net
    names of [board]. *)
Definition keeps_other_nets (board : BOARD) (name : string) (b : BOARD)
  : Prop :=
  netnames b = netnames board
  /\ filter (on_other_net board name) (GetTracks b)
     = filter (on_other_net board name) (GetTracks board).

(** The groups of [board] are the first groups of [b], unchanged, and the
    other groups of [b] are made of objects that [board] does not have. *)
Definition keeps_groups (board b : BOARD) : Prop :=
  exists gs : list (handle * list handle),
    Groups b = Groups board ++ gs
    /\ Forall (fun g => Forall (fun h => ~ In h (handles board))
                          (fst g :: snd g)) gs.

Section Bus.

Variable FromMM : spec_float -> Z.

(** [new] is a bus for [track]: [num_splits] tracks of the split width, on
    the layer and the net of [track], each a translate of it. *)
Definition bus_of (settings : Settings) (track : TRACK)
  (new : list (handle * TRACK)) : Prop :=
  Z.of_nat (List.length new) = num_splits settings
  /\ Forall (fun ht =>
               GetLayer (snd ht) = GetLayer track
               /\ GetNetCode (snd ht) = GetNetCode track
               /\ GetWidth (snd ht) = split_width_iu FromMM settings
               /\ vsub (GetEnd (snd ht)) (GetStart (snd ht))
                  = vsub (GetEnd track) (GetStart track)) new.

End Bus.

(** ** The dialog *)

(** [sorted(l)] on a list of [str]: the list in ascending order.  Python
    compares two [str] by their code points, which on text in UTF-8 is the
    order of the bytes, [String.leb].  Equal strings cannot be told apart, so
    the sorted list does not depend on how the sort proceeds; this one
    inserts. *)
Fixpoint insert (s : string) (l : list string) : list string :=
  match l with
  | [] => [s]
  | a :: l' => if String.leb s a then s :: l else a :: insert s l'
  end.

Definition sorted (l : list string) : list string := fold_right insert [] l.

(** [l.index(s)] where [s in l] holds: the first position of [s]; [None]
    where [s in l] is false. *)
Fixpoint index (s : string) (l : list string) : option nat :=
  match l with
  | [] => None
  | a :: l' =>
      if String.eqb a s then Some O
      else match index s l' with
           | Some i => Some (S i)
           | None => None
           end
  end.

(** A [wx.Choice]: its items and the position selected, if any. *)
Record Choice : Type := {
  choices : list string;
  GetSelection : option nat
}.

Definition SetSelection (n : nat) (c : Choice) : Choice :=
  {| choices := choices c; GetSelection := Some n |}.

(** [GetStringSelection()]: the item selected, the empty string if there is
    none. *)
Definition GetStringSelection (c : Choice) : string :=
  match GetSelection c with
  | Some n => nth n (choices c) EmptyString
  | None => EmptyString
  end.

(** The widgets of [SettingsDialog] that hold the operator's input. *)
Record SettingsDialog : Type := {
  net_choice : Choice;
  text_width : string;
  text_sep : string;
  text_splits : string
}.

(** Line 30: the names of the nets of the board that have one, sorted.
    [netcodes] are the keys of [board.GetNetsByNetcode()], in the order of
    its items. *)
Definition nets (board : BOARD) (netcodes : list Z) : list string :=
  sorted
    (filter (fun name => negb (String.eqb name EmptyString))
       (map (netnames board) netcodes)).

(** Lines 34-38: the choice of the net and its first selection. *)
Definition new_net_choice (nets : list string)
  (preselected_net : option string) : Choice :=
  let net_choice := {| choices := nets; GetSelection := None |} in
  match match preselected_net with
        | Some name => index name nets
        | None => None
        end with
  | Some i => SetSelection i net_choice
  | None =>
      match nets with
      | [] => net_choice
      | _ :: _ => SetSelection 0 net_choice
      end
  end.

(** [SettingsDialog.__init__] (lines 22-67), without the layout. *)
Definition new_SettingsDialog (board : BOARD) (netcodes : list Z)
  (preselected_net : option string) : SettingsDialog :=
  {| net_choice := new_net_choice (nets board netcodes) preselected_net;
     text_width := "1.4";
     text_sep := "0.2";
     text_splits := "2" |}.

(** Lines 102-107: the net of the first selected track that has a net name.
    Every item of [board.GetTracks()] is a [PCB_TRACK]. *)
Definition selected_items (board : BOARD) (IsSelected : handle -> bool)
  : list (handle * TRACK) :=
  filter (fun x => IsSelected (fst x)) (GetTracks board).

Fixpoint first_netname (board : BOARD) (items : list (handle * TRACK))
  : option string :=
  match items with
  | [] => None
  | item :: items' =>
      if negb (String.eqb (GetNetname board (snd item)) EmptyString)
      then Some (GetNetname board (snd item))
      else first_netname board items'
  end.

Definition preselected_net (board : BOARD) (IsSelected : handle -> bool)
  : option string :=
  first_netname board (selected_items board IsSelected).

(** What the operator sees of a run, and whether line 120 was reached. *)
Inductive Shown : Type :=
| Nothing
| InvalidInputBox
| Split (o : Outcome).

Record Ran : Type := {
  shown : Shown;
  Destroyed : bool
}.

Section Dialog.

Variable FromMM : spec_float -> Z.

(** [float(s)] and [int(s)] on a [str]: the number, or [None] for the
    [ValueError] that is all they raise on a [str]. *)
Variable float : string -> option spec_float.
Variable int : string -> option Z.

(** [SettingsDialog.get_settings] (lines 69-79): [None] when a number does
    not parse. *)
Definition get_settings (self : SettingsDialog) : option Settings :=
  let net_name := GetStringSelection (net_choice self) in
  match float (text_width self) with
  | None => None
  | Some split_width =>
      match float (text_sep self) with
      | None => None
      | Some internal_sep =>
          match int (text_splits self) with
          | None => None
          | Some num_splits =>
              Some {| net_name := net_name; split_width := split_width;
                      internal_sep := internal_sep;
                      num_splits := num_splits |}
          end
      end
  end.

(** [TrackSplitterPlugin.Run] (lines 92-120).  [ShowModal] is the operator:
    the dialog as they leave it, and whether they leave it with OK.  A
    [return] or an exception before line 120 leaves the dialog undestroyed. *)
Definition Run (board : BOARD) (netcodes : list Z)
  (IsSelected : handle -> bool)
  (ShowModal : SettingsDialog -> SettingsDialog * bool) : BOARD * Ran :=
  let dialog :=
    new_SettingsDialog board netcodes (preselected_net board IsSelected) in
  let (dialog, ok) := ShowModal dialog in
  if ok then
    match get_settings dialog with
    | None => (board, {| shown := InvalidInputBox; Destroyed := false |})
    | Some settings =>
        match split_tracks FromMM board settings with
        | (board', Uncaught e) =>
            (board', {| shown := Split (Uncaught e); Destroyed := false |})
        | (board', o) => (board', {| shown := Split o; Destroyed := true |})
        end
    end
  else (board, {| shown := Nothing; Destroyed := true |}).

End Dialog.

(** *** Tracks moved and turned *)

(** The track moved by [v]. *)
Definition moved (v : VECTOR2I) (track : TRACK) : TRACK :=
  SetEnd (vadd (GetEnd track) v) (SetStart (vadd (GetStart track) v) track).

(** The track run the other way: its ends exchanged. *)
Definition reversed (track : TRACK) : TRACK :=
  SetEnd (GetStart track) (SetStart (GetEnd track) track).

(** *** Rounding *)





Section AxisShift.

Variable FromMM : spec_float -> Z.


End AxisShift.

(** *** Data for the examples *)

(** An instance of [FromMM]: millimetres times [10^6], to the nearest
    integer. *)
Definition FromMM_nm (mm : spec_float) : Z :=
  match Py.round (Py.fmul mm (S754_finite false 8589934592000000 (-33))) with
  | Ok z => z
  | Raise _ => 0
  end.

(** The floats [1.4], [0.2] and [-1.4]. *)
Definition mm_1_4 : spec_float := S754_finite false 6305039478318694 (-52).

Definition mm_0_2 : spec_float := S754_finite false 7205759403792794 (-55).


(** The floats [0.14] and [0.02]. *)
Definition mm_0_14 : spec_float := S754_finite false 5044031582654956 (-55).

Definition mm_0_02 : spec_float := S754_finite false 5764607523034235 (-58).

(** The values the dialog proposes, on the net GND. *)
Definition dialog_defaults : Settings :=
  {| net_name := "GND"%string; split_width := mm_1_4; internal_sep := mm_0_2;
     num_splits := 2 |}.

Definition no_splits : Settings :=
  {| net_name := "GND"%string; split_width := mm_1_4; internal_sep := mm_0_2;
     num_splits := 0 |}.


Definition other_net : Settings :=
  {| net_name := "VCC"%string; split_width := mm_1_4; internal_sep := mm_0_2;
     num_splits := 2 |}.

(** The configuration of the specification's worked example: a split width
    of 140000 nm, a separation of 20000 nm, two splits. *)
Definition spec_example : Settings :=
  {| net_name := "GND"%string; split_width := mm_0_14;
     internal_sep := mm_0_02; num_splits := 2 |}.

Definition one_split : Settings :=
  {| net_name := "GND"%string; split_width := mm_1_4; internal_sep := mm_0_2;
     num_splits := 1 |}.

Definition track_between (x0 y0 x1 y1 net : Z) : TRACK :=
  {| GetStart := {| x := x0; y := y0 |}; GetEnd := {| x := x1; y := y1 |};
     GetWidth := 250000; GetNetCode := net; GetLayer := 0 |}.

Definition net_names (code : Z) : string :=
  if code =? 1 then "GND"%string else "+5V"%string.

(** Two tracks of GND, one horizontal and one of slope 4/3, and between them
    a track of another net. *)
Definition example_board : BOARD :=
  {| GetTracks := [(1%nat, track_between 0 0 1000000 0 1);
                   (2%nat, track_between 0 0 5 5 2);
                   (3%nat, track_between 0 0 3000000 4000000 1)];
     Groups := [];
     netnames := net_names |}.

(** The segment of the specification's worked example, from (0,0) to
    (1000,0). *)
Definition short_track_board : BOARD :=
  {| GetTracks := [(1%nat, track_between 0 0 1000 0 1)];
     Groups := [];
     netnames := net_names |}.

(** A track of GND that is a point, before a proper one. *)
Definition point_board : BOARD :=
  {| GetTracks := [(1%nat, track_between 7 7 7 7 1);
                   (2%nat, track_between 0 0 1000000 0 1)];
     Groups := [];
     netnames := net_names |}.

Ltac by_computation :=
  vm_compute;
  repeat match goal with |- _ /\ _ => split end;
  intros; try discriminate; try reflexivity;
  try (repeat (first [left; reflexivity | right])).

(** *** Data for the whole run and for the dialog *)

(** A track of GND that is a point, between two proper ones. *)
Definition late_point_board : BOARD :=
  {| GetTracks := [(1%nat, track_between 0 0 1000000 0 1);
                   (2%nat, track_between 7 7 7 7 1);
                   (3%nat, track_between 0 0 3000000 4000000 1)];
     Groups := [];
     netnames := net_names |}.

(** A board whose tracks are on no net. *)
Definition unnamed_board : BOARD :=
  {| GetTracks := [(1%nat, track_between 0 0 1000000 0 0)];
     Groups := [];
     netnames := fun _ => EmptyString |}.

(** No track is selected. *)
Definition none_selected (h : handle) : bool := false.

(** Instances of [float] and [int] for the examples: Python's values on the
    texts the dialog proposes; the other text of the examples, [two], is
    not a number. *)
Definition float_of_text (s : string) : option spec_float :=
  if String.eqb s "1.4" then Some mm_1_4
  else if String.eqb s "0.2" then Some mm_0_2
  else None.

Definition int_of_text (s : string) : option Z :=
  if String.eqb s "2" then Some 2 else None.

(** An operator who selected the track 3 and leaves the dialog with OK as it
    opens, and one who first writes [two] for the number of splits. *)
Definition third_selected (h : handle) : bool := Nat.eqb h 3.

Definition accepts (dialog : SettingsDialog) : SettingsDialog * bool :=
  (dialog, true).

Definition writes_two (dialog : SettingsDialog) : SettingsDialog * bool :=
  ({| net_choice := net_choice dialog; text_width := text_width dialog;
      text_sep := text_sep dialog; text_splits := "two" |}, true).

Ltac NoDup_by_computation :=
  vm_compute;
  repeat (constructor;
          [let H := fresh in
           intros H;
           repeat (destruct H as [H|H]; [discriminate H|]); exact H|]);
  constructor.

Ltac Forall_by_computation :=
  match goal with
  | |- Forall _ ?l =>
      let l' := eval vm_compute in l in
      change l with l'
  end;
  repeat (constructor; [cbv beta; by_computation|]);
  try constructor.


(** * Proofs *)

(** ** Binary digits *)

Lemma digits2_pos_size (p : positive) : digits2_pos p = Pos.size p.
Proof. induction p; simpl; congruence. Qed.

Lemma Zdigits2_log2 (m : Z) : 0 < m -> Zdigits2 m = Z.log2 m + 1.
Proof.
  destruct m as [|p|p]; try lia. intros _. simpl Zdigits2.
  rewrite digits2_pos_size.
  destruct p; simpl; rewrite ?Pos.add_1_r; try reflexivity.
Qed.

Lemma Zdigits2_bounds (m : Z) :
  0 < m -> 2 ^ (Zdigits2 m - 1) <= m < 2 ^ Zdigits2 m.
Proof.
  intros H. rewrite (Zdigits2_log2 m H).
  replace (Z.log2 m + 1 - 1) with (Z.log2 m) by lia.
  replace (Z.log2 m + 1) with (Z.succ (Z.log2 m)) by lia.
  apply Z.log2_spec; assumption.
Qed.

Lemma Zdigits2_unique (m d : Z) :
  2 ^ (d - 1) <= m < 2 ^ d -> 0 < d -> Zdigits2 m = d.
Proof.
  intros H Hd.
  assert (0 < m) by (assert (0 < 2 ^ (d - 1)) by (apply Z.pow_pos_nonneg; lia); lia).
  rewrite Zdigits2_log2 by assumption.
  rewrite (Z.log2_unique m (d - 1)); try lia.
  replace (Z.succ (d - 1)) with d by lia. assumption.
Qed.

Lemma Zdigits2_pos (m : Z) : 0 < m -> 0 < Zdigits2 m.
Proof.
  intros H. rewrite Zdigits2_log2 by assumption.
  pose proof (Z.log2_nonneg m). lia.
Qed.

Lemma Zdigits2_mul_pow2 (m n : Z) :
  0 < m -> 0 <= n -> Zdigits2 (m * 2 ^ n) = Zdigits2 m + n.
Proof.
  intros Hm Hn.
  pose proof (Zdigits2_bounds m Hm) as [Hlo Hhi].
  pose proof (Zdigits2_pos m Hm).
  apply Zdigits2_unique; [|lia].
  replace (Zdigits2 m + n - 1) with (Zdigits2 m - 1 + n) by lia.
  rewrite !Z.pow_add_r by lia.
  assert (0 < 2 ^ n) by (apply Z.pow_pos_nonneg; lia).
  split; nia.
Qed.

Lemma Zdigits2_div_pow2 (m n : Z) :
  0 < m -> 0 <= n -> n < Zdigits2 m ->
  Zdigits2 (m / 2 ^ n) = Zdigits2 m - n.
Proof.
  intros Hm Hn Hlt.
  pose proof (Zdigits2_bounds m Hm) as [Hlo Hhi].
  assert (Hp : 0 < 2 ^ n) by (apply Z.pow_pos_nonneg; lia).
  apply Zdigits2_unique; [|lia].
  split.
  - apply Z.div_le_lower_bound; [assumption|].
    rewrite <- Z.pow_add_r by lia.
    replace (n + (Zdigits2 m - n - 1)) with (Zdigits2 m - 1) by lia. assumption.
  - apply Z.div_lt_upper_bound; [assumption|].
    rewrite <- Z.pow_add_r by lia.
    replace (n + (Zdigits2 m - n)) with (Zdigits2 m) by lia. assumption.
Qed.

Lemma Zdigits2_le (a b : Z) : 0 < a -> a <= b -> Zdigits2 a <= Zdigits2 b.
Proof.
  intros Ha Hab. rewrite !Zdigits2_log2 by lia.
  pose proof (Z.log2_le_mono a b Hab). lia.
Qed.

Lemma Zdigits2_lt_pow2 (m d : Z) : 0 < m -> 0 <= d -> m < 2 ^ d -> Zdigits2 m <= d.
Proof.
  intros Hm Hd H. destruct (Z_le_gt_dec (Zdigits2 m) d) as [|Hgt]; [assumption|].
  pose proof (Zdigits2_bounds m Hm) as [Hlo _].
  assert (2 ^ d <= 2 ^ (Zdigits2 m - 1)) by (apply Z.pow_le_mono_r; lia).
  lia.
Qed.

Lemma Zdigits2_ge_pow2 (m d : Z) : 0 < d -> 2 ^ (d - 1) <= m -> d <= Zdigits2 m.
Proof.
  intros Hd H.
  assert (0 < m) by (assert (0 < 2 ^ (d - 1)) by (apply Z.pow_pos_nonneg; lia); lia).
  destruct (Z_le_gt_dec d (Zdigits2 m)) as [|Hgt]; [assumption|].
  pose proof (Zdigits2_bounds m H0) as [_ Hhi].
  assert (2 ^ Zdigits2 m <= 2 ^ (d - 1)) by (apply Z.pow_le_mono_r; lia).
  lia.
Qed.

(** ** Shifting a mantissa right *)

Lemma shr_1_m (mrs : shr_record) :
  0 <= shr_m mrs -> shr_m (shr_1 mrs) = shr_m mrs / 2.
Proof.
  destruct mrs as [m r s]. simpl. intros H.
  destruct m as [|p|p]; try lia; [reflexivity|].
  destruct p; simpl shr_m.
  - rewrite (Pos2Z.inj_xI p). apply Z.div_unique with 1; lia.
  - rewrite (Pos2Z.inj_xO p). apply Z.div_unique with 0; lia.
  - reflexivity.
Qed.

Lemma iter_pos_shr_m (p : positive) : forall mrs,
  0 <= shr_m mrs ->
  shr_m (iter_pos shr_1 p mrs) = shr_m mrs / 2 ^ Zpos p.
Proof.
  assert (Hnn : forall mrs, 0 <= shr_m mrs -> 0 <= shr_m (shr_1 mrs)).
  { intros mrs H. rewrite shr_1_m by assumption. apply Z.div_pos; lia. }
  induction p as [p IH|p IH|]; intros mrs H; cbn [iter_pos].
  - assert (H1 := Hnn mrs H).
    assert (H2 : 0 <= shr_m (iter_pos shr_1 p (shr_1 mrs))).
    { rewrite IH by assumption. apply Z.div_pos; [assumption|]. apply Z.pow_pos_nonneg; lia. }
    rewrite IH by assumption. rewrite IH by assumption. rewrite shr_1_m by assumption.
    rewrite !Z.div_div by (try apply Z.pow_pos_nonneg; lia).
    f_equal. rewrite (Pos2Z.inj_xI p).
    replace (2 * Z.pos p + 1) with (1 + Z.pos p + Z.pos p) by lia.
    rewrite !Z.pow_add_r by lia. lia.
  - assert (H2 : 0 <= shr_m (iter_pos shr_1 p mrs)).
    { rewrite IH by assumption. apply Z.div_pos; [assumption|]. apply Z.pow_pos_nonneg; lia. }
    rewrite IH by assumption. rewrite IH by assumption.
    rewrite !Z.div_div by (try apply Z.pow_pos_nonneg; lia).
    f_equal. rewrite (Pos2Z.inj_xO p).
    replace (2 * Z.pos p) with (Z.pos p + Z.pos p) by lia.
    rewrite !Z.pow_add_r by lia. lia.
  - rewrite shr_1_m by assumption. reflexivity.
Qed.

Lemma shr_1_exact (m : Z) :
  0 <= m ->
  shr_1 {| shr_m := 2 * m; shr_r := false; shr_s := false |}
  = {| shr_m := m; shr_r := false; shr_s := false |}.
Proof. intros H. destruct m as [|p|p]; try lia; reflexivity. Qed.

Lemma iter_pos_shr_exact (p : positive) : forall m,
  0 <= m ->
  iter_pos shr_1 p {| shr_m := m * 2 ^ Zpos p; shr_r := false; shr_s := false |}
  = {| shr_m := m; shr_r := false; shr_s := false |}.
Proof.
  induction p as [p IH|p IH|]; intros m H; cbn [iter_pos].
  - rewrite (Pos2Z.inj_xI p).
    replace (2 * Z.pos p + 1) with (Z.pos p + Z.pos p + 1) by lia.
    rewrite !Z.pow_add_r by lia.
    replace (m * (2 ^ Z.pos p * 2 ^ Z.pos p * 2 ^ 1))
      with (2 * (m * 2 ^ Z.pos p * 2 ^ Z.pos p)) by (change (2 ^ 1) with 2; ring).
    assert (0 < 2 ^ Z.pos p) by (apply Z.pow_pos_nonneg; lia).
    rewrite shr_1_exact by nia.
    rewrite IH by nia. apply IH; assumption.
  - rewrite (Pos2Z.inj_xO p).
    replace (2 * Z.pos p) with (Z.pos p + Z.pos p) by lia.
    rewrite !Z.pow_add_r by lia.
    replace (m * (2 ^ Z.pos p * 2 ^ Z.pos p))
      with (m * 2 ^ Z.pos p * 2 ^ Z.pos p) by ring.
    assert (0 < 2 ^ Z.pos p) by (apply Z.pow_pos_nonneg; lia).
    rewrite IH by nia. apply IH; assumption.
  - change (2 ^ 1) with 2. replace (m * 2) with (2 * m) by ring.
    apply shr_1_exact; assumption.
Qed.

(** ** Rounding to binary64 *)

Lemma fexp_normal (e : Z) :
  -1021 <= e -> fexp Py.prec Py.emax e = e - 53.
Proof. intros H. unfold fexp, emin, Py.prec, Py.emax. lia. Qed.

Lemma shr_record_of_loc_m (m : Z) (l : location) :
  shr_m (shr_record_of_loc m l) = m.
Proof. destruct l as [|[ | | ]]; reflexivity. Qed.

Lemma shr_fexp_m (m e : Z) (l : location) :
  0 < m -> 53 <= Zdigits2 m -> -1021 <= Zdigits2 m + e ->
  exists mrs,
    shr_fexp Py.prec Py.emax m e l = (mrs, e + (Zdigits2 m - 53))
    /\ shr_m mrs = m / 2 ^ (Zdigits2 m - 53).
Proof.
  intros Hm Hd He. unfold shr_fexp. rewrite fexp_normal by assumption.
  replace (Zdigits2 m + e - 53 - e) with (Zdigits2 m - 53) by lia.
  unfold shr. destruct (Zdigits2 m - 53) as [|p|p] eqn:E; try lia.
  - eexists; split; [f_equal; lia|].
    rewrite shr_record_of_loc_m. rewrite Z.div_1_r. reflexivity.
  - eexists; split; [reflexivity|].
    rewrite iter_pos_shr_m; rewrite shr_record_of_loc_m; [reflexivity|lia].
Qed.

Lemma round_nearest_even_cases (q : Z) (l : location) :
  round_nearest_even q l = q \/ round_nearest_even q l = q + 1.
Proof.
  destruct l as [|[ | | ]]; simpl; auto.
  destruct (Z.even q); auto.
Qed.

(** The last two steps of [binary_round_aux], on a mantissa of 53 or 54
    digits. *)
Lemma shr_fexp_53 (m e : Z) :
  2 ^ 52 <= m < 2 ^ 53 -> -1074 <= e ->
  shr_fexp Py.prec Py.emax m e loc_Exact
  = ({| shr_m := m; shr_r := false; shr_s := false |}, e).
Proof.
  intros Hm He. unfold shr_fexp.
  rewrite (Zdigits2_unique m 53) by lia.
  unfold fexp, emin, Py.prec, Py.emax.
  replace (Z.max (53 + e - 53) (3 - 1024 - 53) - e) with 0 by lia.
  reflexivity.
Qed.

Lemma shr_fexp_54 (e : Z) :
  -1075 <= e ->
  shr_fexp Py.prec Py.emax (2 ^ 53) e loc_Exact
  = ({| shr_m := 2 ^ 52; shr_r := false; shr_s := false |}, e + 1).
Proof.
  intros He. unfold shr_fexp.
  rewrite (Zdigits2_unique (2 ^ 53) 54) by lia.
  unfold fexp, emin, Py.prec, Py.emax.
  replace (Z.max (54 + e - 53) (3 - 1024 - 53) - e) with 1 by lia.
  reflexivity.
Qed.

Lemma digits2_pos_Zdigits2 (p : positive) :
  Zpos (digits2_pos p) = Zdigits2 (Zpos p).
Proof. reflexivity. Qed.

(** A mantissa of at least 53 digits rounds to a normal number. *)
Lemma binary_round_aux_normal (s : bool) (m e : Z) (l : location) :
  0 < m -> 53 <= Zdigits2 m ->
  -1021 <= Zdigits2 m + e -> Zdigits2 m + e <= 1023 ->
  exists m' e',
    binary_round_aux Py.prec Py.emax s m e l = S754_finite s m' e'
    /\ Zdigits2 (Zpos m') = 53
    /\ Zdigits2 m + e - 53 <= e' <= Zdigits2 m + e - 52.
Proof.
  intros Hm Hd Hlo Hhi.
  destruct (shr_fexp_m m e l Hm Hd Hlo) as [mrs [E Hq]].
  unfold binary_round_aux. rewrite E.
  set (n := Zdigits2 m - 53) in *.
  assert (Hdq : Zdigits2 (shr_m mrs) = 53).
  { rewrite Hq. rewrite Zdigits2_div_pow2 by lia. lia. }
  assert (Hq0 : 0 < shr_m mrs).
  { rewrite Hq. apply Z.div_str_pos. split; [apply Z.pow_pos_nonneg; lia|].
    pose proof (Zdigits2_bounds m Hm) as [Hb _].
    eapply Z.le_trans; [|exact Hb]. apply Z.pow_le_mono_r; lia. }
  pose proof (Zdigits2_bounds _ Hq0) as Hb. rewrite Hdq in Hb.
  change (53 - 1) with 52 in Hb.
  set (q := shr_m mrs) in *.
  destruct (round_nearest_even_cases q (loc_of_shr_record mrs)) as [R|R];
    rewrite R.
  - rewrite shr_fexp_53 by lia. cbn [shr_m].
    destruct q as [|p|p] eqn:Eq; try lia.
    replace (e + n <=? Py.emax - Py.prec) with true
      by (symmetry; apply Z.leb_le; unfold Py.emax, Py.prec; lia).
    exists p, (e + n). split; [reflexivity|]. split; [assumption|lia].
  - destruct (Z.eq_dec (q + 1) (2 ^ 53)) as [E53|N53].
    + rewrite E53. rewrite shr_fexp_54 by lia. cbn [shr_m].
      replace (e + n + 1 <=? Py.emax - Py.prec) with true
        by (symmetry; apply Z.leb_le; unfold Py.emax, Py.prec; lia).
      exists (Z.to_pos (2 ^ 52)), (e + n + 1).
      split; [reflexivity|]. split; [reflexivity|lia].
    + rewrite shr_fexp_53 by lia. cbn [shr_m].
      destruct (q + 1) as [|p|p] eqn:Eq; try lia.
      replace (e + n <=? Py.emax - Py.prec) with true
        by (symmetry; apply Z.leb_le; unfold Py.emax, Py.prec; lia).
      exists p, (e + n). split; [reflexivity|].
      split; [apply Zdigits2_unique; lia|lia].
Qed.

(** A mantissa that is a 53-digit number followed by zeros is kept. *)
Lemma binary_round_aux_exact (s : bool) (m0 : positive) (n e : Z) :
  2 ^ 52 <= Zpos m0 < 2 ^ 53 -> 0 <= n -> -1074 <= e + n <= 971 ->
  binary_round_aux Py.prec Py.emax s (Zpos m0 * 2 ^ n) e loc_Exact
  = S754_finite s m0 (e + n).
Proof.
  intros Hm Hn He.
  assert (Hd : Zdigits2 (Zpos m0 * 2 ^ n) = 53 + n).
  { rewrite Zdigits2_mul_pow2 by lia. rewrite (Zdigits2_unique (Zpos m0) 53) by lia. lia. }
  assert (E : shr_fexp Py.prec Py.emax (Zpos m0 * 2 ^ n) e loc_Exact
              = ({| shr_m := Zpos m0; shr_r := false; shr_s := false |}, e + n)).
  { unfold shr_fexp. rewrite Hd. unfold fexp, emin, Py.prec, Py.emax.
    replace (Z.max (53 + n + e - 53) (3 - 1024 - 53) - e) with n by lia.
    unfold shr. destruct n as [|p|p]; try lia.
    - replace (Z.pos m0 * 2 ^ 0) with (Z.pos m0) by (rewrite Z.pow_0_r; lia).
      rewrite Z.add_0_r. reflexivity.
    - cbn [shr_record_of_loc]. rewrite iter_pos_shr_exact by lia. reflexivity. }
  unfold binary_round_aux. rewrite E. cbn [shr_m loc_of_shr_record round_nearest_even].
  rewrite shr_fexp_53 by lia. cbn [shr_m].
  replace (e + n <=? Py.emax - Py.prec) with true
    by (symmetry; apply Z.leb_le; unfold Py.emax, Py.prec; lia).
  reflexivity.
Qed.

(** ** Exact values *)

Lemma Zdigits2_abs (k : Z) : Zdigits2 (Z.abs k) = Zdigits2 k.
Proof. destruct k; reflexivity. Qed.

Lemma Zdigits2_small (k : Z) :
  k <> 0 -> Z.abs k < 2 ^ 53 -> 0 < Zdigits2 k <= 53.
Proof.
  intros Hk Hb. rewrite <- Zdigits2_abs. split.
  - apply Zdigits2_pos; lia.
  - apply Zdigits2_lt_pow2; lia.
Qed.

(** The mantissa of [dyad]: 53 binary digits. *)
Lemma dyad_mantissa (k : Z) :
  k <> 0 -> Z.abs k < 2 ^ 53 ->
  2 ^ 52 <= Z.abs k * 2 ^ (53 - Zdigits2 k) < 2 ^ 53.
Proof.
  intros Hk Hb. pose proof (Zdigits2_small k Hk Hb) as Hd.
  assert (Ha : 0 < Z.abs k) by lia.
  pose proof (Zdigits2_bounds _ Ha) as [Hlo Hhi]. rewrite Zdigits2_abs in *.
  assert (Hp : 0 < 2 ^ (53 - Zdigits2 k)) by (apply Z.pow_pos_nonneg; lia).
  replace (2 ^ 52) with (2 ^ (Zdigits2 k - 1) * 2 ^ (53 - Zdigits2 k))
    by (rewrite <- Z.pow_add_r by lia; f_equal; lia).
  replace (2 ^ 53) with (2 ^ Zdigits2 k * 2 ^ (53 - Zdigits2 k))
    by (rewrite <- Z.pow_add_r by lia; f_equal; lia).
  split; nia.
Qed.

Lemma dyad_nonzero (k e : Z) :
  k <> 0 ->
  dyad k e = S754_finite (k <? 0)
               (Z.to_pos (Z.abs k * 2 ^ (53 - Zdigits2 k)))
               (e + Zdigits2 k - 53).
Proof. intros H. destruct k; [contradiction| |]; reflexivity. Qed.

Lemma dyad_shift (k t e : Z) :
  0 <= t -> Z.abs k * 2 ^ t < 2 ^ 53 ->
  dyad (k * 2 ^ t) e = dyad k (e + t).
Proof.
  intros Ht Hb. destruct (Z.eq_dec k 0) as [->|Hk]; [reflexivity|].
  assert (Hp : 0 < 2 ^ t) by (apply Z.pow_pos_nonneg; lia).
  assert (Hd : Zdigits2 (k * 2 ^ t) = Zdigits2 k + t).
  { rewrite <- Zdigits2_abs. rewrite Z.abs_mul. rewrite (Z.abs_eq (2 ^ t)) by lia.
    rewrite Zdigits2_mul_pow2 by lia. rewrite Zdigits2_abs. reflexivity. }
  assert (Hd53 : Zdigits2 k + t <= 53).
  { rewrite <- Hd, <- Zdigits2_abs. apply Zdigits2_lt_pow2; lia. }
  rewrite !dyad_nonzero by nia. rewrite Hd.
  f_equal.
  - destruct (Z.ltb_spec (k * 2 ^ t) 0), (Z.ltb_spec k 0); try reflexivity; nia.
  - f_equal. rewrite Z.abs_mul, (Z.abs_eq (2 ^ t)) by lia.
    rewrite <- Z.mul_assoc, <- Z.pow_add_r by lia. do 2 f_equal. lia.
  - lia.
Qed.

Lemma half_double (b : Z) : Z.abs b < 2 ^ 52 -> dyad b 0 = half (2 * b).
Proof.
  intros H. unfold half. replace (2 * b) with (b * 2 ^ 1) by (change (2 ^ 1) with 2; lia).
  rewrite dyad_shift; [reflexivity|lia|change (2 ^ 1) with 2; lia].
Qed.

Lemma dyad_normal (k e : Z) :
  Z.abs k < 2 ^ 53 -> zero_or_normal (e - 52) e (dyad k e).
Proof.
  intros Hb. destruct (Z.eq_dec k 0) as [->|Hk]; [exact I|].
  pose proof (dyad_mantissa k Hk Hb) as Hm.
  pose proof (Zdigits2_small k Hk Hb) as Hd.
  rewrite dyad_nonzero by assumption. unfold zero_or_normal, normal.
  split; [apply Zdigits2_unique; [rewrite Z2Pos.id by lia; exact Hm|lia]|lia].
Qed.

(** The rational value of [half]. *)
Lemma value_half (k : Z) : Z.abs k < 2 ^ 53 -> (Py.value (half k) == k # 2)%Q.
Proof.
  intros Hb. destruct (Z.eq_dec k 0) as [->|Hk]; [reflexivity|].
  pose proof (dyad_mantissa k Hk Hb) as Hm.
  pose proof (Zdigits2_small k Hk Hb) as Hd.
  unfold half. rewrite dyad_nonzero by assumption.
  assert (He : (0 <=? -1 + Zdigits2 k - 53) = false) by (apply Z.leb_gt; lia).
  assert (Hp : 0 < 2 ^ (53 - Zdigits2 k)) by (apply Z.pow_pos_nonneg; lia).
  assert (Hp' : 0 < 2 ^ (- (-1 + Zdigits2 k - 53))) by (apply Z.pow_pos_nonneg; lia).
  assert (E2 : 2 ^ (- (-1 + Zdigits2 k - 53)) = 2 * 2 ^ (53 - Zdigits2 k)).
  { replace (- (-1 + Zdigits2 k - 53)) with (1 + (53 - Zdigits2 k)) by lia.
    rewrite Z.pow_add_r by lia. reflexivity. }
  unfold Py.value; rewrite He; unfold Qeq; cbn [Qnum Qden].
  rewrite !Z2Pos.id by lia. rewrite E2.
  destruct (Z.ltb_spec k 0); cbn [cond_Zopp]; lia.
Qed.

Lemma Pos_iter_xO (m p : positive) :
  Zpos (Pos.iter xO m p) = Zpos m * 2 ^ Zpos p.
Proof.
  induction p as [|p IH] using Pos.peano_ind.
  - cbn [Pos.iter]. rewrite Pos2Z.inj_xO. change (2 ^ 1) with 2. ring.
  - rewrite Pos.iter_succ, Pos2Z.inj_xO, IH, Pos2Z.inj_succ, Z.pow_succ_r by lia.
    ring.
Qed.

Lemma shl_align_le (mx : positive) (ex ez : Z) :
  ez <= ex ->
  Zpos (fst (shl_align mx ex ez)) = Zpos mx * 2 ^ (ex - ez)
  /\ snd (shl_align mx ex ez) = ez.
Proof.
  intros H. unfold shl_align. destruct (ez - ex) as [|d|d] eqn:E; try lia.
  - replace (ex - ez) with 0 by lia. cbn [fst snd]. split; lia.
  - cbn [fst snd]. rewrite Pos_iter_xO.
    replace (ex - ez) with (Zpos d) by lia. split; reflexivity.
Qed.

Lemma shl_align_ge (mx : positive) (ex ez : Z) :
  ex <= ez -> shl_align mx ex ez = (mx, ex).
Proof.
  intros H. unfold shl_align. destruct (ez - ex) as [|d|d] eqn:E; try lia; reflexivity.
Qed.

(** Rounding [K * 2^t * 2^e], [K] of at most 53 digits, is exact. *)
Lemma binary_round_dyadic (s : bool) (m : positive) (e K t : Z) :
  Zpos m = K * 2 ^ t -> 0 <= t -> 0 < K -> K < 2 ^ 53 ->
  -1074 <= e + t + Zdigits2 K - 53 <= 971 ->
  binary_round Py.prec Py.emax s m e
  = S754_finite s (Z.to_pos (K * 2 ^ (53 - Zdigits2 K))) (e + t + Zdigits2 K - 53).
Proof.
  intros Em Ht HK HK53 He.
  assert (Hm0 := dyad_mantissa K ltac:(lia) ltac:(lia)).
  rewrite (Z.abs_eq K) in Hm0 by lia.
  pose proof (Zdigits2_small K ltac:(lia) ltac:(lia)) as Hd.
  assert (Hdm : Zdigits2 (Zpos m) = Zdigits2 K + t).
  { rewrite Em. apply Zdigits2_mul_pow2; lia. }
  unfold binary_round. rewrite digits2_pos_Zdigits2, Hdm.
  unfold fexp, emin, Py.prec, Py.emax.
  replace (Z.max (Zdigits2 K + t + e - 53) (3 - 1024 - 53))
    with (e + (Zdigits2 K + t - 53)) by lia.
  set (m0 := Z.to_pos (K * 2 ^ (53 - Zdigits2 K))).
  assert (Hm0' : Zpos m0 = K * 2 ^ (53 - Zdigits2 K))
    by (unfold m0; rewrite Z2Pos.id; lia).
  destruct (Z_le_gt_dec 53 (Zdigits2 K + t)) as [Hge|Hlt].
  - rewrite shl_align_ge by lia.
    replace (Zpos m) with (Zpos m0 * 2 ^ (Zdigits2 K + t - 53)).
    + rewrite binary_round_aux_exact by lia. f_equal; lia.
    + rewrite Em, Hm0', <- Z.mul_assoc, <- Z.pow_add_r by lia. do 2 f_equal; lia.
  - destruct (shl_align_le m e (e + (Zdigits2 K + t - 53)) ltac:(lia)) as [E1 E2].
    destruct (shl_align m e (e + (Zdigits2 K + t - 53))) as [mz ez].
    cbn [fst snd] in E1, E2. subst ez.
    replace (Zpos mz) with (Zpos m0 * 2 ^ 0).
    + rewrite binary_round_aux_exact by lia. f_equal; lia.
    + rewrite E1, Em, Hm0', Z.pow_0_r, Z.mul_1_r, <- Z.mul_assoc, <- Z.pow_add_r by lia.
      do 2 f_equal; lia.
Qed.

Lemma binary_normalize_dyadic (M e t k : Z) :
  M = k * 2 ^ t -> 0 <= t -> Z.abs k < 2 ^ 53 ->
  -1074 <= e + t - 52 -> e + t <= 971 ->
  binary_normalize Py.prec Py.emax M e false = dyad k (e + t).
Proof.
  intros EM Ht Hk Hlo Hhi.
  assert (Hp : 0 < 2 ^ t) by (apply Z.pow_pos_nonneg; lia).
  destruct (Z.eq_dec k 0) as [->|Hk0]; [subst M; reflexivity|].
  pose proof (Zdigits2_small k Hk0 Hk) as Hd.
  rewrite dyad_nonzero by assumption.
  unfold binary_normalize. destruct M as [|m|m].
  - nia.
  - assert (0 < k) by nia.
    rewrite (binary_round_dyadic false m e k t) by lia.
    replace (k <? 0) with false by (symmetry; apply Z.ltb_ge; lia).
    rewrite (Z.abs_eq k) by lia. f_equal; lia.
  - assert (k < 0) by nia.
    rewrite (binary_round_dyadic true m e (- k) t); try lia.
    + replace (k <? 0) with true by (symmetry; apply Z.ltb_lt; lia).
      rewrite (Z.abs_neq k) by lia.
      replace (Zdigits2 (- k)) with (Zdigits2 k) by (destruct k; reflexivity).
      f_equal; lia.
    + replace (Zdigits2 (- k)) with (Zdigits2 k) by (destruct k; reflexivity). lia.
Qed.

(** [float(b)] is exact below [2^53]. *)
Lemma float_of_int_exact (b : Z) :
  Z.abs b < 2 ^ 53 -> Py.float_of_int b = Ok (dyad b 0).
Proof.
  intros H. unfold Py.float_of_int.
  rewrite (binary_normalize_dyadic b 0 0 b) by lia.
  rewrite Z.add_0_r. destruct b; reflexivity.
Qed.

(** [a / 2] is exact below [2^53]. *)
Lemma int_truediv_2_exact (a : Z) :
  Z.abs a < 2 ^ 53 -> Py.int_truediv a 2 = Ok (half a).
Proof.
  intros H. unfold Py.int_truediv. change (2 =? 0) with false. cbv iota.
  destruct (Z.eqb_spec a 0) as [->|Ha]; [reflexivity|].
  pose proof (Zdigits2_small a Ha H) as Hd.
  pose proof (dyad_mantissa a Ha H) as Hm.
  unfold SFdiv_core_binary. change (Zdigits2 (Z.abs 2)) with 2.
  rewrite Zdigits2_abs.
  unfold fexp, emin, Py.prec, Py.emax.
  replace (Z.min (Z.max (Zdigits2 a + 0 - (2 + 0) - 53) (3 - 1024 - 53)) (0 - 0))
    with (Zdigits2 a - 55) by lia.
  replace (0 - 0 - (Zdigits2 a - 55)) with (55 - Zdigits2 a) by lia.
  destruct (55 - Zdigits2 a) as [|p|p] eqn:Es; try lia.
  rewrite Z.shiftl_mul_pow2 by lia.
  set (m0 := Z.to_pos (Z.abs a * 2 ^ (53 - Zdigits2 a))).
  assert (Hm0 : Zpos m0 = Z.abs a * 2 ^ (53 - Zdigits2 a))
    by (unfold m0; rewrite Z2Pos.id; lia).
  assert (Eq : Z.abs a * 2 ^ Z.pos p = 2 * (Zpos m0 * 2 ^ 1)).
  { rewrite Hm0. replace (Z.pos p) with (53 - Zdigits2 a + 1 + 1) by lia.
    rewrite !Z.pow_add_r by lia. ring. }
  change (Z.abs 2) with 2.
  pose proof (Z_div_mod (Z.abs a * 2 ^ Z.pos p) 2 ltac:(lia)) as Hdm.
  destruct (Z.div_eucl (Z.abs a * 2 ^ Z.pos p) 2) as [q r].
  assert (r = 0 /\ q = Zpos m0 * 2 ^ 1) as [-> ->] by lia.
  change (new_location 2 0) with loc_Exact.
  rewrite binary_round_aux_exact by lia.
  unfold half. rewrite dyad_nonzero by assumption.
  change (2 <? 0) with false. rewrite xorb_false_r. cbn [Py.no_overflow].
  do 2 f_equal; lia.
Qed.

(** Adding two halves is exact when the sum is below [2^53] halves. *)
Lemma fadd_half (a b : Z) :
  Z.abs a < 2 ^ 53 -> Z.abs b < 2 ^ 53 -> Z.abs (a + b) < 2 ^ 53 ->
  Py.fadd (half a) (half b) = half (a + b).
Proof.
  intros Ha Hb Hab.
  destruct (Z.eq_dec a 0) as [->|Ha0].
  { rewrite Z.add_0_l. destruct (Z.eq_dec b 0) as [->|Hb0]; [reflexivity|].
    unfold half. rewrite (dyad_nonzero b) by assumption. reflexivity. }
  destruct (Z.eq_dec b 0) as [->|Hb0].
  { rewrite Z.add_0_r. unfold half. rewrite (dyad_nonzero a) by assumption.
    reflexivity. }
  pose proof (Zdigits2_small a Ha0 Ha) as Hda.
  pose proof (Zdigits2_small b Hb0 Hb) as Hdb.
  pose proof (dyad_mantissa a Ha0 Ha) as Hma.
  pose proof (dyad_mantissa b Hb0 Hb) as Hmb.
  unfold half at 1 2. rewrite (dyad_nonzero a), (dyad_nonzero b) by assumption.
  unfold Py.fadd, SFadd.
  set (ea := -1 + Zdigits2 a - 53). set (eb := -1 + Zdigits2 b - 53).
  set (ez := Z.min ea eb).
  destruct (shl_align_le (Z.to_pos (Z.abs a * 2 ^ (53 - Zdigits2 a))) ea ez
              ltac:(unfold ez; lia)) as [Ea _].
  destruct (shl_align_le (Z.to_pos (Z.abs b * 2 ^ (53 - Zdigits2 b))) eb ez
              ltac:(unfold ez; lia)) as [Eb _].
  rewrite Ea, Eb, !Z2Pos.id by lia.
  assert (Eta : 2 ^ (53 - Zdigits2 a) * 2 ^ (ea - ez) = 2 ^ (- 1 - ez)).
  { rewrite <- Z.pow_add_r by (unfold ez, ea, eb; lia). f_equal. unfold ea. lia. }
  assert (Etb : 2 ^ (53 - Zdigits2 b) * 2 ^ (eb - ez) = 2 ^ (- 1 - ez)).
  { rewrite <- Z.pow_add_r by (unfold ez, ea, eb; lia). f_equal. unfold eb. lia. }
  rewrite (binary_normalize_dyadic _ ez (- 1 - ez) (a + b));
    try (unfold ez, ea, eb; lia).
  - unfold half. f_equal; lia.
  - rewrite <- !Z.mul_assoc, Eta, Etb.
    destruct (Z.ltb_spec a 0), (Z.ltb_spec b 0); cbn [cond_Zopp]; lia.
Qed.

(** ** Operations on normal numbers *)

Lemma binary_round_normal (s : bool) (m : positive) (e : Z) :
  -1021 <= Zdigits2 (Zpos m) + e -> Zdigits2 (Zpos m) + e <= 1023 ->
  exists m' e',
    binary_round Py.prec Py.emax s m e = S754_finite s m' e'
    /\ Zdigits2 (Zpos m') = 53
    /\ Zdigits2 (Zpos m) + e - 53 <= e' <= Zdigits2 (Zpos m) + e - 52.
Proof.
  intros Hlo Hhi. unfold binary_round.
  rewrite digits2_pos_Zdigits2, fexp_normal by assumption.
  pose proof (Zdigits2_pos (Zpos m) ltac:(lia)) as Hd.
  destruct (Z_le_gt_dec 53 (Zdigits2 (Zpos m))) as [Hge|Hlt].
  - rewrite shl_align_ge by lia.
    apply binary_round_aux_normal; lia.
  - destruct (shl_align_le m e (Zdigits2 (Z.pos m) + e - 53) ltac:(lia)) as [E1 E2].
    destruct (shl_align m e (Zdigits2 (Z.pos m) + e - 53)) as [mz ez].
    cbn [fst snd] in E1, E2. subst ez.
    assert (Hdz : Zdigits2 (Zpos mz) = 53).
    { rewrite E1, Zdigits2_mul_pow2 by lia. lia. }
    destruct (binary_round_aux_normal s (Zpos mz) (Zdigits2 (Z.pos m) + e - 53)
                loc_Exact ltac:(lia) ltac:(lia) ltac:(lia) ltac:(lia))
      as [m' [e' [E [Hm' He']]]].
    exists m', e'. split; [exact E|]. split; [exact Hm'|lia].
Qed.

(** [float(b)] for a positive [b]: a normal number of the size of [b]. *)
Lemma float_of_int_normal (b : Z) :
  0 < b -> Zdigits2 b <= 1000 ->
  exists m e,
    Py.float_of_int b = Ok (S754_finite false m e)
    /\ Zdigits2 (Zpos m) = 53
    /\ Zdigits2 b - 53 <= e <= Zdigits2 b - 52.
Proof.
  intros Hb Hd. destruct b as [|p|p]; try lia.
  pose proof (Zdigits2_pos (Zpos p) ltac:(lia)).
  destruct (binary_round_normal false p 0 ltac:(lia) ltac:(lia))
    as [m [e [E [Hm He]]]].
  exists m, e. unfold Py.float_of_int, binary_normalize. rewrite E.
  split; [reflexivity|]. split; [assumption|lia].
Qed.

Lemma SFmul_normal (sx sy : bool) (mx my : positive) (ex ey : Z) :
  Zdigits2 (Zpos mx) = 53 -> Zdigits2 (Zpos my) = 53 ->
  -900 <= ex + ey <= 900 ->
  exists m e,
    Py.fmul (S754_finite sx mx ex) (S754_finite sy my ey)
    = S754_finite (xorb sx sy) m e
    /\ Zdigits2 (Zpos m) = 53
    /\ ex + ey + 52 <= e <= ex + ey + 54.
Proof.
  intros Hx Hy He. unfold Py.fmul, SFmul.
  pose proof (Zdigits2_bounds (Zpos mx) ltac:(lia)) as Bx. rewrite Hx in Bx.
  pose proof (Zdigits2_bounds (Zpos my) ltac:(lia)) as By. rewrite Hy in By.
  change (53 - 1) with 52 in *.
  assert (Hlo : 105 <= Zdigits2 (Zpos (mx * my))).
  { apply Zdigits2_ge_pow2; [lia|]. rewrite Pos2Z.inj_mul.
    change (2 ^ (105 - 1)) with (2 ^ 52 * 2 ^ 52). nia. }
  assert (Hhi : Zdigits2 (Zpos (mx * my)) <= 106).
  { apply Zdigits2_lt_pow2; [lia|lia|]. rewrite Pos2Z.inj_mul.
    change (2 ^ 106) with (2 ^ 53 * 2 ^ 53). nia. }
  destruct (binary_round_aux_normal (xorb sx sy) (Zpos (mx * my)) (ex + ey)
              loc_Exact ltac:(lia) ltac:(lia) ltac:(lia) ltac:(lia))
    as [m [e [E [Hm Hee]]]].
  exists m, e. split; [exact E|]. split; [exact Hm|lia].
Qed.

Lemma SFdiv_normal (sx sy : bool) (mx my : positive) (ex ey : Z) :
  Zdigits2 (Zpos mx) = 53 -> Zdigits2 (Zpos my) = 53 ->
  -900 <= ex - ey <= 900 ->
  exists m e,
    SFdiv Py.prec Py.emax (S754_finite sx mx ex) (S754_finite sy my ey)
    = S754_finite (xorb sx sy) m e
    /\ Zdigits2 (Zpos m) = 53
    /\ ex - ey - 53 <= e <= ex - ey - 51.
Proof.
  intros Hx Hy He. unfold SFdiv, SFdiv_core_binary.
  rewrite Hx, Hy.
  pose proof (Zdigits2_bounds (Zpos mx) ltac:(lia)) as Bx. rewrite Hx in Bx.
  pose proof (Zdigits2_bounds (Zpos my) ltac:(lia)) as By. rewrite Hy in By.
  change (53 - 1) with 52 in *.
  rewrite fexp_normal by lia.
  replace (Z.min (53 + ex - (53 + ey) - 53) (ex - ey)) with (ex - ey - 53) by lia.
  replace (ex - ey - (ex - ey - 53)) with 53 by lia.
  rewrite Z.shiftl_mul_pow2 by lia.
  pose proof (Z_div_mod (Zpos mx * 2 ^ 53) (Zpos my) ltac:(lia)) as Hdm.
  destruct (Z.div_eucl (Zpos mx * 2 ^ 53) (Zpos my)) as [q r].
  destruct Hdm as [Eq Hr].
  assert (Hq : 2 ^ 52 <= q < 2 ^ 54).
  { change (2 ^ 54) with (2 * 2 ^ 53) in *. split; nia. }
  assert (Hdq : 53 <= Zdigits2 q <= 54).
  { split; [apply Zdigits2_ge_pow2; lia|apply Zdigits2_lt_pow2; lia]. }
  destruct (binary_round_aux_normal (xorb sx sy) q (ex - ey - 53)
              (new_location (Zpos my) r) ltac:(lia) ltac:(lia) ltac:(lia) ltac:(lia))
    as [m [e [E [Hm Hee]]]].
  exists m, e. split; [exact E|]. split; [exact Hm|lia].
Qed.

Lemma SFsqrt_normal (mx : positive) (ex : Z) :
  Zdigits2 (Zpos mx) = 53 -> -900 <= ex <= 900 ->
  exists m e,
    SFsqrt Py.prec Py.emax (S754_finite false mx ex) = S754_finite false m e
    /\ Zdigits2 (Zpos m) = 53
    /\ ex / 2 - 26 <= e <= ex / 2 - 25.
Proof.
  intros Hx He. unfold SFsqrt, SFsqrt_core_binary.
  rewrite Hx, !Z.div2_div.
  pose proof (Zdigits2_bounds (Zpos mx) ltac:(lia)) as Bx. rewrite Hx in Bx.
  change (53 - 1) with 52 in *.
  assert (E27 : (53 + ex + 1) / 2 = ex / 2 + 27).
  { replace (53 + ex + 1) with (ex + 27 * 2) by lia. apply Z.div_add; lia. }
  pose proof (Z.div_mod ex 2 ltac:(lia)) as Edm.
  pose proof (Z.mod_pos_bound ex 2 ltac:(lia)) as Bdm.
  rewrite E27. rewrite fexp_normal by lia.
  replace (Z.min (ex / 2 + 27 - 53) (ex / 2)) with (ex / 2 - 26) by lia.
  assert (Hs : ex - 2 * (ex / 2 - 26) = 52 \/ ex - 2 * (ex / 2 - 26) = 53) by lia.
  pose proof (Z.sqrtrem_spec (Z.shiftl (Zpos mx) (ex - 2 * (ex / 2 - 26)))) as Hsq.
  assert (Hm' : 2 ^ 104 <= Z.shiftl (Zpos mx) (ex - 2 * (ex / 2 - 26)) < 2 ^ 106).
  { rewrite Z.shiftl_mul_pow2 by lia.
    change (2 ^ 104) with (2 ^ 52 * 2 ^ 52). change (2 ^ 106) with (2 ^ 53 * 2 ^ 53).
    destruct Hs as [-> | ->]; lia. }
  destruct (ex - 2 * (ex / 2 - 26)) as [|p|p] eqn:Es; try lia.
  specialize (Hsq ltac:(lia)).
  destruct (Z.sqrtrem (Z.shiftl (Zpos mx) (Zpos p))) as [q r].
  destruct Hsq as [Eq Hr].
  assert (Hq : 2 ^ 52 <= q < 2 ^ 53).
  { change (2 ^ 104) with (2 ^ 52 * 2 ^ 52) in Hm'.
    change (2 ^ 106) with (2 ^ 53 * 2 ^ 53) in Hm'. split; nia. }
  assert (Hdq : Zdigits2 q = 53) by (apply Zdigits2_unique; lia).
  destruct (binary_round_aux_normal false q (ex / 2 - 26)
              (if r =? 0 then loc_Exact
               else loc_Inexact (if r <=? q then Lt else Gt))
              ltac:(lia) ltac:(lia) ltac:(lia) ltac:(lia))
    as [m [e [E [Hm Hee]]]].
  exists m, e. split; [exact E|]. split; [exact Hm|lia].
Qed.

(** ** The numbers of the plugin *)

Lemma zero_or_normal_weaken (lo hi lo' hi' : Z) (f : spec_float) :
  zero_or_normal lo hi f -> lo' <= lo -> hi <= hi' -> zero_or_normal lo' hi' f.
Proof.
  destruct f as [s|s| |s m e]; simpl; try tauto. intros [H1 H2] ? ?. split; [assumption|lia].
Qed.

Lemma zero_or_normal_fneg (lo hi : Z) (f : spec_float) :
  zero_or_normal lo hi f -> zero_or_normal lo hi (Py.fneg f).
Proof. destruct f as [s|s| |s m e]; simpl; tauto. Qed.

Lemma zero_or_normal_finite (lo hi : Z) (f : spec_float) :
  zero_or_normal lo hi f -> Py.is_finite f = true.
Proof. destruct f as [s|s| |s m e]; simpl; tauto. Qed.

Lemma fmul_finite (a b c d : Z) (f1 f2 : spec_float) :
  zero_or_normal a b f1 -> zero_or_normal c d f2 ->
  -900 <= a + c -> b + d <= 900 ->
  Py.is_finite (Py.fmul f1 f2) = true.
Proof.
  intros Hx Hy Hlo Hhi.
  destruct f1 as [sx|sx| |sx mx ex], f2 as [sy|sy| |sy my ey];
    simpl in Hx, Hy; try tauto; try reflexivity.
  destruct Hx as [Hx Hex], Hy as [Hy Hey].
  destruct (SFmul_normal sx sy mx my ex ey Hx Hy ltac:(lia)) as [m [e [E _]]].
  rewrite E. reflexivity.
Qed.

Lemma round_finite (f : spec_float) :
  Py.is_finite f = true -> exists z, Py.round f = Ok z.
Proof.
  destruct f as [s|s| |s m e]; simpl; try discriminate; intros _; eexists; reflexivity.
Qed.

(** [a / y] for a small [a] and a normal [y]. *)
Lemma int_truediv_float_normal (a : Z) (s : bool) (m : positive) (e : Z) :
  Z.abs a < 2 ^ 53 -> Zdigits2 (Zpos m) = 53 -> -800 <= e <= 800 ->
  exists f,
    Py.int_truediv_float a (S754_finite s m e) = Ok f
    /\ zero_or_normal (- e - 105) (- e - 51) f.
Proof.
  intros Ha Hm He. unfold Py.int_truediv_float.
  rewrite float_of_int_exact by assumption. cbn [rbind].
  unfold Py.float_truediv. cbn [Py.is_zero].
  pose proof (dyad_normal a 0 Ha) as Hn.
  destruct (dyad a 0) as [sa|sa| |sa ma ea]; simpl in Hn; try tauto.
  - eexists. split; [reflexivity|exact I].
  - destruct Hn as [Hma Hea].
    destruct (SFdiv_normal sa s ma m ea e Hma Hm ltac:(lia)) as [m' [e' [E [Hm' He']]]].
    rewrite E. eexists. split; [reflexivity|]. simpl. split; [assumption|lia].
Qed.

Section UnitVector.

Variable FromMM : spec_float -> Z.

(** The unit vector of a track that is not a point, its ends within 32
    bits. *)
Lemma unit_vec_ok (track : TRACK) :
  Z.abs (x (direction track)) < 2 ^ 32 ->
  Z.abs (y (direction track)) < 2 ^ 32 ->
  direction track <> {| x := 0; y := 0 |} ->
  exists ux uy,
    unit_vec track = Ok (ux, uy)
    /\ zero_or_normal (-86) 1 ux /\ zero_or_normal (-86) 1 uy.
Proof.
  intros Hx Hy Hnz. unfold unit_vec.
  set (dx := x (direction track)) in *. set (dy := y (direction track)) in *.
  assert (HD : 0 < dx ^ 2 + dy ^ 2 < 2 ^ 65).
  { assert (dx <> 0 \/ dy <> 0) as Hor.
    { destruct (Z.eq_dec dx 0) as [E1|]; [|auto].
      destruct (Z.eq_dec dy 0) as [E2|]; [|auto].
      exfalso. apply Hnz. unfold dx, dy in *.
      destruct (direction track) as [a b]. simpl in *. congruence. }
    change (2 ^ 65) with (2 * (2 ^ 32 * 2 ^ 32)). rewrite !Z.pow_2_r. split; nia. }
  assert (Hd : 0 < Zdigits2 (dx ^ 2 + dy ^ 2) <= 65).
  { split; [apply Zdigits2_pos; lia|apply Zdigits2_lt_pow2; lia]. }
  destruct (float_of_int_normal (dx ^ 2 + dy ^ 2) ltac:(lia) ltac:(lia))
    as [m [e [E [Hm He]]]].
  unfold Py.int_pow_half. rewrite E. cbn [rbind].
  destruct (SFsqrt_normal m e Hm ltac:(lia)) as [m' [e' [E' [Hm' He']]]].
  rewrite E'.
  assert (-52 <= e' <= -19).
  { assert (-26 <= e / 2) by (apply Z.div_le_lower_bound; lia).
    assert (e / 2 < 7) by (apply Z.div_lt_upper_bound; lia). lia. }
  destruct (int_truediv_float_normal dx false m' e' ltac:(lia) Hm' ltac:(lia))
    as [ux [Eux Hux]].
  destruct (int_truediv_float_normal dy false m' e' ltac:(lia) Hm' ltac:(lia))
    as [uy [Euy Huy]].
  rewrite Eux. cbn [rbind]. rewrite Euy. cbn [rbind].
  exists ux, uy. split; [reflexivity|].
  split; eapply zero_or_normal_weaken; eauto; lia.
Qed.

Lemma shift_vec_ok (track : TRACK) :
  Z.abs (x (direction track)) < 2 ^ 32 ->
  Z.abs (y (direction track)) < 2 ^ 32 ->
  direction track <> {| x := 0; y := 0 |} ->
  exists sv,
    shift_vec track = Ok sv
    /\ zero_or_normal (-86) 1 (fst sv) /\ zero_or_normal (-86) 1 (snd sv).
Proof.
  intros Hx Hy Hnz.
  destruct (unit_vec_ok track Hx Hy Hnz) as [ux [uy [E [Hux Huy]]]].
  unfold shift_vec. rewrite E. cbn [rbind fst snd].
  eexists. split; [reflexivity|]. cbn [fst snd].
  split; [apply zero_or_normal_fneg|]; assumption.
Qed.

Lemma offset_iu_exact (settings : Settings) (i : Z) :
  Z.abs (group_width_iu FromMM settings) < 2 ^ 53 ->
  Z.abs (i * (split_width_iu FromMM settings + internal_sep_iu FromMM settings))
    < 2 ^ 52 ->
  Z.abs (split_width_iu FromMM settings) < 2 ^ 53 ->
  Z.abs (offset_halves FromMM settings i - split_width_iu FromMM settings) < 2 ^ 53 ->
  Z.abs (offset_halves FromMM settings i) < 2 ^ 53 ->
  offset_iu FromMM settings i = Ok (half (offset_halves FromMM settings i)).
Proof.
  intros Hg Hi Hw Hp Ho. unfold offset_iu, offset_halves in *.
  rewrite int_truediv_2_exact by lia. cbn [rbind].
  unfold Py.float_add_int. rewrite float_of_int_exact by lia. cbn [rbind].
  rewrite half_double by assumption.
  rewrite fadd_half by lia.
  rewrite int_truediv_2_exact by assumption. cbn [rbind].
  rewrite fadd_half by lia. do 2 f_equal; lia.
Qed.

End UnitVector.

(** ** The board operations *)

Lemma list_max_seq (a k : nat) : list_max (seq (S a) k) = match k with O => O | _ => (a + k)%nat end.
Proof.
  revert a. induction k as [|k IH]; intros a; [reflexivity|].
  cbn [seq list_max fold_right]. fold (list_max (seq (S (S a)) k)).
  rewrite IH. destruct k; lia.
Qed.

Lemma handles_with_cluster_max (b : BOARD) (new : list (handle * TRACK)) :
  let g := S (list_max (handles b)) in
  map fst new = handles_after g (List.length new) ->
  list_max (handles (with_cluster b g new)) = (g + List.length new)%nat.
Proof.
  intros g Hn. unfold handles, with_cluster. cbn [GetTracks Groups].
  rewrite map_app, flat_map_app, !list_max_app. cbn [flat_map fst snd].
  rewrite app_nil_r. cbn [list_max fold_right].
  fold (list_max (map fst new)).
  rewrite Hn. unfold handles_after. rewrite list_max_seq.
  change (list_max (map fst (GetTracks b) ++ flat_map (fun g0 => fst g0 :: snd g0) (Groups b)))
    with (list_max (handles b)) in g.
  assert (Hb : list_max (handles b)
               = Nat.max (list_max (map fst (GetTracks b)))
                   (list_max (flat_map (fun g0 => fst g0 :: snd g0) (Groups b)))).
  { unfold handles. apply list_max_app. }
  destruct (List.length new); lia.
Qed.

Lemma group_handle_below (b : BOARD) (gi : handle * list handle) :
  In gi (Groups b) -> (fst gi <= list_max (handles b))%nat.
Proof.
  intros H.
  assert (Hin : In (fst gi) (handles b)).
  { unfold handles. apply in_or_app. right. apply in_flat_map.
    exists gi. split; [assumption|left; reflexivity]. }
  pose proof (proj1 (list_max_le (handles b) (list_max (handles b))) (Nat.le_refl _)) as Hall.
  rewrite Forall_forall in Hall. apply Hall. assumption.
Qed.

Lemma track_handle_below (b : BOARD) (ht : handle * TRACK) :
  In ht (GetTracks b) -> (fst ht <= list_max (handles b))%nat.
Proof.
  intros H.
  assert (Hin : In (fst ht) (handles b)).
  { unfold handles. apply in_or_app. left. apply in_map. assumption. }
  pose proof (proj1 (list_max_le (handles b) (list_max (handles b))) (Nat.le_refl _)) as Hall.
  rewrite Forall_forall in Hall. apply Hall. assumption.
Qed.

Lemma AddItem_with_cluster (b : BOARD) (new : list (handle * TRACK))
  (h : handle) (t : TRACK) :
  let g := S (list_max (handles b)) in
  AddItem g h
    {| GetTracks := GetTracks b ++ new ++ [(h, t)];
       Groups := Groups b ++ [(g, map fst new)];
       netnames := netnames b |}
  = (with_cluster b g (new ++ [(h, t)]), Ok tt).
Proof.
  intros g. unfold AddItem, with_cluster. cbn [GetTracks Groups netnames].
  f_equal. f_equal.
  rewrite map_app. cbn [map fst snd]. rewrite Nat.eqb_refl.
  rewrite map_app. cbn [map fst]. f_equal.
  rewrite <- (map_id (Groups b)) at 2. apply map_ext_in.
  intros gi Hgi. pose proof (group_handle_below b gi Hgi) as Hle.
  subst g. cbv beta.
  match goal with
  | |- context [Nat.eqb ?a ?c] => destruct (Nat.eqb_spec a c) as [E|_]
  end; [lia|reflexivity].
Qed.

(** ** The loops *)

Section Run.

Variable FromMM : spec_float -> Z.

Lemma new_tracks_cons (settings : Settings) (track : TRACK) (g : handle)
  (sh : VECTOR2I) (shs : list VECTOR2I) :
  new_tracks FromMM settings track g (sh :: shs)
  = (S g, shifted_track FromMM settings track sh)
      :: new_tracks FromMM settings track (S g) shs.
Proof. reflexivity. Qed.

Lemma new_tracks_length (settings : Settings) (track : TRACK) (g : handle)
  (shs : list VECTOR2I) :
  List.length (new_tracks FromMM settings track g shs) = List.length shs.
Proof.
  unfold new_tracks, handles_after.
  rewrite length_combine, length_seq, length_map. lia.
Qed.

Lemma new_tracks_handles (settings : Settings) (track : TRACK) (g : handle)
  (shs : list VECTOR2I) :
  map fst (new_tracks FromMM settings track g shs)
  = handles_after g (List.length shs).
Proof.
  revert g. induction shs as [|sh shs IH]; intros g; [reflexivity|].
  rewrite new_tracks_cons. cbn [map fst List.length]. rewrite IH. reflexivity.
Qed.

Lemma new_tracks_tracks (settings : Settings) (track : TRACK) (g : handle)
  (shs : list VECTOR2I) :
  map snd (new_tracks FromMM settings track g shs)
  = map (shifted_track FromMM settings track) shs.
Proof.
  revert g. induction shs as [|sh shs IH]; intros g; [reflexivity|].
  rewrite new_tracks_cons. cbn [map snd]. rewrite IH. reflexivity.
Qed.

Lemma new_tracks_snoc (settings : Settings) (track : TRACK) (g : handle)
  (shs : list VECTOR2I) (sh : VECTOR2I) :
  new_tracks FromMM settings track g (shs ++ [sh])
  = new_tracks FromMM settings track g shs
      ++ [(S (g + List.length shs), shifted_track FromMM settings track sh)].
Proof.
  revert g. induction shs as [|sh0 shs IH]; intros g.
  - cbn [app List.length]. rewrite Nat.add_0_r. reflexivity.
  - cbn [app]. rewrite !new_tracks_cons, IH. cbn [app List.length].
    replace (S g + List.length shs)%nat with (g + S (List.length shs))%nat by lia.
    reflexivity.
Qed.

(** The inner loop: the board after it, from the shifts it computed. *)
Lemma add_splits_run (settings : Settings) (track : TRACK) (b : BOARD)
  (sv : spec_float * spec_float) (l : list Z) :
  forall (shs0 : list VECTOR2I) (count : Z),
    for_each l
      (add_split FromMM settings track (S (list_max (handles b))) sv) count
      (with_cluster b (S (list_max (handles b)))
         (new_tracks FromMM settings track (S (list_max (handles b))) shs0))
    = (with_cluster b (S (list_max (handles b)))
         (new_tracks FromMM settings track (S (list_max (handles b)))
            (shs0 ++ fst (shifts FromMM settings sv l))),
       match snd (shifts FromMM settings sv l) with
       | None =>
           Ok (count + Z.of_nat (List.length (fst (shifts FromMM settings sv l))))
       | Some e => Raise e
       end).
Proof.
  set (g := S (list_max (handles b))).
  induction l as [|i l IH]; intros shs0 count.
  - cbn [for_each shifts fst snd List.length]. unfold ret.
    rewrite app_nil_r, Z.add_0_r. reflexivity.
  - cbn [for_each shifts]. unfold bind at 1. unfold add_split at 1.
    unfold bind at 1. unfold lift at 1.
    destruct (shift FromMM settings sv i) as [sh|e].
    + unfold bind at 1. unfold new_object at 1.
      rewrite handles_with_cluster_max
        by (rewrite new_tracks_handles, new_tracks_length; reflexivity).
      rewrite new_tracks_length.
      unfold bind at 1. unfold Add_track at 1.
      unfold with_cluster at 1. cbn [GetTracks Groups netnames].
      unfold bind at 1. rewrite <- app_assoc.
      fold g. rewrite (AddItem_with_cluster b). fold g.
      unfold ret at 1.
      replace (S (list_max (handles b)) + List.length shs0)%nat
        with (g + List.length shs0)%nat by reflexivity.
      rewrite <- new_tracks_snoc.
      rewrite IH.
      destruct (shifts FromMM settings sv l) as [shs r]. cbn [fst snd].
      rewrite <- app_assoc. cbn [app List.length].
      f_equal. destruct r; [reflexivity|]. f_equal. lia.
    + cbn [fst snd]. rewrite app_nil_r. reflexivity.
Qed.

(** One turn of the outer loop, as a function of the shifts. *)
Lemma process_track_run (settings : Settings) (h : handle) (track : TRACK)
  (count : Z) (b : BOARD) :
  process_track FromMM settings (h, track) count b
  = match shift_vec track with
    | Raise e => (with_cluster b (S (list_max (handles b))) [], Raise e)
    | Ok sv =>
        let r := shifts FromMM settings sv (Py.range (num_splits settings)) in
        let b' :=
          with_cluster b (S (list_max (handles b)))
            (new_tracks FromMM settings track (S (list_max (handles b)))
               (fst r)) in
        match snd r with
        | Some e => (b', Raise e)
        | None => (without b' h, Ok (count + Z.of_nat (List.length (fst r))))
        end
    end.
Proof.
  unfold process_track. cbn [fst snd].
  unfold bind at 1. unfold new_object at 1.
  unfold bind at 1. unfold Add_group at 1.
  assert (E0 : {| GetTracks := GetTracks b;
                  Groups := Groups b ++ [(S (list_max (handles b)), [])];
                  netnames := netnames b |}
               = with_cluster b (S (list_max (handles b)))
                   (new_tracks FromMM settings track
                      (S (list_max (handles b))) [])).
  { unfold with_cluster. cbn [new_tracks map fst]. rewrite app_nil_r. reflexivity. }
  rewrite E0.
  unfold bind at 1. unfold lift at 1.
  destruct (shift_vec track) as [sv|e]; [|reflexivity].
  unfold bind at 1. rewrite add_splits_run. cbn [app].
  cbv zeta.
  destruct (snd (shifts FromMM settings sv (Py.range (num_splits settings))));
    reflexivity.
Qed.

End Run.

Lemma In_range (n i : Z) : In i (Py.range n) <-> 0 <= i < n.
Proof.
  unfold Py.range. rewrite in_map_iff. split.
  - intros [k [<- Hk]]. apply in_seq in Hk. lia.
  - intros H. exists (Z.to_nat i). split; [lia|]. apply in_seq. lia.
Qed.

Lemma range_length (n : Z) : List.length (Py.range n) = Z.to_nat n.
Proof. unfold Py.range. rewrite length_map, length_seq. reflexivity. Qed.

Section Success.

Variable FromMM : spec_float -> Z.

Lemma offset_halves_bounds (settings : Settings) (i : Z) :
  valid_config FromMM settings -> 0 <= i < num_splits settings ->
  let g := group_width_iu FromMM settings in
  let w := split_width_iu FromMM settings in
  let s := internal_sep_iu FromMM settings in
  0 < w <= g /\ 0 <= i * (w + s) <= g - w
  /\ - g + w <= offset_halves FromMM settings i <= g - w.
Proof.
  intros [Hn [Hw Hs]] Hi. unfold offset_halves, group_width_iu.
  set (w := split_width_iu FromMM settings) in *.
  set (s := internal_sep_iu FromMM settings) in *.
  set (n := num_splits settings) in *. cbv zeta.
  assert (H1 : 0 <= i * (w + s)) by nia.
  assert (H2 : i * (w + s) <= (n - 1) * (w + s)) by nia.
  assert (H3 : 0 <= s * (n - 1)) by nia.
  assert (H4 : w <= w * n) by nia.
  repeat split; nia.
Qed.

Lemma offset_iu_valid (settings : Settings) (i : Z) :
  valid_config FromMM settings -> exact_offsets FromMM settings ->
  0 <= i < num_splits settings ->
  offset_iu FromMM settings i = Ok (half (offset_halves FromMM settings i))
  /\ Z.abs (offset_halves FromMM settings i) < 2 ^ 52.
Proof.
  intros Hv Hx Hi. unfold exact_offsets in Hx.
  pose proof (offset_halves_bounds settings i Hv Hi) as [Hw [Hi' Ho]].
  cbv zeta in *.
  split; [|lia].
  apply offset_iu_exact; lia.
Qed.

Lemma shift_ok (settings : Settings) (sv : spec_float * spec_float) (i : Z) :
  valid_config FromMM settings -> exact_offsets FromMM settings ->
  zero_or_normal (-86) 1 (fst sv) -> zero_or_normal (-86) 1 (snd sv) ->
  0 <= i < num_splits settings ->
  exists sh, shift FromMM settings sv i = Ok sh.
Proof.
  intros Hv Hx H1 H2 Hi.
  destruct (offset_iu_valid settings i Hv Hx Hi) as [E Hb].
  unfold shift. rewrite E. cbn [rbind].
  pose proof (dyad_normal (offset_halves FromMM settings i) (-1) ltac:(lia)) as Hn.
  fold (half (offset_halves FromMM settings i)) in Hn.
  destruct (round_finite _ (fmul_finite _ _ _ _ _ _ H1 Hn ltac:(lia) ltac:(lia)))
    as [zx Ex].
  destruct (round_finite _ (fmul_finite _ _ _ _ _ _ H2 Hn ltac:(lia) ltac:(lia)))
    as [zy Ey].
  rewrite Ex. cbn [rbind]. rewrite Ey. cbn [rbind].
  eexists. reflexivity.
Qed.

Lemma shifts_all (settings : Settings) (sv : spec_float * spec_float)
  (l : list Z) :
  (forall i, In i l -> exists sh, shift FromMM settings sv i = Ok sh) ->
  exists shs,
    shifts FromMM settings sv l = (shs, None)
    /\ Forall2 (fun i sh => shift FromMM settings sv i = Ok sh) l shs.
Proof.
  induction l as [|i l IH]; intros H.
  - exists []. split; [reflexivity|constructor].
  - destruct (H i (or_introl eq_refl)) as [sh E].
    destruct (IH (fun j Hj => H j (or_intror Hj))) as [shs [Es HF]].
    exists (sh :: shs). cbn [shifts]. rewrite E, Es.
    split; [reflexivity|constructor; assumption].
Qed.

Lemma direction_bounds (track : TRACK) :
  pcbnew_track track ->
  Z.abs (x (direction track)) < 2 ^ 32 /\ Z.abs (y (direction track)) < 2 ^ 32.
Proof.
  unfold pcbnew_track, int32, direction. cbn [x y]. lia.
Qed.

Lemma direction_nonzero (track : TRACK) :
  GetStart track <> GetEnd track -> direction track <> {| x := 0; y := 0 |}.
Proof.
  intros H E. apply H. unfold direction in E.
  destruct (GetStart track) as [a b], (GetEnd track) as [c d].
  cbn [x y] in E. injection E as E1 E2. f_equal; lia.
Qed.

(** One turn of the outer loop on a valid configuration and a track that is
    not a point: it ends, and the board is the old one with the cluster
    added and the track removed. *)
Lemma process_track_ok (settings : Settings) (h : handle) (track : TRACK)
  (count : Z) (b : BOARD) :
  valid_config FromMM settings -> exact_offsets FromMM settings ->
  pcbnew_track track -> GetStart track <> GetEnd track ->
  exists sv shs,
    shift_vec track = Ok sv
    /\ Forall2 (fun i sh => shift FromMM settings sv i = Ok sh)
         (Py.range (num_splits settings)) shs
    /\ process_track FromMM settings (h, track) count b
       = (without
            (with_cluster b (S (list_max (handles b)))
               (new_tracks FromMM settings track (S (list_max (handles b))) shs))
            h,
          Ok (count + num_splits settings)).
Proof.
  intros Hv Hx Hb Hnd.
  destruct (direction_bounds track Hb) as [Bx By].
  destruct (shift_vec_ok track Bx By (direction_nonzero track Hnd))
    as [sv [Esv [H1 H2]]].
  destruct (shifts_all settings sv (Py.range (num_splits settings))) as [shs [Es HF]].
  { intros i Hi. apply In_range in Hi. apply shift_ok; assumption. }
  exists sv, shs. split; [assumption|]. split; [assumption|].
  rewrite process_track_run, Esv. cbv zeta. rewrite Es. cbn [fst snd].
  do 3 f_equal.
  rewrite <- (Forall2_length HF), range_length.
  destruct Hv as [Hn _]. lia.
Qed.

End Success.

(** ** Rounding to an integer *)



(** ** The run of [split_tracks] *)

Section Claims.

Variable FromMM : spec_float -> Z.

(** Stage 1 is a filter. *)
Lemma tracks_to_process_filter (board : BOARD) (name : string) :
  tracks_to_process board name
  = filter (fun track => String.eqb (GetNetname board (snd track)) name)
      (GetTracks board).
Proof.
  unfold tracks_to_process.
  assert (H : forall (l acc : list (handle * TRACK)),
             fold_left
               (fun acc track =>
                  if String.eqb (GetNetname board (snd track)) name
                  then acc ++ [track] else acc) l acc
             = acc ++ filter
                        (fun track => String.eqb (GetNetname board (snd track)) name) l).
  { induction l as [|t l IH]; intros acc; cbn [fold_left filter].
    - rewrite app_nil_r. reflexivity.
    - rewrite IH. destruct (String.eqb (GetNetname board (snd t)) name).
      + rewrite <- app_assoc. reflexivity.
      + reflexivity. }
  apply (H (GetTracks board) []).
Qed.

Lemma shift_vec_zero_length (track : TRACK) :
  GetStart track = GetEnd track -> shift_vec track = Raise ZeroDivisionError.
Proof.
  intros E. unfold shift_vec, unit_vec, direction. rewrite E.
  rewrite !Z.sub_diag. reflexivity.
Qed.

(** C8: a configuration with [num_splits < 1] is refused with the error
    box before anything else is done: the board is the one given, no track
    was selected or processed. *)
Theorem split_tracks_refuses_num_splits_below_1
  (board : BOARD) (settings : Settings) :
  num_splits settings < 1 ->
  split_tracks FromMM board settings = (board, ErrorBox_splits_below_1).
Proof.
  intros H. unfold split_tracks.
  destruct (Z.ltb_spec (num_splits settings) 1); [reflexivity|lia].
Qed.

(** C9: the selection is the tracks of the board whose net has the given
    name, in the order of the board, the board is not changed by it, and
    when there is none the run ends with the information box, the board
    untouched. *)
Theorem tracks_to_process_selects (board : BOARD) (settings : Settings) :
  tracks_to_process board (net_name settings)
  = filter
      (fun track =>
         String.eqb (GetNetname board (snd track)) (net_name settings))
      (GetTracks board)
  /\ (forall track,
         In track (tracks_to_process board (net_name settings))
         <-> In track (GetTracks board)
             /\ GetNetname board (snd track) = net_name settings)
  /\ (tracks_to_process board (net_name settings) = [] ->
      1 <= num_splits settings ->
      split_tracks FromMM board settings
      = (board, InfoBox_no_tracks (net_name settings))).
Proof.
  split; [apply tracks_to_process_filter|]. split.
  - intros track. rewrite tracks_to_process_filter, filter_In.
    rewrite String.eqb_eq. reflexivity.
  - intros E Hn. unfold split_tracks.
    destruct (Z.ltb_spec (num_splits settings) 1); [lia|].
    cbv zeta. rewrite E. reflexivity.
Qed.


(** C3, as the code has it: when one turn of the outer loop raises, every
    track and every group of the board is still there, unchanged and in
    place, the track in hand among them; what the turn added before the
    raise stays: the new group and the tracks made so far. *)
Theorem process_track_raise_keeps_the_board
  (settings : Settings) (track : handle * TRACK) (count : Z)
  (board board' : BOARD) (e : PyExc) :
  process_track FromMM settings track count board = (board', Raise e) ->
  exists new : list (handle * TRACK),
    GetTracks board' = GetTracks board ++ new
    /\ Groups board'
       = Groups board ++ [(S (list_max (handles board)), map fst new)]
    /\ netnames board' = netnames board.
Proof.
  destruct track as [h t]. rewrite process_track_run.
  destruct (shift_vec t) as [sv|e0].
  - cbv zeta.
    destruct (shifts FromMM settings sv (Py.range (num_splits settings)))
      as [shs [e1|]]; cbn [fst snd]; intros E; [|discriminate].
    injection E as <- _. eexists. repeat split.
  - intros E. injection E as <- _. exists []. repeat split.
Qed.

(** C1, what the code does: when the first selected track is a point, the
    run adds the empty group, divides by the zero length, and ends with
    the uncaught [ZeroDivisionError]; the tracks selected after it are not
    processed. *)
Theorem split_tracks_zero_length_raises
  (board : BOARD) (settings : Settings) (h : handle) (track : TRACK)
  (rest : list (handle * TRACK)) :
  1 <= num_splits settings ->
  tracks_to_process board (net_name settings) = (h, track) :: rest ->
  GetStart track = GetEnd track ->
  split_tracks FromMM board settings
  = (with_empty_group board, Uncaught ZeroDivisionError).
Proof.
  intros Hn Hsel Hp. unfold split_tracks.
  destruct (Z.ltb_spec (num_splits settings) 1); [lia|].
  cbv zeta. rewrite Hsel. cbn [for_each].
  unfold bind at 1. rewrite process_track_run, shift_vec_zero_length by assumption.
  unfold with_cluster, with_empty_group. cbn [map]. rewrite app_nil_r. reflexivity.
Qed.

End Claims.

Lemma split_tracks_refuses_num_splits_below_1_witness :
  num_splits no_splits < 1
  /\ split_tracks FromMM_nm example_board no_splits
     = (example_board, ErrorBox_splits_below_1).
Proof.
  split; [by_computation|].
  apply (split_tracks_refuses_num_splits_below_1 FromMM_nm example_board no_splits).
  by_computation.
Defined.

Lemma tracks_to_process_selects_witness :
  tracks_to_process example_board (net_name dialog_defaults)
  = [(1%nat, track_between 0 0 1000000 0 1);
     (3%nat, track_between 0 0 3000000 4000000 1)]
  /\ split_tracks FromMM_nm example_board other_net
     = (example_board, InfoBox_no_tracks "VCC"%string).
Proof.
  split.
  - rewrite (proj1 (tracks_to_process_selects FromMM_nm example_board dialog_defaults)).
    reflexivity.
  - apply (proj2 (proj2 (tracks_to_process_selects FromMM_nm example_board other_net)));
      by_computation.
Defined.



(** C3, against the claim: the turn on a track that is a point raises, and
    the group it had added stays on the board. *)
Lemma zero_length_leaves_a_group :
  process_track FromMM_nm dialog_defaults (1%nat, track_between 7 7 7 7 1) 0
    point_board
  = (with_empty_group point_board, Raise ZeroDivisionError)
  /\ Groups point_board = []
  /\ Groups (with_empty_group point_board) = [(3%nat, [])].
Proof. by_computation. Qed.

Lemma process_track_raise_keeps_the_board_witness :
  exists new : list (handle * TRACK),
    GetTracks (with_empty_group point_board) = GetTracks point_board ++ new
    /\ Groups (with_empty_group point_board)
       = Groups point_board ++ [(3%nat, map fst new)]
    /\ netnames (with_empty_group point_board) = netnames point_board.
Proof.
  apply (process_track_raise_keeps_the_board FromMM_nm dialog_defaults
           (1%nat, track_between 7 7 7 7 1) 0 point_board
           (with_empty_group point_board) ZeroDivisionError).
  by_computation.
Defined.

Lemma split_tracks_zero_length_raises_witness :
  split_tracks FromMM_nm point_board dialog_defaults
  = (with_empty_group point_board, Uncaught ZeroDivisionError)
  /\ GetTracks (with_empty_group point_board) = GetTracks point_board.
Proof.
  split; [|reflexivity].
  apply (split_tracks_zero_length_raises FromMM_nm point_board dialog_defaults
           1%nat (track_between 7 7 7 7 1)
           [(2%nat, track_between 0 0 1000000 0 1)]); by_computation.
Defined.

(** ** The cluster of one track *)

Lemma filter_all {A : Type} (p : A -> bool) (l : list A) :
  Forall (fun a => p a = true) l -> filter p l = l.
Proof.
  induction 1 as [|a l Ha _ IH]; [reflexivity|].
  cbn [filter]. rewrite Ha, IH. reflexivity.
Qed.

Lemma handles_after_above (g : handle) (k : nat) (h : handle) :
  In h (handles_after g k) -> (g < h)%nat.
Proof. unfold handles_after. intros H. apply in_seq in H. lia. Qed.

Lemma handles_after_NoDup (g : handle) (k : nat) : NoDup (handles_after g k).
Proof. apply seq_NoDup. Qed.

Lemma Zsum_linear (a d : Z) (k : nat) :
  Zsum (map (fun i => a + 2 * (i * d)) (map Z.of_nat (seq 0 k)))
  = Z.of_nat k * a + d * (Z.of_nat k * (Z.of_nat k - 1)).
Proof.
  induction k as [|k IH]; [cbn; lia|].
  rewrite seq_S, !map_app. cbn [map Nat.add].
  unfold Zsum in *. rewrite fold_right_app. cbn [fold_right].
  assert (E : forall (l : list Z) (z : Z),
             fold_right Z.add z l = fold_right Z.add 0 l + z).
  { induction l as [|c l IHl]; intros z; cbn [fold_right]; [lia|].
    rewrite IHl. lia. }
  rewrite E, IH. nia.
Qed.

Lemma Qsum_halves (ks : list Z) :
  Forall (fun k => Z.abs k < 2 ^ 53) ks ->
  (Qsum (map Py.value (map half ks)) == Zsum ks # 2)%Q.
Proof.
  induction 1 as [|k ks Hk _ IH]; [reflexivity|].
  cbn [map Qsum Zsum fold_right]. fold (Qsum (map Py.value (map half ks))).
  fold (Zsum ks). rewrite IH, (value_half k Hk).
  unfold Qeq, Qplus. cbn [Qnum Qden]. lia.
Qed.

Section Cluster.

Variable FromMM : spec_float -> Z.

Lemma pcbnew_config_exact (settings : Settings) :
  pcbnew_config FromMM settings -> exact_offsets FromMM settings.
Proof. unfold pcbnew_config, int32, exact_offsets. lia. Qed.

Lemma without_with_cluster (b : BOARD) (h : handle) (track : TRACK)
  (new : list (handle * TRACK)) (k : nat) :
  In (h, track) (GetTracks b) ->
  map fst new = handles_after (S (list_max (handles b))) k ->
  without (with_cluster b (S (list_max (handles b))) new) h
  = replaced b h (S (list_max (handles b))) new.
Proof.
  intros Hin Hnew. unfold without, with_cluster, replaced.
  cbn [GetTracks Groups netnames]. f_equal.
  rewrite filter_app. f_equal. apply filter_all.
  pose proof (track_handle_below b (h, track) Hin) as Hle. cbn [fst] in Hle.
  apply Forall_forall. intros [h' t'] Hin'. cbn [fst].
  assert (Hh' : In h' (map fst new)) by (apply (in_map fst) in Hin'; exact Hin').
  rewrite Hnew in Hh'. apply handles_after_above in Hh'.
  apply negb_true_iff, Nat.eqb_neq. lia.
Qed.

(** One turn of the outer loop on a track of the board. *)
Lemma process_track_replaces (settings : Settings) (h : handle)
  (track : TRACK) (count : Z) (b : BOARD) :
  valid_config FromMM settings -> pcbnew_config FromMM settings ->
  pcbnew_track track -> GetStart track <> GetEnd track ->
  In (h, track) (GetTracks b) ->
  exists sv shs,
    shift_vec track = Ok sv
    /\ Forall2 (fun i sh => shift FromMM settings sv i = Ok sh)
         (Py.range (num_splits settings)) shs
    /\ process_track FromMM settings (h, track) count b
       = (replaced b h (S (list_max (handles b)))
            (new_tracks FromMM settings track (S (list_max (handles b))) shs),
          Ok (count + num_splits settings)).
Proof.
  intros Hv Hc Ht Hnd Hin.
  destruct (process_track_ok FromMM settings h track count b Hv
              (pcbnew_config_exact settings Hc) Ht Hnd)
    as [sv [shs [Esv [HF Erun]]]].
  exists sv, shs. split; [assumption|]. split; [assumption|].
  rewrite Erun. f_equal.
  apply (without_with_cluster b h track _ (List.length shs) Hin).
  apply new_tracks_handles.
Qed.

(** C5: on a valid configuration and a track that is not a point, one turn
    of the outer loop ends and replaces the track by [num_splits] new
    tracks; each has the layer and the net of the track and the split
    width; the one new group holds exactly these tracks; every other track
    and group stays.  (Coordinates and the group width are lengths of
    [pcbnew], of 32 bits.) *)
Theorem process_track_cluster (settings : Settings) (h : handle)
  (track : TRACK) (count : Z) (board : BOARD) :
  valid_config FromMM settings -> pcbnew_config FromMM settings ->
  pcbnew_track track -> GetStart track <> GetEnd track ->
  In (h, track) (GetTracks board) ->
  exists new : list (handle * TRACK),
    process_track FromMM settings (h, track) count board
    = (replaced board h (S (list_max (handles board))) new,
       Ok (count + num_splits settings))
    /\ Z.of_nat (List.length new) = num_splits settings
    /\ Forall (fun ht =>
                 GetLayer (snd ht) = GetLayer track
                 /\ GetNetCode (snd ht) = GetNetCode track
                 /\ GetWidth (snd ht) = split_width_iu FromMM settings) new
    /\ NoDup (map fst new)
    /\ (forall h', In h' (map fst new) -> ~ In h' (handles board)).
Proof.
  intros Hv Hc Ht Hnd Hin.
  destruct (process_track_replaces settings h track count board Hv Hc Ht Hnd Hin)
    as [sv [shs [_ [HF Erun]]]].
  exists (new_tracks FromMM settings track (S (list_max (handles board))) shs).
  split; [exact Erun|]. split.
  { rewrite new_tracks_length, <- (Forall2_length HF), range_length.
    destruct Hv as [Hn _]. lia. }
  split.
  { apply Forall_forall. intros [h' t'] Hin'.
    apply (in_map snd) in Hin'. rewrite new_tracks_tracks in Hin'.
    apply in_map_iff in Hin'. destruct Hin' as [sh [<- _]].
    cbn [snd]. repeat split. }
  split.
  { rewrite new_tracks_handles. apply handles_after_NoDup. }
  intros h' Hh' Hb. rewrite new_tracks_handles in Hh'.
  apply handles_after_above in Hh'.
  pose proof (proj1 (list_max_le (handles board) (list_max (handles board)))
                (Nat.le_refl _)) as Hall.
  rewrite Forall_forall in Hall. specialize (Hall h' Hb). lia.
Qed.

(** C10: on such a turn every new track is the given track moved by one
    integer vector: the same vector is added to both ends, so that the
    difference of the ends is the one of the given track. *)
Theorem process_track_translates (settings : Settings) (h : handle)
  (track : TRACK) (count : Z) (board : BOARD) :
  valid_config FromMM settings -> pcbnew_config FromMM settings ->
  pcbnew_track track -> GetStart track <> GetEnd track ->
  In (h, track) (GetTracks board) ->
  exists new : list (handle * TRACK),
    process_track FromMM settings (h, track) count board
    = (replaced board h (S (list_max (handles board))) new,
       Ok (count + num_splits settings))
    /\ Z.of_nat (List.length new) = num_splits settings
    /\ Forall (fun ht =>
                 (exists sh : VECTOR2I,
                     GetStart (snd ht) = vadd (GetStart track) sh
                     /\ GetEnd (snd ht) = vadd (GetEnd track) sh)
                 /\ vsub (GetEnd (snd ht)) (GetStart (snd ht))
                    = vsub (GetEnd track) (GetStart track)) new.
Proof.
  intros Hv Hc Ht Hnd Hin.
  destruct (process_track_replaces settings h track count board Hv Hc Ht Hnd Hin)
    as [sv [shs [_ [HF Erun]]]].
  exists (new_tracks FromMM settings track (S (list_max (handles board))) shs).
  split; [exact Erun|]. split.
  { rewrite new_tracks_length, <- (Forall2_length HF), range_length.
    destruct Hv as [Hn _]. lia. }
  apply Forall_forall. intros [h' t'] Hin'.
  apply (in_map snd) in Hin'. rewrite new_tracks_tracks in Hin'.
  apply in_map_iff in Hin'. destruct Hin' as [sh [<- _]].
  cbn [snd]. split.
  - exists sh. split; reflexivity.
  - unfold vsub, vadd, shifted_track. cbn. f_equal; lia.
Qed.

End Cluster.

Lemma Forall2_impl_In {A B : Type} (R R' : A -> B -> Prop) (l : list A)
  (l' : list B) :
  (forall a b, In a l -> R a b -> R' a b) ->
  Forall2 R l l' -> Forall2 R' l l'.
Proof.
  intros H HF. induction HF as [|a b l l' Hab _ IH]; constructor.
  - apply H; [left; reflexivity|assumption].
  - apply IH. intros a' b' Hin. apply H. right. assumption.
Qed.

Lemma Forall2_map_self {A B : Type} (R : A -> B -> Prop) (f : A -> B)
  (l : list A) :
  (forall a, In a l -> R a (f a)) -> Forall2 R l (map f l).
Proof.
  induction l as [|a l IH]; intros H; cbn [map]; constructor.
  - apply H. left. reflexivity.
  - apply IH. intros a' Hin. apply H. right. assumption.
Qed.


Section Offsets.

Variable FromMM : spec_float -> Z.

Lemma offset_halves_symmetric (settings : Settings) (i : Z) :
  offset_halves FromMM settings i
  + offset_halves FromMM settings (num_splits settings - 1 - i) = 0.
Proof. unfold offset_halves, group_width_iu. ring. Qed.


Lemma offset_halves_sum (settings : Settings) :
  0 <= num_splits settings ->
  Zsum (map (offset_halves FromMM settings) (Py.range (num_splits settings))) = 0.
Proof.
  intros Hn. unfold Py.range.
  rewrite (map_ext (offset_halves FromMM settings)
             (fun i => (- group_width_iu FromMM settings
                        + split_width_iu FromMM settings)
                       + 2 * (i * (split_width_iu FromMM settings
                                   + internal_sep_iu FromMM settings))))
    by (intros i; unfold offset_halves; ring).
  rewrite Zsum_linear, Z2Nat.id by assumption.
  unfold group_width_iu. ring.
Qed.


(** C6: on a valid configuration the offsets of line 166 are symmetric
    about zero, [offset_i + offset_(n-1-i) = 0] exactly, for the rational
    values and for the floats, and the offsets of the [num_splits] tracks
    sum to zero.  (The group width is a length of [pcbnew], of 32 bits.) *)
Theorem offsets_symmetric (settings : Settings) :
  valid_config FromMM settings -> pcbnew_config FromMM settings ->
  (forall i, 0 <= i < num_splits settings ->
     exists o o' : spec_float,
       offset_iu FromMM settings i = Ok o
       /\ offset_iu FromMM settings (num_splits settings - 1 - i) = Ok o'
       /\ Py.fadd o o' = S754_zero false
       /\ (Py.value o + Py.value o' == 0)%Q)
  /\ exists offsets : list spec_float,
       Forall2 (fun i o => offset_iu FromMM settings i = Ok o)
         (Py.range (num_splits settings)) offsets
       /\ (Qsum (map Py.value offsets) == 0)%Q.
Proof.
  intros Hv Hc. pose proof (pcbnew_config_exact FromMM settings Hc) as Hx.
  split.
  - intros i Hi.
    destruct (offset_iu_valid FromMM settings i Hv Hx Hi) as [E1 B1].
    destruct (offset_iu_valid FromMM settings (num_splits settings - 1 - i)
                Hv Hx ltac:(lia)) as [E2 B2].
    pose proof (offset_halves_symmetric settings i) as Hs.
    eexists. eexists. split; [exact E1|]. split; [exact E2|]. split.
    + rewrite fadd_half by lia. rewrite Hs. reflexivity.
    + rewrite !value_half by lia.
      unfold Qeq, Qplus. cbn [Qnum Qden]. lia.
  - exists (map (fun i => half (offset_halves FromMM settings i))
              (Py.range (num_splits settings))).
    split.
    + apply Forall2_map_self. intros i Hi. apply In_range in Hi.
      apply (offset_iu_valid FromMM settings i Hv Hx Hi).
    + rewrite <- (map_map (offset_halves FromMM settings) half).
      rewrite Qsum_halves.
      * rewrite offset_halves_sum by (destruct Hv; lia). reflexivity.
      * apply Forall_forall. intros k Hk. apply in_map_iff in Hk.
        destruct Hk as [i [<- Hi]]. apply In_range in Hi.
        destruct (offset_iu_valid FromMM settings i Hv Hx Hi) as [_ B]. lia.
Qed.



End Offsets.

(** ** Two cases of the specification's test list *)

Lemma round_fmul_zero (lo hi : Z) (f : spec_float) :
  zero_or_normal lo hi f -> Py.round (Py.fmul f (S754_zero false)) = Ok 0.
Proof. destruct f as [s|s| |s m e]; simpl; try tauto; reflexivity. Qed.

Lemma vadd_zero (v : VECTOR2I) : vadd v {| x := 0; y := 0 |} = v.
Proof.
  destruct v as [a b]. unfold vadd. cbn [x y]. rewrite !Z.add_0_r. reflexivity.
Qed.

Section Single.

Variable FromMM : spec_float -> Z.

(** X1: with [num_splits = 1] the turn replaces the track by one track on
    the same path, start and end unchanged, with the split width: the offset
    is zero.  (Coordinates and the group width are lengths of [pcbnew], of
    32 bits.) *)
Theorem single_split_keeps_the_path (settings : Settings) (h : handle)
  (track : TRACK) (count : Z) (board : BOARD) :
  valid_config FromMM settings -> pcbnew_config FromMM settings ->
  pcbnew_track track -> GetStart track <> GetEnd track ->
  In (h, track) (GetTracks board) ->
  num_splits settings = 1 ->
  process_track FromMM settings (h, track) count board
  = (replaced board h (S (list_max (handles board)))
       [(S (S (list_max (handles board))),
         SetWidth (split_width_iu FromMM settings) track)],
     Ok (count + 1)).
Proof.
  intros Hv Hc Ht Hnd Hin Hn.
  destruct (process_track_replaces FromMM settings h track count board
              Hv Hc Ht Hnd Hin) as [sv [shs [Esv [HF Erun]]]].
  destruct (direction_bounds track Ht) as [Bx By].
  destruct (shift_vec_ok track Bx By (direction_nonzero track Hnd))
    as [sv' [Esv' [H1 H2]]].
  assert (sv' = sv) by congruence. subst sv'.
  rewrite Erun, Hn. rewrite Hn in HF. change (Py.range 1) with [0] in HF.
  inversion HF as [|i sh l l' Hsh Hrest]; subst. inversion Hrest; subst.
  destruct (offset_iu_valid FromMM settings 0 Hv
              (pcbnew_config_exact FromMM settings Hc) ltac:(lia)) as [Eo _].
  assert (E0 : offset_halves FromMM settings 0 = 0).
  { unfold offset_halves, group_width_iu. rewrite Hn. ring. }
  rewrite E0 in Eo. change (half 0) with (S754_zero false) in Eo.
  unfold shift in Hsh. rewrite Eo in Hsh. cbn [rbind] in Hsh.
  rewrite (round_fmul_zero _ _ _ H1), (round_fmul_zero _ _ _ H2) in Hsh.
  cbn [rbind] in Hsh. injection Hsh as <-.
  unfold new_tracks, handles_after. cbn [List.length seq map combine].
  unfold shifted_track. rewrite !vadd_zero.
  destruct track; reflexivity.
Qed.

End Single.

(** The worked example of the specification.  The segment from (0,0) to
    (1000,0), split in two with a width of 140000 and a separation of 20000,
    becomes two tracks from x = 0 to x = 1000, at y = -80000 and at
    y = +80000, in one group. *)
Theorem spec_example_runs :
  split_tracks FromMM_nm short_track_board spec_example
  = ({| GetTracks :=
          [(3%nat,
            {| GetStart := {| x := 0; y := -80000 |};
               GetEnd := {| x := 1000; y := -80000 |};
               GetWidth := 140000; GetNetCode := 1; GetLayer := 0 |});
           (4%nat,
            {| GetStart := {| x := 0; y := 80000 |};
               GetEnd := {| x := 1000; y := 80000 |};
               GetWidth := 140000; GetNetCode := 1; GetLayer := 0 |})];
        Groups := [(2%nat, [3%nat; 4%nat])];
        netnames := net_names |},
     FinishedBox 1 2).
Proof. vm_compute. reflexivity. Qed.

(** ** The whole run *)

Lemma for_each_app {A S : Type} (l l' : list A) (body : A -> S -> M S)
  (s : S) (b : BOARD) :
  for_each (l ++ l') body s b
  = match for_each l body s b with
    | (b', Ok s') => for_each l' body s' b'
    | (b', Raise e) => (b', Raise e)
    end.
Proof.
  revert s b. induction l as [|a l IH]; intros s b; [reflexivity|].
  cbn [app for_each]. unfold bind.
  destruct (body a s b) as [b1 [s1|e]]; [apply IH|reflexivity].
Qed.

Lemma above_is_new (l : list handle) (h : handle) :
  (list_max l < h)%nat -> ~ In h l.
Proof.
  intros Hlt Hin.
  pose proof (proj1 (list_max_le l (list_max l)) (Nat.le_refl _)) as Hall.
  rewrite Forall_forall in Hall. apply Hall in Hin. lia.
Qed.

Lemma not_among_cons (h : handle) (done : list handle)
  (l : list (handle * TRACK)) :
  filter (not_among done) (filter (fun ht => negb (Nat.eqb (fst ht) h)) l)
  = filter (not_among (h :: done)) l.
Proof.
  induction l as [|ht l IH]; [reflexivity|].
  unfold not_among at 2. cbn [filter existsb].
  destruct (Nat.eqb (fst ht) h) eqn:E; cbn [negb orb].
  - exact IH.
  - cbn [filter]. fold (not_among done ht).
    destruct (not_among done ht); [f_equal|]; exact IH.
Qed.

Lemma not_among_In (done : list handle) (ht : handle * TRACK) :
  not_among done ht = true <-> ~ In (fst ht) done.
Proof.
  unfold not_among. rewrite negb_true_iff. split.
  - intros E Hin. assert (existsb (Nat.eqb (fst ht)) done = true); [|congruence].
    apply existsb_exists. exists (fst ht). split; [exact Hin|apply Nat.eqb_refl].
  - intros Hn. destruct (existsb (Nat.eqb (fst ht)) done) eqn:E; [|reflexivity].
    apply existsb_exists in E. destruct E as [h [Hin Eh]].
    apply Nat.eqb_eq in Eh. subst h. contradiction.
Qed.

Lemma shifts_length (FromMM : spec_float -> Z) (settings : Settings)
  (sv : spec_float * spec_float) (l : list Z) :
  snd (shifts FromMM settings sv l) = None ->
  List.length (fst (shifts FromMM settings sv l)) = List.length l.
Proof.
  induction l as [|i l IH]; [reflexivity|].
  cbn [shifts]. destruct (shift FromMM settings sv i) as [sh|e].
  - destruct (shifts FromMM settings sv l) as [shs r]. cbn [fst snd] in *.
    intros Hr. cbn [List.length]. f_equal. exact (IH Hr).
  - cbn [snd]. discriminate.
Qed.

Lemma list_max_replaced (b : BOARD) (h g : handle)
  (new : list (handle * TRACK)) :
  (g <= list_max (handles (replaced b h g new)))%nat.
Proof.
  assert (Hin : In g (handles (replaced b h g new))).
  { unfold handles, replaced. cbn [GetTracks Groups]. apply in_or_app. right.
    rewrite flat_map_app. apply in_or_app. right. left. reflexivity. }
  pose proof (proj1 (list_max_le (handles (replaced b h g new))
                       (list_max (handles (replaced b h g new))))
                (Nat.le_refl _)) as Hall.
  rewrite Forall_forall in Hall. apply Hall. exact Hin.
Qed.

Lemma list_max_with_cluster (b : BOARD) (g : handle)
  (new : list (handle * TRACK)) :
  (g <= list_max (handles (with_cluster b g new)))%nat.
Proof.
  assert (Hin : In g (handles (with_cluster b g new))).
  { unfold handles, with_cluster. cbn [GetTracks Groups]. apply in_or_app.
    right. rewrite flat_map_app. apply in_or_app. right. left. reflexivity. }
  pose proof (proj1 (list_max_le (handles (with_cluster b g new))
                       (list_max (handles (with_cluster b g new))))
                (Nat.le_refl _)) as Hall.
  rewrite Forall_forall in Hall. apply Hall. exact Hin.
Qed.

Lemma list_max_without (b : BOARD) (g : handle)
  (new : list (handle * TRACK)) (h : handle) :
  (g <= list_max (handles (without (with_cluster b g new) h)))%nat.
Proof.
  assert (Hin : In g (handles (without (with_cluster b g new) h))).
  { unfold handles, without, with_cluster. cbn [GetTracks Groups].
    apply in_or_app. right. rewrite flat_map_app. apply in_or_app. right.
    left. reflexivity. }
  pose proof (proj1 (list_max_le _ (list_max (handles
                 (without (with_cluster b g new) h)))) (Nat.le_refl _)) as Hall.
  rewrite Forall_forall in Hall. apply Hall. exact Hin.
Qed.

Lemma NoDup_fst_eq {A B : Type} (l : list (A * B)) (a : A) (b b' : B) :
  NoDup (map fst l) -> In (a, b) l -> In (a, b') l -> b = b'.
Proof.
  induction l as [|[a0 b0] l IH]; intros Hnd H1 H2; [contradiction|].
  cbn [map fst] in Hnd. inversion Hnd as [|? ? Hni Hnd']; subst.
  destruct H1 as [E1|H1], H2 as [E2|H2].
  - congruence.
  - injection E1 as -> ->. exfalso. apply Hni.
    apply (in_map fst) in H2. exact H2.
  - injection E2 as -> ->. exfalso. apply Hni.
    apply (in_map fst) in H1. exact H1.
  - apply IH; assumption.
Qed.

Section Batch.

Variable FromMM : spec_float -> Z.

(** One turn of the outer loop, whatever its end: the cluster is added, and
    the track is removed if nothing was raised. *)
Lemma process_track_cases (settings : Settings) (h : handle) (track : TRACK)
  (count : Z) (b : BOARD) :
  exists shs : list VECTOR2I,
    let g := S (list_max (handles b)) in
    let new := new_tracks FromMM settings track g shs in
    (exists e, process_track FromMM settings (h, track) count b
               = (with_cluster b g new, Raise e))
    \/ (List.length shs = Z.to_nat (num_splits settings)
        /\ process_track FromMM settings (h, track) count b
           = (without (with_cluster b g new) h,
              Ok (count + Z.of_nat (List.length shs)))).
Proof.
  rewrite process_track_run.
  destruct (shift_vec track) as [sv|e].
  - cbv zeta.
    destruct (snd (shifts FromMM settings sv (Py.range (num_splits settings))))
      as [e|] eqn:Er.
    + exists (fst (shifts FromMM settings sv (Py.range (num_splits settings)))).
      left. exists e. reflexivity.
    + exists (fst (shifts FromMM settings sv (Py.range (num_splits settings)))).
      right. split; [|reflexivity].
      rewrite (shifts_length _ _ _ _ Er). apply range_length.
  - exists []. left. exists e. reflexivity.
Qed.

Lemma new_tracks_net (settings : Settings) (track : TRACK) (g : handle)
  (shs : list VECTOR2I) :
  Forall (fun ht => GetNetCode (snd ht) = GetNetCode track)
    (new_tracks FromMM settings track g shs).
Proof.
  apply Forall_forall. intros [h' t'] Hin.
  apply (in_map snd) in Hin. rewrite new_tracks_tracks in Hin.
  apply in_map_iff in Hin. destruct Hin as [sh [E _]]. cbn [snd] in *.
  subst t'. reflexivity.
Qed.

Lemma new_tracks_above (settings : Settings) (track : TRACK) (g : handle)
  (shs : list VECTOR2I) :
  Forall (fun ht => (g < fst ht)%nat) (new_tracks FromMM settings track g shs).
Proof.
  apply Forall_forall. intros ht Hin.
  apply (in_map fst) in Hin. rewrite new_tracks_handles in Hin.
  apply handles_after_above in Hin. exact Hin.
Qed.

(** *** What no run does *)

Lemma filter_other_new (board : BOARD) (name : string) (settings : Settings)
  (track : TRACK) (g : handle) (shs : list VECTOR2I) :
  GetNetname board track = name ->
  filter (on_other_net board name) (new_tracks FromMM settings track g shs)
  = [].
Proof.
  intros Hn.
  pose proof (new_tracks_net settings track g shs) as Hall.
  induction Hall as [|ht l Hht Hl IH]; [reflexivity|].
  cbn [filter]. unfold on_other_net at 1. unfold GetNetname. rewrite Hht.
  fold (GetNetname board track). rewrite Hn, String.eqb_refl. exact IH.
Qed.

Lemma filter_other_remove (board : BOARD) (name : string) (h : handle)
  (track : TRACK) (l : list (handle * TRACK)) :
  NoDup (map fst (GetTracks board)) ->
  In (h, track) (GetTracks board) -> GetNetname board track = name ->
  filter (on_other_net board name) l
  = filter (on_other_net board name) (GetTracks board) ->
  filter (on_other_net board name)
    (filter (fun ht => negb (Nat.eqb (fst ht) h)) l)
  = filter (on_other_net board name) (GetTracks board).
Proof.
  intros Hnd Hin Hn Hl.
  assert (Hcomm : forall (l0 : list (handle * TRACK)),
             filter (on_other_net board name)
               (filter (fun ht => negb (Nat.eqb (fst ht) h)) l0)
             = filter (fun ht => negb (Nat.eqb (fst ht) h))
                 (filter (on_other_net board name) l0)).
  { induction l0 as [|a l0 IH]; [reflexivity|]. cbn [filter].
    destruct (Nat.eqb (fst a) h) eqn:E1, (on_other_net board name a) eqn:E2;
      cbn [negb filter]; rewrite ?E1, ?E2; cbn [negb]; rewrite IH;
      reflexivity. }
  rewrite Hcomm, Hl. apply filter_all. apply Forall_forall.
  intros [h' t'] Hin'. apply filter_In in Hin'. destruct Hin' as [Hin' Ho].
  cbn [fst]. apply negb_true_iff, Nat.eqb_neq. intros ->.
  assert (t' = track).
  { apply (NoDup_fst_eq _ _ _ _ Hnd Hin' Hin). }
  subst t'. unfold on_other_net in Ho. cbn [snd] in Ho.
  rewrite Hn, String.eqb_refl in Ho. discriminate.
Qed.

Lemma process_track_keeps_other_nets (board : BOARD) (settings : Settings)
  (h : handle) (track : TRACK) (count : Z) (b : BOARD) :
  NoDup (map fst (GetTracks board)) ->
  In (h, track) (GetTracks board) ->
  GetNetname board track = net_name settings ->
  keeps_other_nets board (net_name settings) b ->
  keeps_other_nets board (net_name settings)
    (fst (process_track FromMM settings (h, track) count b)).
Proof.
  intros Hnd Hin Hn [Hnn Hf].
  destruct (process_track_cases settings h track count b)
    as [shs [[e E]|[_ E]]]; cbv zeta in E; rewrite E; cbn [fst];
    unfold keeps_other_nets, with_cluster, without;
    cbn [GetTracks netnames]; (split; [exact Hnn|]).
  - rewrite filter_app, (filter_other_new _ _ _ _ _ _ Hn), app_nil_r.
    exact Hf.
  - apply (filter_other_remove _ _ _ track); try assumption.
    rewrite filter_app, (filter_other_new _ _ _ _ _ _ Hn), app_nil_r.
    exact Hf.
Qed.

Lemma for_each_keeps_other_nets (board : BOARD) (settings : Settings)
  (rest : list (handle * TRACK)) :
  NoDup (map fst (GetTracks board)) ->
  Forall (fun ht => In ht (GetTracks board)
                    /\ GetNetname board (snd ht) = net_name settings) rest ->
  forall (count : Z) (b : BOARD),
    keeps_other_nets board (net_name settings) b ->
    keeps_other_nets board (net_name settings)
      (fst (for_each rest (process_track FromMM settings) count b)).
Proof.
  intros Hnd Hall. induction Hall as [|[h t] rest [Hin Hn] Hrest IH];
    intros count b Hb; [exact Hb|].
  cbn [for_each]. unfold bind.
  pose proof (process_track_keeps_other_nets board settings h t count b
                Hnd Hin Hn Hb) as H1.
  destruct (process_track FromMM settings (h, t) count b) as [b1 [c1|e]];
    cbn [fst] in *; [apply IH; exact H1|exact H1].
Qed.

Lemma selected_tracks (board : BOARD) (name : string) :
  Forall (fun ht => In ht (GetTracks board)
                    /\ GetNetname board (snd ht) = name)
    (tracks_to_process board name).
Proof.
  rewrite tracks_to_process_filter. apply Forall_forall. intros ht Hin.
  apply filter_In in Hin. destruct Hin as [Hin E].
  apply String.eqb_eq in E. split; assumption.
Qed.

(** X2: whatever its end, a run of [split_tracks] leaves the tracks of the
    other nets as they are: the same objects with the same data in the same
    order, and the net names of the board unchanged.  (The tracks of the
    board are distinct objects.) *)
Theorem split_tracks_keeps_other_nets (board : BOARD) (settings : Settings) :
  NoDup (map fst (GetTracks board)) ->
  keeps_other_nets board (net_name settings)
    (fst (split_tracks FromMM board settings)).
Proof.
  intros Hnd.
  assert (H0 : keeps_other_nets board (net_name settings) board)
    by (split; reflexivity).
  unfold split_tracks.
  destruct (num_splits settings <? 1); [exact H0|].
  pose proof (selected_tracks board (net_name settings)) as Hsel.
  destruct (tracks_to_process board (net_name settings)) as [|ht rest] eqn:Es;
    [exact H0|].
  pose proof (for_each_keeps_other_nets board settings (ht :: rest) Hnd Hsel
                0 board H0) as H1.
  destruct (for_each (ht :: rest) (process_track FromMM settings) 0 board)
    as [b' [c|e]]; exact H1.
Qed.

(** *** Groups *)

Lemma keeps_groups_step (board b : BOARD) (g : handle)
  (new : list (handle * TRACK)) (k : nat) (b' : BOARD) :
  (list_max (handles board) <= list_max (handles b))%nat ->
  g = S (list_max (handles b)) ->
  map fst new = handles_after g k ->
  Groups b' = Groups b ++ [(g, map fst new)] ->
  keeps_groups board b -> keeps_groups board b'.
Proof.
  intros Hle -> Hnew Hg [gs [E Hall]].
  exists (gs ++ [(S (list_max (handles b)), map fst new)]). split.
  - rewrite Hg, E, app_assoc. reflexivity.
  - apply Forall_app. split; [exact Hall|].
    constructor; [|constructor]. cbn [fst snd]. constructor.
    + apply above_is_new. lia.
    + apply Forall_forall. intros h Hin. rewrite Hnew in Hin.
      apply handles_after_above in Hin. apply above_is_new. lia.
Qed.

Lemma process_track_keeps_groups (board : BOARD) (settings : Settings)
  (track : handle * TRACK) (count : Z) (b : BOARD) :
  (list_max (handles board) <= list_max (handles b))%nat ->
  keeps_groups board b ->
  (list_max (handles board)
   <= list_max (handles (fst (process_track FromMM settings track count b))))%nat
  /\ keeps_groups board (fst (process_track FromMM settings track count b)).
Proof.
  intros Hle Hb. destruct track as [h track].
  destruct (process_track_cases settings h track count b)
    as [shs [[e E]|[_ E]]]; cbv zeta in E; rewrite E; cbn [fst]; split.
  - pose proof (list_max_with_cluster b (S (list_max (handles b)))
                  (new_tracks FromMM settings track (S (list_max (handles b))) shs)).
    lia.
  - apply (keeps_groups_step board b (S (list_max (handles b)))
             (new_tracks FromMM settings track (S (list_max (handles b))) shs)
             (List.length shs)); try assumption; try reflexivity.
    apply new_tracks_handles.
  - pose proof (list_max_without b (S (list_max (handles b)))
                  (new_tracks FromMM settings track (S (list_max (handles b))) shs) h).
    lia.
  - apply (keeps_groups_step board b (S (list_max (handles b)))
             (new_tracks FromMM settings track (S (list_max (handles b))) shs)
             (List.length shs)); try assumption; try reflexivity.
    apply new_tracks_handles.
Qed.

Lemma for_each_keeps_groups (board : BOARD) (settings : Settings)
  (rest : list (handle * TRACK)) :
  forall (count : Z) (b : BOARD),
    (list_max (handles board) <= list_max (handles b))%nat ->
    keeps_groups board b ->
    keeps_groups board
      (fst (for_each rest (process_track FromMM settings) count b)).
Proof.
  induction rest as [|ht rest IH]; intros count b Hle Hb; [exact Hb|].
  cbn [for_each]. unfold bind.
  pose proof (process_track_keeps_groups board settings ht count b Hle Hb)
    as [H1 H2].
  destruct (process_track FromMM settings ht count b) as [b1 [c1|e]];
    cbn [fst] in *; [apply IH; assumption|exact H2].
Qed.

(** X3: whatever its end, a run of [split_tracks] leaves the groups of the
    board as they are; the groups it adds come after them, and neither such
    a group nor one of its members is an object the board had: no track of
    the board is put into a group. *)
Theorem split_tracks_keeps_groups (board : BOARD) (settings : Settings) :
  keeps_groups board (fst (split_tracks FromMM board settings)).
Proof.
  assert (H0 : keeps_groups board board).
  { exists []. split; [symmetry; apply app_nil_r|constructor]. }
  unfold split_tracks.
  destruct (num_splits settings <? 1); [exact H0|].
  destruct (tracks_to_process board (net_name settings)) as [|ht rest];
    [exact H0|].
  pose proof (for_each_keeps_groups board settings (ht :: rest) 0 board
                (Nat.le_refl _) H0) as H1.
  destruct (for_each (ht :: rest) (process_track FromMM settings) 0 board)
    as [b' [c|e]]; exact H1.
Qed.

(** *** The counts of the summary *)

Lemma for_each_counts (settings : Settings) (rest : list (handle * TRACK)) :
  0 <= num_splits settings ->
  forall (count : Z) (b b' : BOARD) (c : Z),
    for_each rest (process_track FromMM settings) count b = (b', Ok c) ->
    c = count + Z.of_nat (List.length rest) * num_splits settings
    /\ List.length (Groups b')
       = (List.length (Groups b) + List.length rest)%nat.
Proof.
  intros Hn. induction rest as [|[h t] rest IH]; intros count b b' c E.
  - injection E as <- <-. cbn [List.length]. split; lia.
  - cbn [for_each] in E. unfold bind in E.
    destruct (process_track_cases settings h t count b)
      as [shs [[e E1]|[Hlen E1]]]; cbv zeta in E1; rewrite E1 in E;
      [discriminate|].
    apply IH in E. destruct E as [-> ->]. unfold without, with_cluster.
    cbn [Groups List.length]. rewrite length_app. cbn [List.length].
    rewrite Hlen. split; lia.
Qed.

(** X4: when a run ends with the summary box, the counts of the box are
    right: the first is the number of tracks of the chosen net, which is not
    zero, the second is that number times [num_splits], and the board has
    one more group for every track processed. *)
Theorem split_tracks_counts (board : BOARD) (settings : Settings)
  (processed : nat) (created : Z) :
  snd (split_tracks FromMM board settings) = FinishedBox processed created ->
  processed = List.length (tracks_to_process board (net_name settings))
  /\ (0 < processed)%nat
  /\ created = Z.of_nat processed * num_splits settings
  /\ List.length (Groups (fst (split_tracks FromMM board settings)))
     = (List.length (Groups board) + processed)%nat.
Proof.
  unfold split_tracks.
  destruct (num_splits settings <? 1) eqn:En; [discriminate|].
  apply Z.ltb_ge in En.
  destruct (tracks_to_process board (net_name settings)) as [|ht rest];
    [discriminate|].
  destruct (for_each (ht :: rest) (process_track FromMM settings) 0 board)
    as [b' [c|e]] eqn:E; [|discriminate].
  cbn [fst snd]. intros H. injection H as <- <-.
  apply for_each_counts in E; [|lia]. destruct E as [-> ->].
  cbn [List.length]. repeat split; lia.
Qed.

End Batch.

(** *** A run that replaces every track *)

Lemma vsub_vadd (e s sh : VECTOR2I) : vsub (vadd e sh) (vadd s sh) = vsub e s.
Proof. unfold vsub, vadd. cbn [x y]. f_equal; lia. Qed.

Lemma with_clusters_nil (b : BOARD) : with_clusters b [] [] = b.
Proof.
  destruct b as [ts gs nn]. unfold with_clusters.
  cbn [GetTracks Groups netnames flat_map map]. rewrite !app_nil_r.
  f_equal. apply filter_all. apply Forall_forall. intros ht _. reflexivity.
Qed.

Lemma made_after_le (m m' : handle) (c : handle * list (handle * TRACK)) :
  (m <= m')%nat -> made_after m' c -> made_after m c.
Proof.
  intros Hle [H1 H2]. split; [lia|].
  apply Forall_forall. intros ht Hin. rewrite Forall_forall in H2.
  specialize (H2 ht Hin). lia.
Qed.

(** The tracks that are not among the selected ones are the tracks of the
    other nets. *)
Lemma not_among_selected (board : BOARD) (name : string) :
  NoDup (map fst (GetTracks board)) ->
  filter (not_among (map fst (tracks_to_process board name))) (GetTracks board)
  = filter (on_other_net board name) (GetTracks board).
Proof.
  intros Hnd. apply filter_ext_in. intros [h t] Hin.
  rewrite tracks_to_process_filter. unfold on_other_net. cbn [snd].
  destruct (String.eqb (GetNetname board t) name) eqn:E; cbn [negb].
  - apply not_true_is_false. intros Hn. apply not_among_In in Hn. apply Hn.
    cbn [fst]. change h with (fst (h, t)). apply in_map.
    apply filter_In. split; [exact Hin|exact E].
  - apply not_among_In. cbn [fst]. intros Hh.
    apply in_map_iff in Hh. destruct Hh as [[h' t'] [Eh Hin']].
    cbn [fst] in Eh. subst h'. apply filter_In in Hin'.
    destruct Hin' as [Hin' E']. cbn [snd] in E'.
    assert (t' = t) by (apply (NoDup_fst_eq _ _ _ _ Hnd Hin' Hin)).
    subst t'. congruence.
Qed.

Section Whole.

Variable FromMM : spec_float -> Z.

Lemma new_tracks_bus (settings : Settings) (track : TRACK) (g : handle)
  (sv : spec_float * spec_float) (shs : list VECTOR2I) :
  1 <= num_splits settings ->
  Forall2 (fun i sh => shift FromMM settings sv i = Ok sh)
    (Py.range (num_splits settings)) shs ->
  bus_of FromMM settings track (new_tracks FromMM settings track g shs).
Proof.
  intros Hn HF. split.
  - rewrite new_tracks_length. apply Forall2_length in HF.
    rewrite <- HF, range_length. lia.
  - apply Forall_forall. intros [h' t'] Hin.
    apply (in_map snd) in Hin. rewrite new_tracks_tracks in Hin.
    apply in_map_iff in Hin. destruct Hin as [sh [E _]]. cbn [snd] in *.
    subst t'. unfold shifted_track. cbn.
    repeat split; try reflexivity. apply vsub_vadd.
Qed.

(** The outer loop on tracks of the board that are proper segments in the
    range of [pcbnew]: every turn replaces its track. *)
Lemma for_each_process_track (settings : Settings) :
  valid_config FromMM settings -> pcbnew_config FromMM settings ->
  forall (rest : list (handle * TRACK)) (count : Z) (b : BOARD),
    NoDup (map fst rest) ->
    Forall (fun ht => In ht (GetTracks b) /\ pcbnew_track (snd ht)
                      /\ GetStart (snd ht) <> GetEnd (snd ht)) rest ->
    exists clusters : list (handle * list (handle * TRACK)),
      Forall2 (fun ht c => bus_of FromMM settings (snd ht) (snd c)
                           /\ made_after (list_max (handles b)) c)
        rest clusters
      /\ for_each rest (process_track FromMM settings) count b
         = (with_clusters b (map fst rest) clusters,
            Ok (count + Z.of_nat (List.length rest) * num_splits settings)).
Proof.
  intros Hv Hc. induction rest as [|[h t] rest IH]; intros count b Hnd Hall.
  - exists []. split; [constructor|]. cbn [for_each map List.length].
    rewrite with_clusters_nil. unfold ret. do 2 f_equal. lia.
  - inversion Hall as [|? ? [Hin [Ht Hne]] Hrest]; subst. cbn [snd] in *.
    cbn [map fst] in Hnd. inversion Hnd as [|? ? Hni Hnd']; subst.
    destruct (process_track_replaces FromMM settings h t count b
                Hv Hc Ht Hne Hin) as [sv [shs [Esv [HF Erun]]]].
    set (g := S (list_max (handles b))) in *.
    set (new := new_tracks FromMM settings t g shs) in *.
    assert (Hrest1 : Forall (fun ht => In ht (GetTracks (replaced b h g new))
                                       /\ pcbnew_track (snd ht)
                                       /\ GetStart (snd ht) <> GetEnd (snd ht))
                       rest).
    { apply Forall_forall. intros ht Hht. rewrite Forall_forall in Hrest.
      destruct (Hrest ht Hht) as [H1 H2]. split; [|exact H2].
      unfold replaced. cbn [GetTracks]. apply in_or_app. left.
      apply filter_In. split; [exact H1|].
      apply negb_true_iff, Nat.eqb_neq. intros Eh. apply Hni.
      rewrite <- Eh. apply in_map. exact Hht. }
    destruct (IH (count + num_splits settings) (replaced b h g new)
                Hnd' Hrest1) as [clusters [HF2 Eloop]].
    exists ((g, new) :: clusters). split.
    + constructor.
      * cbn [snd fst]. split.
        -- apply (new_tracks_bus settings t g sv shs); [apply Hv|exact HF].
        -- split; [cbn [fst]; subst g; lia|].
           cbn [snd]. pose proof (new_tracks_above FromMM settings t g shs) as Ha.
           apply Forall_forall. intros ht Hht. rewrite Forall_forall in Ha.
           specialize (Ha ht Hht). subst g. lia.
      * apply (Forall2_impl_In _ _ _ _ (fun a c _ H => H)) in HF2.
        revert HF2. apply Forall2_impl. intros a c [H1 H2]. split; [exact H1|].
        apply (made_after_le _ (list_max (handles (replaced b h g new))));
          [|exact H2].
        pose proof (list_max_replaced b h g new). subst g. lia.
    + cbn [for_each]. unfold bind. rewrite Erun, Eloop. f_equal.
      * unfold with_clusters, replaced. cbn [GetTracks Groups netnames].
        cbn [map fst flat_map snd]. f_equal.
        -- rewrite filter_app, not_among_cons, <- app_assoc. f_equal. f_equal.
           apply filter_all. apply Forall_forall. intros ht Hht.
           apply not_among_In. intros Hh.
           apply in_map_iff in Hh. destruct Hh as [ht' [Eh Hht']].
           rewrite Forall_forall in Hrest. destruct (Hrest ht' Hht') as [H1 _].
           pose proof (track_handle_below b ht' H1) as Hle.
           pose proof (new_tracks_above FromMM settings t g shs) as Ha.
           rewrite Forall_forall in Ha. specialize (Ha ht Hht).
           subst g. lia.
        -- rewrite <- app_assoc. reflexivity.
      * f_equal. cbn [List.length]. lia.
Qed.

Lemma NoDup_selected (board : BOARD) (name : string) :
  NoDup (map fst (GetTracks board)) ->
  NoDup (map fst (tracks_to_process board name)).
Proof.
  intros Hnd. rewrite tracks_to_process_filter.
  induction (GetTracks board) as [|a l IH]; [constructor|].
  cbn [map] in Hnd. inversion Hnd as [|? ? Hni Hnd']; subst.
  cbn [filter]. destruct (String.eqb _ _); [|apply IH; exact Hnd'].
  cbn [map]. constructor; [|apply IH; exact Hnd'].
  intros Hin. apply Hni. apply in_map_iff in Hin.
  destruct Hin as [a' [E Ha']]. apply filter_In in Ha'.
  rewrite <- E. apply in_map. apply Ha'.
Qed.

Lemma split_tracks_with_clusters (board : BOARD) (settings : Settings) :
  valid_config FromMM settings -> pcbnew_config FromMM settings ->
  NoDup (map fst (GetTracks board)) ->
  tracks_to_process board (net_name settings) <> [] ->
  Forall (fun ht => pcbnew_track (snd ht)
                    /\ GetStart (snd ht) <> GetEnd (snd ht))
    (tracks_to_process board (net_name settings)) ->
  exists clusters : list (handle * list (handle * TRACK)),
    Forall2 (fun ht c => bus_of FromMM settings (snd ht) (snd c)
                         /\ made_after (list_max (handles board)) c)
      (tracks_to_process board (net_name settings)) clusters
    /\ split_tracks FromMM board settings
       = (with_clusters board
            (map fst (tracks_to_process board (net_name settings))) clusters,
          FinishedBox
            (List.length (tracks_to_process board (net_name settings)))
            (Z.of_nat
               (List.length (tracks_to_process board (net_name settings)))
             * num_splits settings)).
Proof.
  intros Hv Hc Hnd Hne Hall.
  pose proof (NoDup_selected board (net_name settings) Hnd) as Hnd'.
  assert (Hall' : Forall (fun ht => In ht (GetTracks board)
                                    /\ pcbnew_track (snd ht)
                                    /\ GetStart (snd ht) <> GetEnd (snd ht))
                    (tracks_to_process board (net_name settings))).
  { pose proof (selected_tracks board (net_name settings)) as Hs.
    rewrite Forall_forall in *. intros ht Hht. split; [apply Hs, Hht|].
    apply Hall, Hht. }
  destruct (for_each_process_track settings Hv Hc _ 0 board Hnd' Hall')
    as [clusters [HF E]].
  exists clusters. split; [exact HF|].
  unfold split_tracks.
  assert (En : (num_splits settings <? 1) = false)
    by (apply Z.ltb_ge; apply Hv).
  rewrite En.
  destruct (tracks_to_process board (net_name settings)) as [|ht rest] eqn:Es;
    [contradiction|].
  rewrite E. reflexivity.
Qed.

(** X5: the whole run on proper segments.  When every track of the chosen
    net has two distinct ends, in the range of [pcbnew], a valid
    configuration replaces each of them by a bus: the board keeps the tracks
    of the other nets, then holds the buses in the order of their tracks;
    every bus is in a group of its own, added after the groups of the board
    and made of new objects; the summary box counts the tracks and
    [num_splits] times as many new tracks. *)
Theorem split_tracks_replaces_every_track (board : BOARD)
  (settings : Settings) :
  valid_config FromMM settings -> pcbnew_config FromMM settings ->
  NoDup (map fst (GetTracks board)) ->
  tracks_to_process board (net_name settings) <> [] ->
  Forall (fun ht => pcbnew_track (snd ht)
                    /\ GetStart (snd ht) <> GetEnd (snd ht))
    (tracks_to_process board (net_name settings)) ->
  exists clusters : list (handle * list (handle * TRACK)),
    Forall2 (fun ht c => bus_of FromMM settings (snd ht) (snd c)
                         /\ made_after (list_max (handles board)) c)
      (tracks_to_process board (net_name settings)) clusters
    /\ split_tracks FromMM board settings
       = ({| GetTracks :=
               filter (on_other_net board (net_name settings))
                 (GetTracks board)
               ++ flat_map snd clusters;
             Groups := Groups board ++ map group_of clusters;
             netnames := netnames board |},
          FinishedBox
            (List.length (tracks_to_process board (net_name settings)))
            (Z.of_nat
               (List.length (tracks_to_process board (net_name settings)))
             * num_splits settings)).
Proof.
  intros Hv Hc Hnd Hne Hall.
  destruct (split_tracks_with_clusters board settings Hv Hc Hnd Hne Hall)
    as [clusters [HF E]].
  exists clusters. split; [exact HF|].
  rewrite E. unfold with_clusters.
  rewrite not_among_selected by exact Hnd. reflexivity.
Qed.

(** *** A second run *)

Lemma filter_selected_other (board : BOARD) (name : string)
  (l : list (handle * TRACK)) :
  filter (fun track => String.eqb (GetNetname board (snd track)) name)
    (filter (on_other_net board name) l) = [].
Proof.
  induction l as [|a l IH]; [reflexivity|].
  cbn [filter]. unfold on_other_net at 1.
  destruct (String.eqb (GetNetname board (snd a)) name) eqn:E; cbn [negb];
    [exact IH|]. cbn [filter]. rewrite E. exact IH.
Qed.

Lemma buses_selected (board : BOARD) (settings : Settings) (m : handle)
  (sel : list (handle * TRACK))
  (clusters : list (handle * list (handle * TRACK))) :
  0 <= num_splits settings ->
  Forall (fun ht => GetNetname board (snd ht) = net_name settings) sel ->
  Forall2 (fun ht c => bus_of FromMM settings (snd ht) (snd c)
                       /\ made_after m c) sel clusters ->
  filter (fun track =>
            String.eqb (GetNetname board (snd track)) (net_name settings))
    (flat_map snd clusters) = flat_map snd clusters
  /\ Z.of_nat (List.length (flat_map snd clusters))
     = Z.of_nat (List.length sel) * num_splits settings
  /\ Forall (fun ht => (m < fst ht)%nat
                       /\ GetWidth (snd ht) = split_width_iu FromMM settings)
       (flat_map snd clusters).
Proof.
  intros Hn Hsel HF. revert Hsel.
  induction HF as [|ht c sel clusters [[Hlen Hbus] [_ Hnew]] HF IH];
    intros Hsel.
  - cbn. repeat split; try constructor; lia.
  - inversion Hsel as [|? ? Hnet Hsel']; subst.
    destruct (IH Hsel') as [IH1 [IH2 IH3]].
    cbn [flat_map]. rewrite filter_app, length_app, IH1. repeat split.
    + f_equal. apply filter_all. rewrite Forall_forall in *.
      intros a Ha. destruct (Hbus a Ha) as [_ [Hc _]].
      unfold GetNetname in *. rewrite Hc, Hnet. apply String.eqb_refl.
    + cbn [List.length]. lia.
    + apply Forall_app. split; [|exact IH3].
      rewrite Forall_forall in *. intros a Ha.
      split; [apply Hnew, Ha|apply (Hbus a Ha)].
Qed.

(** X6: a run is not idempotent.  After a run that replaces every track of
    the chosen net, the tracks of that net are the new tracks, and these
    only: [num_splits] for every track the net had, each of the split width
    and none of them an object of the board before.  A second run on the
    same net selects them and splits them again. *)
Theorem split_tracks_selects_the_new_tracks (board : BOARD)
  (settings : Settings) :
  valid_config FromMM settings -> pcbnew_config FromMM settings ->
  NoDup (map fst (GetTracks board)) ->
  tracks_to_process board (net_name settings) <> [] ->
  Forall (fun ht => pcbnew_track (snd ht)
                    /\ GetStart (snd ht) <> GetEnd (snd ht))
    (tracks_to_process board (net_name settings)) ->
  let again :=
    tracks_to_process (fst (split_tracks FromMM board settings))
      (net_name settings) in
  Z.of_nat (List.length again)
  = Z.of_nat (List.length (tracks_to_process board (net_name settings)))
    * num_splits settings
  /\ Forall (fun ht => ~ In (fst ht) (handles board)
                       /\ GetWidth (snd ht) = split_width_iu FromMM settings)
       again.
Proof.
  intros Hv Hc Hnd Hne Hall again.
  destruct (split_tracks_with_clusters board settings Hv Hc Hnd Hne Hall)
    as [clusters [HF E]].
  assert (Hnet : Forall (fun ht => GetNetname board (snd ht)
                                   = net_name settings)
                   (tracks_to_process board (net_name settings))).
  { pose proof (selected_tracks board (net_name settings)) as Hs.
    rewrite Forall_forall in *. intros ht Hht. apply Hs, Hht. }
  destruct (buses_selected board settings _ _ clusters
              ltac:(destruct Hv; lia) Hnet HF) as [H1 [H2 H3]].
  assert (Ea : again = flat_map snd clusters).
  { subst again. rewrite E. cbn [fst]. rewrite tracks_to_process_filter.
    unfold with_clusters. cbn [GetTracks]. unfold GetNetname.
    cbn [netnames]. fold (GetNetname board).
    change (fun track : handle * TRACK =>
              String.eqb (netnames board (GetNetCode (snd track)))
                (net_name settings))
      with (fun track : handle * TRACK =>
              String.eqb (GetNetname board (snd track)) (net_name settings)).
    rewrite filter_app, not_among_selected by exact Hnd.
    rewrite filter_selected_other, H1. reflexivity. }
  rewrite Ea. split; [exact H2|].
  rewrite Forall_forall in *. intros a Ha. destruct (H3 a Ha) as [Hm Hw].
  split; [apply above_is_new; exact Hm|exact Hw].
Qed.

(** *** A track that is a point, later in the run *)

Lemma Forall_app_selected (board : BOARD) (name : string)
  (pre post : list (handle * TRACK)) (ht : handle * TRACK) :
  NoDup (map fst (GetTracks board)) ->
  tracks_to_process board name = pre ++ ht :: post ->
  Forall (fun a => In a (filter (not_among (map fst pre)) (GetTracks board)))
    (ht :: post).
Proof.
  intros Hnd Es.
  pose proof (NoDup_selected board name Hnd) as Hnd'.
  pose proof (selected_tracks board name) as Hs.
  rewrite Es in Hnd', Hs. rewrite map_app in Hnd'.
  apply Forall_app in Hs. destruct Hs as [_ Hs].
  rewrite Forall_forall in *. intros a Ha. apply filter_In.
  split; [apply (Hs a Ha)|]. apply not_among_In. intros Hin.
  revert Hnd' Hin. apply (in_map fst) in Ha. revert Ha.
  generalize (fst a) (map fst pre) (map fst (ht :: post)).
  clear. intros h l l' Hl' Hnd Hl.
  induction l as [|a l IH]; [contradiction|].
  cbn [app] in Hnd. inversion Hnd as [|? ? Hni Hnd']; subst.
  destruct Hl as [->|Hl]; [|apply IH; assumption].
  apply Hni. apply in_or_app. right. exact Hl'.
Qed.

(** X7: the run ends at the first track of the chosen net that is a point.
    The tracks of the net before it, proper segments in the range of
    [pcbnew], are replaced by their buses; then the group made for the point
    is added, empty, and the division of line 160 raises.  The point and
    every track of the net after it are still on the board. *)
Theorem split_tracks_stops_at_zero_length (board : BOARD)
  (settings : Settings) (pre post : list (handle * TRACK)) (h : handle)
  (track : TRACK) :
  valid_config FromMM settings -> pcbnew_config FromMM settings ->
  NoDup (map fst (GetTracks board)) ->
  tracks_to_process board (net_name settings) = pre ++ (h, track) :: post ->
  Forall (fun ht => pcbnew_track (snd ht)
                    /\ GetStart (snd ht) <> GetEnd (snd ht)) pre ->
  GetStart track = GetEnd track ->
  exists clusters : list (handle * list (handle * TRACK)),
    Forall2 (fun ht c => bus_of FromMM settings (snd ht) (snd c)
                         /\ made_after (list_max (handles board)) c)
      pre clusters
    /\ split_tracks FromMM board settings
       = (with_empty_group (with_clusters board (map fst pre) clusters),
          Uncaught ZeroDivisionError)
    /\ Forall (fun ht =>
                 In ht (GetTracks
                          (with_empty_group
                             (with_clusters board (map fst pre) clusters))))
         ((h, track) :: post).
Proof.
  intros Hv Hc Hnd Es Hall Hp.
  pose proof (NoDup_selected board (net_name settings) Hnd) as Hnd'.
  pose proof (selected_tracks board (net_name settings)) as Hs.
  rewrite Es in Hnd', Hs. rewrite map_app in Hnd'.
  apply NoDup_app_remove_r in Hnd'.
  apply Forall_app in Hs. destruct Hs as [Hs _].
  assert (Hall' : Forall (fun ht => In ht (GetTracks board)
                                    /\ pcbnew_track (snd ht)
                                    /\ GetStart (snd ht) <> GetEnd (snd ht))
                    pre).
  { rewrite Forall_forall in *. intros ht Hht. split; [apply Hs, Hht|].
    apply Hall, Hht. }
  destruct (for_each_process_track settings Hv Hc pre 0 board Hnd' Hall')
    as [clusters [HF E]].
  exists clusters. split; [exact HF|]. split.
  - unfold split_tracks.
    assert (En : (num_splits settings <? 1) = false)
      by (apply Z.ltb_ge; apply Hv).
    rewrite En. cbv zeta. rewrite Es.
    destruct (pre ++ (h, track) :: post) as [|a l] eqn:El;
      [destruct pre; discriminate|]. rewrite <- El.
    rewrite for_each_app, E. cbn [for_each]. unfold bind at 1.
    rewrite process_track_run, shift_vec_zero_length by assumption.
    unfold with_cluster, with_empty_group. cbn [map]. rewrite app_nil_r.
    reflexivity.
  - pose proof (Forall_app_selected board (net_name settings) pre post
                  (h, track) Hnd Es) as Hin.
    rewrite Forall_forall in *. intros a Ha.
    unfold with_empty_group, with_clusters. cbn [GetTracks].
    apply in_or_app. left. apply Hin, Ha.
Qed.

End Whole.

(** *** The width of the bus and the gaps *)

Section Spacing.

Variable FromMM : spec_float -> Z.


End Spacing.

(** ** The dialog *)

(** *** The order of the net names *)

Lemma leb_trans (a b c : string) :
  String.leb a b = true -> String.leb b c = true -> String.leb a c = true.
Proof.
  unfold String.leb.
  change String.compare with OrdersEx.String_as_OT.compare.
  destruct (OrdersEx.String_as_OT.compare_spec a b) as [E|L|G];
    try discriminate;
    destruct (OrdersEx.String_as_OT.compare_spec b c) as [E'|L'|G'];
    try discriminate; intros _ _;
    unfold OrdersEx.String_as_OT.eq in *; subst.
  - destruct (OrdersEx.String_as_OT.compare_spec c c) as [E|L|G];
      try reflexivity.
    exfalso. exact (StrictOrder_Irreflexive _ G).
  - rewrite L'. reflexivity.
  - rewrite L. reflexivity.
  - rewrite (StrictOrder_Transitive _ _ _ L L'). reflexivity.
Qed.

Lemma insert_Permutation (s : string) (l : list string) :
  Permutation (insert s l) (s :: l).
Proof.
  induction l as [|a l IH]; [reflexivity|].
  cbn [insert]. destruct (String.leb s a); [reflexivity|].
  rewrite IH. apply perm_swap.
Qed.

Lemma sorted_Permutation (l : list string) : Permutation (sorted l) l.
Proof.
  induction l as [|a l IH]; [reflexivity|].
  cbn [sorted fold_right]. fold (sorted l).
  rewrite insert_Permutation, IH. reflexivity.
Qed.

Lemma insert_Sorted (s : string) (l : list string) :
  Sorted (fun a b => String.leb a b = true) l ->
  Sorted (fun a b => String.leb a b = true) (insert s l).
Proof.
  induction 1 as [|a l Hl IH Hhd]; [repeat constructor|].
  cbn [insert]. destruct (String.leb s a) eqn:E.
  - constructor; [constructor; assumption|constructor; exact E].
  - constructor; [exact IH|].
    assert (Ea : String.leb a s = true).
    { destruct (String.leb_total a s) as [H|H]; [exact H|congruence]. }
    destruct l as [|b l]; cbn [insert]; [constructor; exact Ea|].
    inversion Hhd as [|? ? Hab]; subst.
    destruct (String.leb s b); constructor; assumption.
Qed.

Lemma sorted_Sorted (l : list string) :
  Sorted (fun a b => String.leb a b = true) (sorted l).
Proof.
  induction l as [|a l IH]; [constructor|].
  cbn [sorted fold_right]. apply insert_Sorted. exact IH.
Qed.

(** Two sorted lists with the same members are the same list. *)
Lemma Sorted_unique (l l' : list string) :
  Sorted (fun a b => String.leb a b = true) l ->
  Sorted (fun a b => String.leb a b = true) l' ->
  Permutation l l' -> l = l'.
Proof.
  intros H H'.
  apply Sorted_StronglySorted in H; [|intros a b c; apply leb_trans].
  apply Sorted_StronglySorted in H'; [|intros a b c; apply leb_trans].
  revert l' H'. induction H as [|a l Hl IH Ha]; intros l' H' Hp.
  - apply Permutation_nil in Hp. symmetry. exact Hp.
  - destruct H' as [|b l' Hl' Hb].
    + apply Permutation_sym, Permutation_nil in Hp. discriminate.
    + assert (a = b).
      { rewrite Forall_forall in Ha, Hb.
        assert (Hab : In a (b :: l'))
          by (apply (Permutation_in _ Hp); left; reflexivity).
        assert (Hba : In b (a :: l))
          by (apply (Permutation_in _ (Permutation_sym Hp)); left;
              reflexivity).
        destruct Hab as [->|Hab]; [reflexivity|].
        destruct Hba as [->|Hba]; [reflexivity|].
        apply String.leb_antisym; [apply Ha, Hba|apply Hb, Hab]. }
      subst b. f_equal. apply IH; [exact Hl'|].
      apply (Permutation_cons_inv Hp).
Qed.

Lemma filter_Permutation {A : Type} (p : A -> bool) (l l' : list A) :
  Permutation l l' -> Permutation (filter p l) (filter p l').
Proof.
  induction 1 as [|a l l' H IH|a b l|l l' l'' H IH H' IH'].
  - constructor.
  - cbn [filter]. destruct (p a); [constructor|]; exact IH.
  - cbn [filter]. destruct (p a), (p b); try reflexivity. apply perm_swap.
  - rewrite IH. exact IH'.
Qed.

(** X9: the nets the dialog offers (line 30) are the names of the nets of
    the board, without the empty names, each as often as it is the name of a
    net, in ascending order; the list does not depend on the order in which
    the board enumerates its nets. *)
Theorem nets_sorted (board : BOARD) (netcodes : list Z) :
  Sorted (fun a b => String.leb a b = true) (nets board netcodes)
  /\ Permutation (nets board netcodes)
       (filter (fun name => negb (String.eqb name EmptyString))
          (map (netnames board) netcodes))
  /\ (forall name, In name (nets board netcodes)
        <-> name <> EmptyString
            /\ exists code, In code netcodes /\ netnames board code = name)
  /\ (forall netcodes', Permutation netcodes netcodes' ->
        nets board netcodes' = nets board netcodes).
Proof.
  split; [apply sorted_Sorted|]. split; [apply sorted_Permutation|]. split.
  - intros name. split.
    + intros Hin. apply (Permutation_in _ (sorted_Permutation _)) in Hin.
      apply filter_In in Hin. destruct Hin as [Hin Hne].
      apply negb_true_iff, String.eqb_neq in Hne. split; [exact Hne|].
      apply in_map_iff in Hin. destruct Hin as [code [E Hc]].
      exists code. split; assumption.
    + intros [Hne [code [Hc E]]].
      apply (Permutation_in _ (Permutation_sym (sorted_Permutation _))).
      apply filter_In. split.
      * rewrite <- E. apply in_map. exact Hc.
      * apply negb_true_iff, String.eqb_neq. exact Hne.
  - intros netcodes' Hp. apply Sorted_unique; try apply sorted_Sorted.
    unfold nets. rewrite !sorted_Permutation.
    apply filter_Permutation, Permutation_map, Permutation_sym. exact Hp.
Qed.

(** *** The first selection *)

Lemma index_nth (s : string) (l : list string) (i : nat) :
  index s l = Some i -> (i < List.length l)%nat /\ nth i l EmptyString = s.
Proof.
  revert i. induction l as [|a l IH]; intros i; [discriminate|].
  cbn [index]. destruct (String.eqb a s) eqn:E.
  - intros H. injection H as <-. apply String.eqb_eq in E.
    cbn [List.length nth]. split; [lia|exact E].
  - destruct (index s l) as [j|]; [|discriminate].
    intros H. injection H as <-. destruct (IH j eq_refl) as [H1 H2].
    cbn [List.length nth]. split; [lia|exact H2].
Qed.

Lemma index_None (s : string) (l : list string) :
  index s l = None <-> ~ In s l.
Proof.
  induction l as [|a l IH]; [split; [intros _ []|reflexivity]|].
  cbn [index In]. destruct (String.eqb a s) eqn:E.
  - apply String.eqb_eq in E. split; [discriminate|]. intros H.
    exfalso. apply H. left. exact E.
  - apply String.eqb_neq in E. destruct (index s l) as [j|].
    + split; [discriminate|]. intros H. exfalso.
      assert (Hn : ~ In s l) by (intros Hin; apply H; right; exact Hin).
      apply (proj2 IH) in Hn. discriminate.
    + split; [|reflexivity]. intros _ [H|H]; [contradiction|].
      apply (proj1 IH); [reflexivity|exact H].
Qed.

Lemma GetStringSelection_preselected (nets : list string) (name : string) :
  In name nets ->
  GetStringSelection (new_net_choice nets (Some name)) = name.
Proof.
  intros Hin. unfold new_net_choice.
  destruct (index name nets) as [i|] eqn:Ei.
  - destruct (index_nth _ _ _ Ei) as [_ Hn]. exact Hn.
  - apply index_None in Ei. contradiction.
Qed.

(** X10: the first selection of the dialog (lines 34-38).  The choice
    offers the nets; it shows the preselected net when that is one of them,
    and otherwise the first of the nets; the position selected is always one
    of the list, and nothing is selected only when there is no net to
    offer, where the string selection is empty. *)
Theorem new_net_choice_selects (nets : list string)
  (preselected_net : option string) :
  choices (new_net_choice nets preselected_net) = nets
  /\ (forall name, preselected_net = Some name -> In name nets ->
        GetStringSelection (new_net_choice nets preselected_net) = name)
  /\ ((forall name, preselected_net = Some name -> ~ In name nets) ->
      GetStringSelection (new_net_choice nets preselected_net)
      = hd EmptyString nets)
  /\ (forall n, GetSelection (new_net_choice nets preselected_net) = Some n ->
        (n < List.length nets)%nat)
  /\ (GetSelection (new_net_choice nets preselected_net) = None
      <-> nets = []).
Proof.
  unfold new_net_choice.
  destruct preselected_net as [name|].
  - destruct (index name nets) as [i|] eqn:Ei.
    + destruct (index_nth _ _ _ Ei) as [Hi Hn].
      unfold GetStringSelection, SetSelection. cbn [choices GetSelection].
      repeat split.
      * intros name' E _. injection E as <-. exact Hn.
      * intros H. exfalso.
        assert (Hnot : ~ In name nets) by exact (H name eq_refl).
        apply (proj2 (index_None name nets)) in Hnot. congruence.
      * intros n E. injection E as <-. exact Hi.
      * discriminate.
      * intros ->. discriminate.
    + apply index_None in Ei.
      destruct nets as [|a nets];
        unfold GetStringSelection, SetSelection; cbn [choices GetSelection];
        repeat split; try discriminate; try reflexivity.
      * intros name' E Hin. injection E as <-. contradiction.
      * intros name' E Hin. injection E as <-. contradiction.
      * intros n E. injection E as <-. cbn [List.length]. lia.
  - destruct nets as [|a nets];
      unfold GetStringSelection, SetSelection; cbn [choices GetSelection];
      repeat split; try discriminate; try reflexivity.
    intros n E. injection E as <-. cbn [List.length]. lia.
Qed.
(** *** The preselected net *)

Lemma first_netname_spec (board : BOARD) (items : list (handle * TRACK)) :
  match first_netname board items with
  | Some name =>
      name <> EmptyString
      /\ exists before item after,
           items = before ++ item :: after
           /\ GetNetname board (snd item) = name
           /\ Forall (fun x => GetNetname board (snd x) = EmptyString) before
  | None => Forall (fun x => GetNetname board (snd x) = EmptyString) items
  end.
Proof.
  induction items as [|item items IH]; [constructor|].
  cbn [first_netname].
  destruct (String.eqb (GetNetname board (snd item)) EmptyString) eqn:E;
    cbn [negb].
  - apply String.eqb_eq in E.
    destruct (first_netname board items) as [name|].
    + destruct IH as [Hne [before [item' [after [Ei [En Hb]]]]]].
      split; [exact Hne|]. exists (item :: before), item', after.
      split; [rewrite Ei; reflexivity|]. split; [exact En|].
      constructor; assumption.
    + constructor; assumption.
  - apply String.eqb_neq in E. split; [exact E|].
    exists [], item, items. repeat split. constructor.
Qed.

Lemma filter_split {A : Type} (p : A -> bool) (l before after : list A)
  (a : A) :
  filter p l = before ++ a :: after ->
  exists l1 l2, l = l1 ++ a :: l2 /\ filter p l1 = before /\ p a = true.
Proof.
  revert before. induction l as [|b l IH]; intros before E.
  - destruct before; discriminate.
  - cbn [filter] in E. destruct (p b) eqn:Eb.
    + destruct before as [|b' before].
      * injection E as -> E. exists [], l. repeat split. exact Eb.
      * injection E as -> E. destruct (IH _ E) as [l1 [l2 [El [Ef Ea]]]].
        exists (b' :: l1), l2. rewrite El. cbn [filter app]. rewrite Eb, Ef.
        repeat split. exact Ea.
    + destruct (IH _ E) as [l1 [l2 [El [Ef Ea]]]].
      exists (b :: l1), l2. rewrite El. cbn [filter app]. rewrite Eb.
      repeat split; assumption.
Qed.

(** X11: the net the dialog opens on (lines 102-107) is the net of the
    first selected track of the board, in the order of the board, that has a
    net name; there is none exactly when every selected track is without a
    net name. *)
Theorem preselected_net_first (board : BOARD) (IsSelected : handle -> bool) :
  match preselected_net board IsSelected with
  | Some name =>
      name <> EmptyString
      /\ exists before item after,
           GetTracks board = before ++ item :: after
           /\ IsSelected (fst item) = true
           /\ GetNetname board (snd item) = name
           /\ Forall (fun x => IsSelected (fst x) = true ->
                                GetNetname board (snd x) = EmptyString) before
  | None =>
      Forall (fun x => IsSelected (fst x) = true ->
                       GetNetname board (snd x) = EmptyString)
        (GetTracks board)
  end.
Proof.
  unfold preselected_net, selected_items.
  pose proof (first_netname_spec board
                (filter (fun x => IsSelected (fst x)) (GetTracks board)))
    as H.
  destruct (first_netname board
              (filter (fun x => IsSelected (fst x)) (GetTracks board)))
    as [name|].
  - destruct H as [Hne [before [item [after [Ei [En Hb]]]]]].
    split; [exact Hne|].
    destruct (filter_split _ _ _ _ _ Ei) as [l1 [l2 [El [Ef Ea]]]].
    exists l1, item, l2. repeat split; try assumption.
    rewrite Forall_forall in *. intros x Hx Hs. apply Hb.
    rewrite <- Ef. apply filter_In. split; assumption.
  - rewrite Forall_forall in *. intros x Hx Hs. apply H.
    apply filter_In. split; assumption.
Qed.

(** *** The run of the plugin *)

Lemma preselected_net_spec_item (board : BOARD)
  (IsSelected : handle -> bool) :
  match preselected_net board IsSelected with
  | Some name =>
      name <> EmptyString
      /\ exists item, In item (GetTracks board)
                      /\ GetNetname board (snd item) = name
  | None => True
  end.
Proof.
  unfold preselected_net, selected_items.
  pose proof (first_netname_spec board
                (filter (fun x => IsSelected (fst x)) (GetTracks board)))
    as H.
  destruct (first_netname board
              (filter (fun x => IsSelected (fst x)) (GetTracks board)))
    as [name|]; [|exact I].
  destruct H as [Hne [before [item [after [Ei [En Hb]]]]]].
  split; [exact Hne|]. exists item. split; [|exact En].
  assert (Hin : In item (filter (fun x => IsSelected (fst x))
                           (GetTracks board))).
  { rewrite Ei. apply in_or_app. right. left. reflexivity. }
  apply filter_In in Hin. apply Hin.
Qed.


Section RunProofs.

Variable FromMM : spec_float -> Z.
Variable float : string -> option spec_float.
Variable int : string -> option Z.

Lemma get_settings_None (self : SettingsDialog) :
  get_settings float int self = None
  <-> float (text_width self) = None \/ float (text_sep self) = None
      \/ int (text_splits self) = None.
Proof.
  unfold get_settings.
  destruct (float (text_width self)); [|tauto].
  destruct (float (text_sep self)); [|tauto].
  destruct (int (text_splits self)); [|tauto].
  split; [discriminate|]. intros [H|[H|H]]; discriminate.
Qed.

Lemma preselected_net_offered (board : BOARD) (netcodes : list Z)
  (IsSelected : handle -> bool) (name : string) :
  preselected_net board IsSelected = Some name ->
  Forall (fun x => In (GetNetCode (snd x)) netcodes) (GetTracks board) ->
  In name (nets board netcodes).
Proof.
  intros Ep Hall.
  pose proof (preselected_net_spec_item board IsSelected) as H.
  rewrite Ep in H. destruct H as [Hne [item [Hin En]]].
  unfold nets.
  apply (Permutation_in _ (Permutation_sym (sorted_Permutation _))).
  apply filter_In. split.
  - rewrite <- En. unfold GetNetname. apply in_map.
    rewrite Forall_forall in Hall. apply Hall. exact Hin.
  - apply negb_true_iff, String.eqb_neq. exact Hne.
Qed.

(** X12: from a selected track to the split.  When the operator has
    selected a track with a net name and leaves the dialog with OK as it
    opens, the plugin splits the tracks of the net of the first such track,
    with the numbers the dialog proposes: [float] of 1.4 and of 0.2 and
    [int] of 2.  (Every track of the board is on a net of the board.) *)
Theorem Run_splits_the_preselected_net (board : BOARD) (netcodes : list Z)
  (IsSelected : handle -> bool)
  (ShowModal : SettingsDialog -> SettingsDialog * bool)
  (name : string) (w s : spec_float) (n : Z) :
  preselected_net board IsSelected = Some name ->
  Forall (fun x => In (GetNetCode (snd x)) netcodes) (GetTracks board) ->
  ShowModal (new_SettingsDialog board netcodes (Some name))
  = (new_SettingsDialog board netcodes (Some name), true) ->
  float "1.4" = Some w -> float "0.2" = Some s -> int "2" = Some n ->
  fst (Run FromMM float int board netcodes IsSelected ShowModal)
  = fst (split_tracks FromMM board
           {| net_name := name; split_width := w; internal_sep := s;
              num_splits := n |})
  /\ shown (snd (Run FromMM float int board netcodes IsSelected ShowModal))
     = Split (snd (split_tracks FromMM board
                     {| net_name := name; split_width := w;
                        internal_sep := s; num_splits := n |})).
Proof.
  intros Ep Hall Eop Ew Es En.
  pose proof (preselected_net_offered board netcodes IsSelected name Ep Hall)
    as Hin.
  unfold Run. rewrite Ep, Eop.
  assert (Eg : get_settings float int
                 (new_SettingsDialog board netcodes (Some name))
               = Some {| net_name := name; split_width := w;
                         internal_sep := s; num_splits := n |}).
  { unfold get_settings, new_SettingsDialog.
    cbn [net_choice text_width text_sep text_splits].
    rewrite Ew, Es, En.
    rewrite (GetStringSelection_preselected _ _ Hin). reflexivity. }
  rewrite Eg.
  destruct (split_tracks FromMM board
              {| net_name := name; split_width := w; internal_sep := s;
                 num_splits := n |}) as [b' o].
  destruct o; split; reflexivity.
Qed.

(** X13: a number that does not parse.  When the operator leaves the dialog
    with OK and the text of the width, of the separation or of the number of
    splits is not a number, the plugin shows the error box of line 114 and
    returns: the board is as it was, and the dialog is not destroyed. *)
Theorem Run_invalid_input (board : BOARD) (netcodes : list Z)
  (IsSelected : handle -> bool)
  (ShowModal : SettingsDialog -> SettingsDialog * bool)
  (dialog : SettingsDialog) :
  ShowModal (new_SettingsDialog board netcodes
               (preselected_net board IsSelected)) = (dialog, true) ->
  float (text_width dialog) = None \/ float (text_sep dialog) = None
  \/ int (text_splits dialog) = None ->
  Run FromMM float int board netcodes IsSelected ShowModal
  = (board, {| shown := InvalidInputBox; Destroyed := false |}).
Proof.
  intros Eop Hbad. apply get_settings_None in Hbad.
  unfold Run. rewrite Eop, Hbad. reflexivity.
Qed.

(** X14: the dialog is destroyed (line 120) unless the operator left it with
    OK and then a number did not parse or [split_tracks] raised: in these
    two cases, and in no other, it stays. *)
Theorem Run_destroys_the_dialog (board : BOARD) (netcodes : list Z)
  (IsSelected : handle -> bool)
  (ShowModal : SettingsDialog -> SettingsDialog * bool) :
  let opened :=
    new_SettingsDialog board netcodes (preselected_net board IsSelected) in
  Destroyed (snd (Run FromMM float int board netcodes IsSelected ShowModal))
  = false
  <-> snd (ShowModal opened) = true
      /\ (get_settings float int (fst (ShowModal opened)) = None
          \/ exists settings e,
               get_settings float int (fst (ShowModal opened)) = Some settings
               /\ snd (split_tracks FromMM board settings) = Uncaught e).
Proof.
  cbv zeta. unfold Run.
  destruct (ShowModal (new_SettingsDialog board netcodes
                         (preselected_net board IsSelected)))
    as [dialog ok].
  cbn [fst snd]. destruct ok.
  - destruct (get_settings float int dialog) as [settings|].
    + destruct (split_tracks FromMM board settings) as [b' o] eqn:Esp.
      assert (Hno : forall o', o' = o -> (forall e, o' <> Uncaught e) ->
                true = false
                <-> true = true
                    /\ (Some settings = None
                        \/ exists settings' e,
                             Some settings = Some settings'
                             /\ snd (split_tracks FromMM board settings')
                                = Uncaught e)).
      { intros o' -> Hne. split; [discriminate|].
        intros [_ [H|[settings' [e' [H1 H2]]]]]; [discriminate|].
        injection H1 as <-. rewrite Esp in H2. cbn [snd] in H2.
        exfalso. exact (Hne e' H2). }
      destruct o; cbn [snd Destroyed];
        try (apply (Hno _ eq_refl); intros e; discriminate).
      split; [|reflexivity].
      intros _. split; [reflexivity|]. right. exists settings, e.
      split; [reflexivity|]. rewrite Esp. reflexivity.
    + cbn [snd Destroyed]. split; [|reflexivity].
      intros _. split; [reflexivity|]. left. reflexivity.
  - cbn [snd Destroyed]. split; [discriminate|]. intros [H _]. discriminate.
Qed.

Lemma nets_nil (board : BOARD) (netcodes : list Z) :
  Forall (fun code => netnames board code = EmptyString) netcodes ->
  nets board netcodes = [].
Proof.
  intros Hall. unfold nets.
  assert (E : filter (fun name => negb (String.eqb name EmptyString))
                (map (netnames board) netcodes) = []).
  { induction Hall as [|code l Hc Hl IH]; [reflexivity|].
    cbn [map filter]. rewrite Hc. cbn. exact IH. }
  rewrite E. reflexivity.
Qed.

(** X17: a board without a named net.  The dialog then has no net to offer
    and nothing is selected; when the operator leaves it with OK as it
    opens, the net name of the settings is the empty string, and the plugin
    splits the tracks whose net name is empty, those that are on no net. *)
Theorem Run_without_nets (board : BOARD) (netcodes : list Z)
  (IsSelected : handle -> bool)
  (ShowModal : SettingsDialog -> SettingsDialog * bool)
  (w s : spec_float) (n : Z) :
  Forall (fun code => netnames board code = EmptyString) netcodes ->
  ShowModal (new_SettingsDialog board netcodes
               (preselected_net board IsSelected))
  = (new_SettingsDialog board netcodes (preselected_net board IsSelected),
     true) ->
  float "1.4" = Some w -> float "0.2" = Some s -> int "2" = Some n ->
  choices (net_choice (new_SettingsDialog board netcodes
                         (preselected_net board IsSelected))) = []
  /\ fst (Run FromMM float int board netcodes IsSelected ShowModal)
     = fst (split_tracks FromMM board
              {| net_name := EmptyString; split_width := w;
                 internal_sep := s; num_splits := n |})
  /\ shown (snd (Run FromMM float int board netcodes IsSelected ShowModal))
     = Split (snd (split_tracks FromMM board
                     {| net_name := EmptyString; split_width := w;
                        internal_sep := s; num_splits := n |})).
Proof.
  intros Hall Eop Ew Es En.
  pose proof (nets_nil board netcodes Hall) as Enil.
  assert (Ec : net_choice (new_SettingsDialog board netcodes
                             (preselected_net board IsSelected))
               = {| choices := []; GetSelection := None |}).
  { unfold new_SettingsDialog. cbn [net_choice]. rewrite Enil.
    unfold new_net_choice.
    destruct (preselected_net board IsSelected); reflexivity. }
  split; [rewrite Ec; reflexivity|].
  unfold Run. rewrite Eop.
  assert (Eg : get_settings float int
                 (new_SettingsDialog board netcodes
                    (preselected_net board IsSelected))
               = Some {| net_name := EmptyString; split_width := w;
                         internal_sep := s; num_splits := n |}).
  { unfold get_settings. rewrite Ec. unfold new_SettingsDialog.
    cbn [text_width text_sep text_splits]. rewrite Ew, Es, En.
    reflexivity. }
  rewrite Eg.
  destruct (split_tracks FromMM board
              {| net_name := EmptyString; split_width := w;
                 internal_sep := s; num_splits := n |}) as [b' o].
  destruct o; split; reflexivity.
Qed.

End RunProofs.

(** ** The bus and the place and sense of the track *)

Lemma vadd_swap (a v sh : VECTOR2I) :
  vadd (vadd a v) sh = vadd (vadd a sh) v.
Proof. unfold vadd. cbn [x y]. f_equal; lia. Qed.

Section Moved.

Variable FromMM : spec_float -> Z.

(** X15: the bus follows the track.  The perpendicular of lines 158-163
    depends on the difference of the ends only, so for a track moved by any
    vector it is the same, with the same exception if there is one, and the
    tracks made from the same shifts are the tracks of the bus moved by that
    vector. *)
Theorem bus_follows_the_track (settings : Settings) (v : VECTOR2I)
  (track : TRACK) :
  shift_vec (moved v track) = shift_vec track
  /\ forall (g : handle) (shs : list VECTOR2I),
       new_tracks FromMM settings (moved v track) g shs
       = map (fun ht => (fst ht, moved v (snd ht)))
           (new_tracks FromMM settings track g shs).
Proof.
  assert (Hd : direction (moved v track) = direction track).
  { unfold direction, moved, vadd. cbn. f_equal; lia. }
  split.
  - unfold shift_vec, unit_vec. rewrite Hd. reflexivity.
  - intros g shs. unfold new_tracks.
    generalize (handles_after g (List.length shs)). intros hs. revert hs.
    induction shs as [|sh shs IH]; intros hs.
    + destruct hs; reflexivity.
    + destruct hs as [|h hs]; [reflexivity|].
      cbn [map combine fst snd]. f_equal; [|apply IH].
      f_equal. unfold shifted_track, moved, SetLayer, SetNetCode, SetWidth,
        SetEnd, SetStart.
      cbn [GetStart GetEnd GetWidth GetNetCode GetLayer].
      rewrite (vadd_swap (GetStart track)), (vadd_swap (GetEnd track)).
      reflexivity.
Qed.

End Moved.

(** *** The signs of the operations *)

Lemma binary_round_aux_opp (s : bool) (m e : Z) (l : location) :
  binary_round_aux Py.prec Py.emax (negb s) m e l
  = SFopp (binary_round_aux Py.prec Py.emax s m e l).
Proof.
  unfold binary_round_aux.
  destruct (shr_fexp Py.prec Py.emax m e l) as [mrs' e'].
  destruct (shr_fexp Py.prec Py.emax
              (round_nearest_even (shr_m mrs') (loc_of_shr_record mrs')) e'
              loc_Exact) as [mrs'' e''].
  destruct (shr_m mrs''); try reflexivity.
  destruct (e'' <=? Py.emax - Py.prec); reflexivity.
Qed.

Lemma fmul_opp_opp (a b : spec_float) :
  Py.fmul (Py.fneg a) (Py.fneg b) = Py.fmul a b.
Proof.
  unfold Py.fmul, Py.fneg.
  destruct a as [sa|sa| |sa ma ea], b as [sb|sb| |sb mb eb]; cbn [SFopp SFmul];
    try reflexivity; try (destruct sa, sb; reflexivity).
Qed.

Lemma SFdiv_opp (x y : spec_float) :
  SFdiv Py.prec Py.emax (SFopp x) y = SFopp (SFdiv Py.prec Py.emax x y).
Proof.
  destruct x as [sx|sx| |sx mx ex], y as [sy|sy| |sy my ey];
    cbn [SFopp SFdiv]; try reflexivity;
    try (destruct sx, sy; reflexivity).
  destruct (SFdiv_core_binary Py.prec Py.emax (Z.pos mx) ex (Z.pos my) ey)
    as [[mz ez] lz].
  rewrite <- binary_round_aux_opp. destruct sx, sy; reflexivity.
Qed.

Lemma float_of_int_opp (a : Z) :
  a <> 0 ->
  Py.float_of_int (- a)
  = match Py.float_of_int a with
    | Ok f => Ok (Py.fneg f)
    | Raise e => Raise e
    end.
Proof.
  intros Ha. unfold Py.float_of_int, binary_normalize.
  destruct a as [|p|p]; [contradiction| |]; cbn [Z.opp]; unfold binary_round;
    destruct (shl_align p 0 (fexp Py.prec Py.emax (Z.pos (digits2_pos p) + 0)))
      as [mz ez].
  - change true with (negb false). rewrite binary_round_aux_opp.
    destruct (binary_round_aux Py.prec Py.emax false (Z.pos mz) ez loc_Exact);
      reflexivity.
  - change false with (negb true) at 1. rewrite binary_round_aux_opp.
    destruct (binary_round_aux Py.prec Py.emax true (Z.pos mz) ez loc_Exact);
      reflexivity.
Qed.

Lemma int_truediv_float_opp (a : Z) (y : spec_float) :
  a <> 0 ->
  Py.int_truediv_float (- a) y
  = match Py.int_truediv_float a y with
    | Ok u => Ok (Py.fneg u)
    | Raise e => Raise e
    end.
Proof.
  intros Ha. unfold Py.int_truediv_float. rewrite (float_of_int_opp a Ha).
  destruct (Py.float_of_int a) as [f|e]; cbn [rbind]; [|reflexivity].
  unfold Py.float_truediv. destruct (Py.is_zero y); [reflexivity|].
  unfold Py.fneg. rewrite SFdiv_opp. reflexivity.
Qed.

Lemma half_opp (k : Z) : k <> 0 -> half (- k) = Py.fneg (half k).
Proof.
  intros Hk. unfold half. rewrite !dyad_nonzero by lia.
  rewrite Z.abs_opp. rewrite <- (Zdigits2_abs (- k)), Z.abs_opp, Zdigits2_abs.
  cbn [Py.fneg SFopp]. f_equal.
  destruct (Z.ltb_spec k 0), (Z.ltb_spec (- k) 0); try reflexivity; lia.
Qed.

Lemma round_fmul_zero_half (s : bool) (k : Z) :
  Py.round (Py.fmul (S754_zero s) (half k)) = Ok 0.
Proof.
  unfold half, dyad. destruct k; reflexivity.
Qed.
Lemma round_fmul_turned (lo hi : Z) (u u' : spec_float) (k : Z) :
  zero_or_normal lo hi u ->
  u' = Py.fneg u \/ (u' = u /\ Py.is_zero u = true) ->
  Py.round (Py.fmul u' (half (- k))) = Py.round (Py.fmul u (half k))
  /\ Py.round (Py.fmul (Py.fneg u') (half (- k)))
     = Py.round (Py.fmul (Py.fneg u) (half k)).
Proof.
  intros Hu Hu'. destruct (Z.eq_dec k 0) as [->|Hk].
  - change (- 0) with 0. change (half 0) with (S754_zero false).
    assert (Hz : forall f, zero_or_normal lo hi f ->
                   Py.round (Py.fmul f (S754_zero false)) = Ok 0)
      by (intros f; apply round_fmul_zero).
    assert (Hu1 : zero_or_normal lo hi u').
    { destruct Hu' as [->|[-> _]]; [apply zero_or_normal_fneg|]; exact Hu. }
    rewrite !Hz; try apply zero_or_normal_fneg; try assumption.
    split; reflexivity.
  - rewrite (half_opp k Hk). destruct Hu' as [->|[-> Hzero]].
    + split; [apply f_equal, fmul_opp_opp|].
      apply f_equal. apply (fmul_opp_opp (Py.fneg u) (half k)).
    + destruct u as [s|s| |s m e]; try discriminate.
      rewrite <- (half_opp k Hk). cbn [Py.fneg SFopp].
      rewrite !round_fmul_zero_half. split; reflexivity.
Qed.

Section Reversed.

Variable FromMM : spec_float -> Z.

Lemma direction_reversed (track : TRACK) :
  direction (reversed track)
  = {| x := - x (direction track); y := - y (direction track) |}.
Proof. unfold direction, reversed. cbn. f_equal; lia. Qed.

Lemma int_truediv_float_turned (a : Z) (len u : spec_float) (lo hi : Z) :
  Py.int_truediv_float a len = Ok u -> zero_or_normal lo hi u ->
  exists u',
    Py.int_truediv_float (- a) len = Ok u'
    /\ (u' = Py.fneg u \/ (u' = u /\ Py.is_zero u = true)).
Proof.
  intros E Hu. destruct (Z.eq_dec a 0) as [->|Ha].
  - exists u. split; [exact E|]. right. split; [reflexivity|].
    unfold Py.int_truediv_float, Py.float_of_int in E. cbn in E.
    unfold Py.float_truediv in E. destruct (Py.is_zero len); [discriminate|].
    injection E as <-. destruct len; cbn in *; try reflexivity; contradiction.
  - exists (Py.fneg u). split; [|left; reflexivity].
    rewrite (int_truediv_float_opp a len Ha), E. reflexivity.
Qed.

(** X16: the bus does not depend on the sense of the track.  For the track
    run the other way the perpendicular is turned, and the offsets of line
    166 are symmetric, so the shift of its split [n - 1 - i] is the shift of
    split [i]: the same tracks are made, their ends exchanged, in the
    opposite order.  (Coordinates and the group width are lengths of
    [pcbnew], of 32 bits.) *)
Theorem bus_of_the_reversed_track (settings : Settings) (track : TRACK) :
  valid_config FromMM settings -> pcbnew_config FromMM settings ->
  pcbnew_track track -> GetStart track <> GetEnd track ->
  (forall sh, shifted_track FromMM settings (reversed track) sh
              = reversed (shifted_track FromMM settings track sh))
  /\ exists sv sv' : spec_float * spec_float,
       shift_vec track = Ok sv
       /\ shift_vec (reversed track) = Ok sv'
       /\ forall i, 0 <= i < num_splits settings ->
            exists sh : VECTOR2I,
              shift FromMM settings sv i = Ok sh
              /\ shift FromMM settings sv'
                   (num_splits settings - 1 - i) = Ok sh.
Proof.
  intros Hv Hc Ht Hne. split; [intros sh; reflexivity|].
  pose proof (pcbnew_config_exact FromMM settings Hc) as Hx.
  destruct (direction_bounds track Ht) as [Bx By].
  destruct (unit_vec_ok track Bx By (direction_nonzero track Hne))
    as [ux [uy [Eu [Hux Huy]]]].
  assert (Eu' := Eu). unfold unit_vec in Eu'. cbv zeta in Eu'.
  destruct (Py.int_pow_half (x (direction track) ^ 2 + y (direction track) ^ 2))
    as [len|] eqn:El; [|discriminate]. cbn [rbind] in Eu'.
  destruct (Py.int_truediv_float (x (direction track)) len) as [ux0|] eqn:Ex;
    [|discriminate]. cbn [rbind] in Eu'.
  destruct (Py.int_truediv_float (y (direction track)) len) as [uy0|] eqn:Ey;
    [|discriminate]. cbn [rbind] in Eu'.
  injection Eu' as <- <-.
  destruct (int_truediv_float_turned _ _ _ _ _ Ex Hux) as [ux' [Ex' Hx']].
  destruct (int_truediv_float_turned _ _ _ _ _ Ey Huy) as [uy' [Ey' Hy']].
  assert (Er : unit_vec (reversed track) = Ok (ux', uy')).
  { unfold unit_vec. cbv zeta. rewrite direction_reversed. cbn [x y].
    replace ((- x (direction track)) ^ 2 + (- y (direction track)) ^ 2)
      with (x (direction track) ^ 2 + y (direction track) ^ 2) by ring.
    rewrite El. cbn [rbind]. rewrite Ex'. cbn [rbind]. rewrite Ey'.
    reflexivity. }
  exists (Py.fneg uy0, ux0), (Py.fneg uy', ux').
  split; [unfold shift_vec; rewrite Eu; reflexivity|].
  split; [unfold shift_vec; rewrite Er; reflexivity|].
  intros i Hi.
  destruct (offset_iu_valid FromMM settings i Hv Hx Hi) as [E1 B1].
  destruct (offset_iu_valid FromMM settings (num_splits settings - 1 - i)
              Hv Hx ltac:(lia)) as [E2 B2].
  assert (Ek : offset_halves FromMM settings (num_splits settings - 1 - i)
               = - offset_halves FromMM settings i).
  { pose proof (offset_halves_symmetric FromMM settings i). lia. }
  rewrite Ek in E2.
  destruct (shift_ok FromMM settings (Py.fneg uy0, ux0) i Hv Hx
              (zero_or_normal_fneg _ _ _ Huy) Hux Hi) as [sh Esh].
  exists sh. split; [exact Esh|].
  unfold shift in *. rewrite E1 in Esh. rewrite E2.
  cbn [rbind fst snd] in *.
  destruct (round_fmul_turned _ _ _ _ (offset_halves FromMM settings i)
              Huy Hy') as [_ R1].
  destruct (round_fmul_turned _ _ _ _ (offset_halves FromMM settings i)
              Hux Hx') as [R2 _].
  rewrite R1, R2. exact Esh.
Qed.

End Reversed.

(** ** Rounding to the nearest binary64 number *)








(** ** The square root of a square *)







(** ** A number divided by itself, and multiplied by one *)





(** ** [round] on a half-integer *)


Lemma round_fneg (f : spec_float) :
  Py.round (Py.fneg f)
  = match Py.round f with
    | Ok z => Ok (- z)
    | Raise e => Raise e
    end.
Proof.
  destruct f as [s|s| |s m e]; try reflexivity.
  cbn [Py.fneg SFopp Py.round]. f_equal.
  destruct s; cbn [negb cond_Zopp]; lia.
Qed.



(** ** Tracks along an axis *)





Section Axis.

Variable FromMM : spec_float -> Z.


End Axis.

(** ** Tracks at 45 degrees *)

Lemma fmul_opp_l (a b : spec_float) :
  Py.fmul (Py.fneg a) b = Py.fneg (Py.fmul a b).
Proof.
  unfold Py.fmul, Py.fneg.
  destruct a as [sa|sa| |sa ma ea], b as [sb|sb| |sb mb eb]; cbn [SFopp SFmul];
    try reflexivity; try (destruct sa, sb; reflexivity).
  rewrite <- binary_round_aux_opp. destruct sa, sb; reflexivity.
Qed.

Lemma fneg_involutive (a : spec_float) : Py.fneg (Py.fneg a) = a.
Proof. destruct a as [s|s| |s m e]; cbn; rewrite ?negb_involutive; reflexivity. Qed.

Section Diagonal.

Variable FromMM : spec_float -> Z.

(** X19: a track at 45 degrees is shifted exactly across.  When the two
    components of its direction have the same size, the two components of
    every shift have the same size too, with the signs of a vector
    perpendicular to the track: the scalar product of shift and direction
    is zero.  (Coordinates and the group width are lengths of [pcbnew], of
    32 bits.) *)
Theorem diagonal_track_shifts_across (settings : Settings) (track : TRACK) :
  valid_config FromMM settings -> pcbnew_config FromMM settings ->
  pcbnew_track track -> GetStart track <> GetEnd track ->
  Z.abs (x (direction track)) = Z.abs (y (direction track)) ->
  exists sv : spec_float * spec_float,
    shift_vec track = Ok sv
    /\ forall i, 0 <= i < num_splits settings ->
         exists sh : VECTOR2I,
           shift FromMM settings sv i = Ok sh
           /\ Z.abs (x sh) = Z.abs (y sh)
           /\ x sh * x (direction track) + y sh * y (direction track) = 0.
Proof.
  intros Hv Hc Ht Hne Hd.
  pose proof (pcbnew_config_exact FromMM settings Hc) as Hx.
  destruct (direction_bounds track Ht) as [Bx By].
  destruct (unit_vec_ok track Bx By (direction_nonzero track Hne))
    as [ux [uy [Eu [Hux Huy]]]].
  assert (Eu' := Eu). unfold unit_vec in Eu'. cbv zeta in Eu'.
  destruct (Py.int_pow_half (x (direction track) ^ 2 + y (direction track) ^ 2))
    as [len|] eqn:El; [|discriminate]. cbn [rbind] in Eu'.
  destruct (Py.int_truediv_float (x (direction track)) len) as [ux0|] eqn:Ex;
    [|discriminate]. cbn [rbind] in Eu'.
  destruct (Py.int_truediv_float (y (direction track)) len) as [uy0|] eqn:Ey;
    [|discriminate]. cbn [rbind] in Eu'.
  injection Eu' as <- <-.
  exists (Py.fneg uy0, ux0).
  split; [unfold shift_vec; rewrite Eu; reflexivity|].
  intros i Hi.
  destruct (shift_ok FromMM settings (Py.fneg uy0, ux0) i Hv Hx
              (zero_or_normal_fneg _ _ _ Huy) Hux Hi) as [sh Esh].
  exists sh. split; [exact Esh|].
  unfold shift in Esh.
  destruct (offset_iu FromMM settings i) as [o|]; [|discriminate].
  cbn [rbind fst snd] in Esh.
  destruct (Py.round (Py.fmul (Py.fneg uy0) o)) as [sx|] eqn:Rx;
    [|discriminate]. cbn [rbind] in Esh.
  destruct (Py.round (Py.fmul ux0 o)) as [sy|] eqn:Ry; [|discriminate].
  cbn [rbind] in Esh. injection Esh as <-. cbn [x y].
  assert (Hcase : y (direction track) = x (direction track)
                  \/ y (direction track) = - x (direction track)) by lia.
  destruct Hcase as [E|E].
  - rewrite E in Ey. rewrite Ex in Ey. injection Ey as <-.
    rewrite fmul_opp_l, round_fneg, Ry in Rx. injection Rx as <-.
    rewrite E. split; lia.
  - assert (Hx0 : x (direction track) <> 0).
    { intros H0. apply (direction_nonzero track Hne).
      destruct (direction track) as [a b]. cbn [x y] in *. subst. reflexivity. }
    rewrite E, (int_truediv_float_opp _ _ Hx0), Ex in Ey.
    injection Ey as <-. rewrite fneg_involutive, Ry in Rx.
    injection Rx as <-. rewrite E. split; lia.
Qed.

End Diagonal.

(** ** The theorems on the example board *)

Lemma process_track_cluster_witness :
  valid_config FromMM_nm dialog_defaults
  /\ pcbnew_config FromMM_nm dialog_defaults
  /\ pcbnew_track (track_between 0 0 3000000 4000000 1)
  /\ exists new : list (handle * TRACK),
       process_track FromMM_nm dialog_defaults
         (3%nat, track_between 0 0 3000000 4000000 1) 0 example_board
       = (replaced example_board 3 4 new, Ok 2)
       /\ Z.of_nat (List.length new) = 2
       /\ Forall (fun ht =>
                    GetLayer (snd ht) = 0
                    /\ GetNetCode (snd ht) = 1
                    /\ GetWidth (snd ht)
                       = split_width_iu FromMM_nm dialog_defaults) new
       /\ NoDup (map fst new)
       /\ (forall h', In h' (map fst new) -> ~ In h' (handles example_board)).
Proof.
  assert (H1 : valid_config FromMM_nm dialog_defaults) by by_computation.
  assert (H2 : pcbnew_config FromMM_nm dialog_defaults) by by_computation.
  assert (H3 : pcbnew_track (track_between 0 0 3000000 4000000 1))
    by by_computation.
  split; [exact H1|]. split; [exact H2|]. split; [exact H3|].
  apply (process_track_cluster FromMM_nm dialog_defaults 3%nat
           (track_between 0 0 3000000 4000000 1) 0 example_board H1 H2 H3);
    by_computation.
Defined.

Lemma process_track_translates_witness :
  exists new : list (handle * TRACK),
    process_track FromMM_nm dialog_defaults
      (1%nat, track_between 0 0 1000000 0 1) 0 example_board
    = (replaced example_board 1 4 new, Ok 2)
    /\ Z.of_nat (List.length new) = 2
    /\ Forall (fun ht =>
                 (exists sh : VECTOR2I,
                     GetStart (snd ht) = vadd {| x := 0; y := 0 |} sh
                     /\ GetEnd (snd ht) = vadd {| x := 1000000; y := 0 |} sh)
                 /\ vsub (GetEnd (snd ht)) (GetStart (snd ht))
                    = {| x := 1000000; y := 0 |}) new.
Proof.
  apply (process_track_translates FromMM_nm dialog_defaults 1%nat
           (track_between 0 0 1000000 0 1) 0 example_board);
    by_computation.
Defined.

Lemma offsets_symmetric_witness :
  valid_config FromMM_nm dialog_defaults
  /\ pcbnew_config FromMM_nm dialog_defaults
  /\ (exists o o' : spec_float,
         offset_iu FromMM_nm dialog_defaults 0 = Ok o
         /\ offset_iu FromMM_nm dialog_defaults 1 = Ok o'
         /\ Py.fadd o o' = S754_zero false
         /\ (Py.value o + Py.value o' == 0)%Q)
  /\ exists offsets : list spec_float,
       Forall2 (fun i o => offset_iu FromMM_nm dialog_defaults i = Ok o)
         [0; 1] offsets
       /\ (Qsum (map Py.value offsets) == 0)%Q.
Proof.
  assert (H1 : valid_config FromMM_nm dialog_defaults) by by_computation.
  assert (H2 : pcbnew_config FromMM_nm dialog_defaults) by by_computation.
  split; [exact H1|]. split; [exact H2|].
  destruct (offsets_symmetric FromMM_nm dialog_defaults H1 H2) as [Hsym Hsum].
  split; [|exact Hsum].
  apply (Hsym 0). by_computation.
Defined.



Lemma single_split_keeps_the_path_witness :
  process_track FromMM_nm one_split (1%nat, track_between 0 0 1000000 0 1) 0
    example_board
  = (replaced example_board 1 4
       [(5%nat,
         SetWidth (split_width_iu FromMM_nm one_split)
           (track_between 0 0 1000000 0 1))],
     Ok 1).
Proof.
  apply (single_split_keeps_the_path FromMM_nm one_split 1%nat
           (track_between 0 0 1000000 0 1) 0 example_board);
    by_computation.
Defined.

Lemma split_tracks_keeps_other_nets_witness :
  keeps_other_nets example_board (net_name dialog_defaults)
    (fst (split_tracks FromMM_nm example_board dialog_defaults)).
Proof.
  apply (split_tracks_keeps_other_nets FromMM_nm example_board
           dialog_defaults).
  NoDup_by_computation.
Defined.

Lemma split_tracks_counts_witness :
  2%nat = List.length (tracks_to_process example_board
                         (net_name dialog_defaults))
  /\ (0 < 2)%nat
  /\ 4 = Z.of_nat 2 * num_splits dialog_defaults
  /\ List.length
       (Groups (fst (split_tracks FromMM_nm example_board dialog_defaults)))
     = (List.length (Groups example_board) + 2)%nat.
Proof.
  apply (split_tracks_counts FromMM_nm example_board dialog_defaults 2 4).
  vm_compute. reflexivity.
Defined.

Lemma split_tracks_replaces_every_track_witness :
  exists clusters : list (handle * list (handle * TRACK)),
    Forall2 (fun ht c => bus_of FromMM_nm dialog_defaults (snd ht) (snd c)
                         /\ made_after (list_max (handles example_board)) c)
      (tracks_to_process example_board (net_name dialog_defaults)) clusters
    /\ split_tracks FromMM_nm example_board dialog_defaults
       = ({| GetTracks :=
               filter (on_other_net example_board (net_name dialog_defaults))
                 (GetTracks example_board)
               ++ flat_map snd clusters;
             Groups := Groups example_board ++ map group_of clusters;
             netnames := netnames example_board |},
          FinishedBox
            (List.length
               (tracks_to_process example_board (net_name dialog_defaults)))
            (Z.of_nat
               (List.length
                  (tracks_to_process example_board
                     (net_name dialog_defaults)))
             * num_splits dialog_defaults)).
Proof.
  assert (H1 : valid_config FromMM_nm dialog_defaults) by by_computation.
  assert (H2 : pcbnew_config FromMM_nm dialog_defaults) by by_computation.
  assert (H3 : NoDup (map fst (GetTracks example_board)))
    by NoDup_by_computation.
  assert (H4 : tracks_to_process example_board (net_name dialog_defaults)
               <> []) by (vm_compute; discriminate).
  assert (H5 : Forall (fun ht => pcbnew_track (snd ht)
                                 /\ GetStart (snd ht) <> GetEnd (snd ht))
                 (tracks_to_process example_board
                    (net_name dialog_defaults)))
    by Forall_by_computation.
  exact (split_tracks_replaces_every_track FromMM_nm example_board
           dialog_defaults H1 H2 H3 H4 H5).
Defined.

Lemma split_tracks_selects_the_new_tracks_witness :
  Z.of_nat
    (List.length
       (tracks_to_process
          (fst (split_tracks FromMM_nm example_board dialog_defaults))
          (net_name dialog_defaults)))
  = Z.of_nat
      (List.length (tracks_to_process example_board
                      (net_name dialog_defaults)))
    * num_splits dialog_defaults
  /\ Forall (fun ht => ~ In (fst ht) (handles example_board)
                       /\ GetWidth (snd ht)
                          = split_width_iu FromMM_nm dialog_defaults)
       (tracks_to_process
          (fst (split_tracks FromMM_nm example_board dialog_defaults))
          (net_name dialog_defaults)).
Proof.
  assert (H1 : valid_config FromMM_nm dialog_defaults) by by_computation.
  assert (H2 : pcbnew_config FromMM_nm dialog_defaults) by by_computation.
  assert (H3 : NoDup (map fst (GetTracks example_board)))
    by NoDup_by_computation.
  assert (H4 : tracks_to_process example_board (net_name dialog_defaults)
               <> []) by (vm_compute; discriminate).
  assert (H5 : Forall (fun ht => pcbnew_track (snd ht)
                                 /\ GetStart (snd ht) <> GetEnd (snd ht))
                 (tracks_to_process example_board
                    (net_name dialog_defaults)))
    by Forall_by_computation.
  exact (split_tracks_selects_the_new_tracks FromMM_nm example_board
           dialog_defaults H1 H2 H3 H4 H5).
Defined.

Lemma split_tracks_stops_at_zero_length_witness :
  exists clusters : list (handle * list (handle * TRACK)),
    Forall2 (fun ht c => bus_of FromMM_nm dialog_defaults (snd ht) (snd c)
                         /\ made_after (list_max (handles late_point_board))
                              c)
      [(1%nat, track_between 0 0 1000000 0 1)] clusters
    /\ split_tracks FromMM_nm late_point_board dialog_defaults
       = (with_empty_group
            (with_clusters late_point_board
               (map fst [(1%nat, track_between 0 0 1000000 0 1)]) clusters),
          Uncaught ZeroDivisionError)
    /\ Forall (fun ht =>
                 In ht (GetTracks
                          (with_empty_group
                             (with_clusters late_point_board
                                (map fst
                                   [(1%nat, track_between 0 0 1000000 0 1)])
                                clusters))))
         [(2%nat, track_between 7 7 7 7 1);
          (3%nat, track_between 0 0 3000000 4000000 1)].
Proof.
  assert (H1 : valid_config FromMM_nm dialog_defaults) by by_computation.
  assert (H2 : pcbnew_config FromMM_nm dialog_defaults) by by_computation.
  assert (H3 : NoDup (map fst (GetTracks late_point_board)))
    by NoDup_by_computation.
  assert (H4 : tracks_to_process late_point_board (net_name dialog_defaults)
               = [(1%nat, track_between 0 0 1000000 0 1)]
                 ++ (2%nat, track_between 7 7 7 7 1)
                    :: [(3%nat, track_between 0 0 3000000 4000000 1)])
    by (vm_compute; reflexivity).
  assert (H5 : Forall (fun ht => pcbnew_track (snd ht)
                                 /\ GetStart (snd ht) <> GetEnd (snd ht))
                 [(1%nat, track_between 0 0 1000000 0 1)])
    by Forall_by_computation.
  assert (H6 : GetStart (track_between 7 7 7 7 1)
               = GetEnd (track_between 7 7 7 7 1)) by reflexivity.
  exact (split_tracks_stops_at_zero_length FromMM_nm late_point_board
           dialog_defaults [(1%nat, track_between 0 0 1000000 0 1)]
           [(3%nat, track_between 0 0 3000000 4000000 1)] 2%nat
           (track_between 7 7 7 7 1) H1 H2 H3 H4 H5 H6).
Defined.


Lemma Run_splits_the_preselected_net_witness :
  fst (Run FromMM_nm float_of_text int_of_text example_board [1; 2]
         third_selected accepts)
  = fst (split_tracks FromMM_nm example_board
           {| net_name := "GND"; split_width := mm_1_4;
              internal_sep := mm_0_2; num_splits := 2 |})
  /\ shown (snd (Run FromMM_nm float_of_text int_of_text example_board
                   [1; 2] third_selected accepts))
     = Split (snd (split_tracks FromMM_nm example_board
                     {| net_name := "GND"; split_width := mm_1_4;
                        internal_sep := mm_0_2; num_splits := 2 |})).
Proof.
  apply (Run_splits_the_preselected_net FromMM_nm float_of_text int_of_text
           example_board [1; 2] third_selected accepts "GND" mm_1_4
           mm_0_2 2);
    try reflexivity.
  Forall_by_computation.
Defined.

Lemma Run_invalid_input_witness :
  Run FromMM_nm float_of_text int_of_text example_board [1; 2]
    third_selected writes_two
  = (example_board, {| shown := InvalidInputBox; Destroyed := false |}).
Proof.
  apply (Run_invalid_input FromMM_nm float_of_text int_of_text example_board
           [1; 2] third_selected writes_two
           (fst (writes_two
                   (new_SettingsDialog example_board [1; 2]
                      (preselected_net example_board third_selected))))).
  - reflexivity.
  - right. right. reflexivity.
Defined.

Lemma bus_of_the_reversed_track_witness :
  exists sv sv' : spec_float * spec_float,
    shift_vec (track_between 0 0 3000000 4000000 1) = Ok sv
    /\ shift_vec (reversed (track_between 0 0 3000000 4000000 1)) = Ok sv'
    /\ forall i, 0 <= i < num_splits dialog_defaults ->
         exists sh : VECTOR2I,
           shift FromMM_nm dialog_defaults sv i = Ok sh
           /\ shift FromMM_nm dialog_defaults sv'
                (num_splits dialog_defaults - 1 - i) = Ok sh.
Proof.
  assert (H1 : valid_config FromMM_nm dialog_defaults) by by_computation.
  assert (H2 : pcbnew_config FromMM_nm dialog_defaults) by by_computation.
  assert (H3 : pcbnew_track (track_between 0 0 3000000 4000000 1))
    by by_computation.
  assert (H4 : GetStart (track_between 0 0 3000000 4000000 1)
               <> GetEnd (track_between 0 0 3000000 4000000 1))
    by by_computation.
  exact (proj2 (bus_of_the_reversed_track FromMM_nm dialog_defaults
                  (track_between 0 0 3000000 4000000 1) H1 H2 H3 H4)).
Defined.

Lemma Run_without_nets_witness :
  choices (net_choice (new_SettingsDialog unnamed_board [0]
                         (preselected_net unnamed_board none_selected))) = []
  /\ fst (Run FromMM_nm float_of_text int_of_text unnamed_board [0]
            none_selected accepts)
     = fst (split_tracks FromMM_nm unnamed_board
              {| net_name := EmptyString; split_width := mm_1_4;
                 internal_sep := mm_0_2; num_splits := 2 |})
  /\ shown (snd (Run FromMM_nm float_of_text int_of_text unnamed_board [0]
                   none_selected accepts))
     = Split (snd (split_tracks FromMM_nm unnamed_board
                     {| net_name := EmptyString; split_width := mm_1_4;
                        internal_sep := mm_0_2; num_splits := 2 |})).
Proof.
  apply (Run_without_nets FromMM_nm float_of_text int_of_text unnamed_board
           [0] none_selected accepts mm_1_4 mm_0_2 2);
    try reflexivity.
  repeat constructor.
Defined.


Lemma diagonal_track_shifts_across_witness :
  exists sv : spec_float * spec_float,
    shift_vec (track_between 0 0 5 5 2) = Ok sv
    /\ forall i, 0 <= i < num_splits dialog_defaults ->
         exists sh : VECTOR2I,
           shift FromMM_nm dialog_defaults sv i = Ok sh
           /\ Z.abs (x sh) = Z.abs (y sh)
           /\ x sh * x (direction (track_between 0 0 5 5 2))
              + y sh * y (direction (track_between 0 0 5 5 2)) = 0.
Proof.
  assert (H1 : valid_config FromMM_nm dialog_defaults) by by_computation.
  assert (H2 : pcbnew_config FromMM_nm dialog_defaults) by by_computation.
  assert (H3 : pcbnew_track (track_between 0 0 5 5 2)) by by_computation.
  assert (H4 : GetStart (track_between 0 0 5 5 2)
               <> GetEnd (track_between 0 0 5 5 2)) by by_computation.
  assert (H5 : Z.abs (x (direction (track_between 0 0 5 5 2)))
               = Z.abs (y (direction (track_between 0 0 5 5 2))))
    by reflexivity.
  exact (diagonal_track_shifts_across FromMM_nm dialog_defaults
           (track_between 0 0 5 5 2) H1 H2 H3 H4 H5).
Defined.
